(* ===== verification/_CoqProject ===== *)
-Q . S2P
Prelude.v
PyText.v
PyFloat.v
PyRepr.v
PyIO.v
StrainReduce.v
ResultsFile.v
ResultsGui.v
ColumnExtractor.v
Barfiber.v
BarfiberAcc.v
