(* ===== verification/Prelude.v ===== *)
(** * Verification of ops_PostProcessing: the three post-processing scripts

    The repository holds three independent desktop utilities that read
    whitespace- or tab-delimited text produced by a simulation tool and
    write tables derived from it:

    - [src/process_results.py] ([ResultProcessor]): the user ticks some
      "A" elements (100 ... 700) and pairs each with a results file; for
      every ticked "b" column (0.1g ... 1.7g) function 1 writes the strain
      distribution table and function 2 writes, per A element, the
      maximum strain among the rows whose threshold c satisfies
      [c*10 <= a] (the "RC" value) and [a <= c*10] (the "ECC" value)
      ([process_strain_data]).
    - [src/process_barfiber.py]: for every folder, the files named
      [S2_B*_IDA_8.5MPa_barfiber*.out] are reduced to the maximum
      absolute value of their last column (times 1000) and tabulated by
      the file's "B" number and barfiber number.
    - [src/column_extractor.py]: copies column [n] of every non-blank line
      of each input file into a new file, "error" for short lines.

    The scripts share no state; they interact only with the Python
    runtime (string and float builtins) and the file system.

    ** Layout of the development

    Runtime models (Python library, not repository code):
    - [Prelude] (this file): Python exceptions ([py_exc]), the result type
      [res] of code that can raise (with stdpp's monad notation
      [x ← c; k]), list indexing [py_getitem] (negative indices,
      [IndexError]), [list.index], dict lookup on association lists, the
      [py] hint databases, the [res_inv] tactic and shared list lemmas.
    - [PyText]: the [str] builtins the scripts call ([isspace], [strip],
      [split()], [split(sep)], [join], [readlines], [startswith],
      [endswith], [str(int)]) and their round-trip lemmas.
    - [PyFloat]: floats with [NaN], [+-inf], signed zero and exact
      rational values; IEEE comparisons, [max(a, b)], [max(iterable)]
      ([py_max_list]), [abs], multiplication by an [int], [float(str)] and
      [int(str)]; the numeric equivalence [feq] with [Proper] instances;
      the interface [FloatStr] of [str(float)] (no tab, no newline, never
      ["error"]), against which the writers are proved.
    - [PyRepr]: a decimal printer, an instance of [FloatStr].
    - [PyIO]: the world of a script (files by path in a [gmap], the boxes
      shown), the state-and-exception monad [io], [try]/[except],
      [open]/[write], [os.path.join]/[basename]; the [quiet] predicate of
      computations that show nothing, the append lemmas, and the frame
      predicate [only_writes P c] (c changes no file outside [P]) with
      one closure lemma per construct, registered as hints.

    The three scripts:
    - [StrainReduce]: [process_strain_data] (process_results.py 181-208),
      one definition per loop ([rc_max] for [y1], [ecc_max] for [y2]),
      the spec's "ThresholdExtremumReducer", with an abstract contract
      ([reduces_to]) and the refinement theorem.
    - [ResultsFile]: [read_results_file] (159-179) and the two generators
      [generate_function1_output] (244-272) and [generate_function2_output]
      (274-310), writing through [io].
    - [ResultsGui]: the [ResultProcessor] window as a transition function
      [handle] on [rp_state] ([select_file], [reset_selection],
      [start_function1/2], [generate_output], [return_to_main],
      [update_file_list] where the code calls it, [on_closing]/[cleanup])
      and the reachable states as an inductive relation.
    - [ColumnExtractor]: [extract_column], the batch of [on_confirm], the
      column dialog as a transition function [ce_handle], and the
      command-line entry [ce_main] (column_extractor.py).
    - [Barfiber]: [process_file], [extract_numbers] and its regular
      expressions, the per-folder dictionaries, [sorted], the results
      table, [write_error_log] and [process_folders]
      (process_barfiber.py).
    - [BarfiberAcc]: the shape [acc_wf] the per-folder dictionaries keep
      (keys of [results] = [all_num_b], numeric and pairwise different,
      non-empty inner dicts over [all_num_a]), proved for every entry of
      [folder_dicts] (the dictionaries after the loop of lines 111-127),
      and what it gives the table.

    ** What the theorems show

    - Function 2 (strain maxima): the reduction meets the spec's contract
      (C1, a refinement of [reduces_to]); for one label the generator
      writes exactly [max_strain_<b>.txt] from it, or raises and writes
      nothing (C2); the reduction is total on well-formed input (C4),
      raises on a bad cell instead of using ERROR (C5), gives ERROR for an
      all-error column (C6), ignores the row order up to [feq] (C14) but
      returns the first of equal maxima, so a signed zero depends on the
      row order (C15), and skips [NaN] rows (C16).
    - Function 1 (strain distribution): for one label the generator
      writes exactly the table of the files' columns (C3); a column of
      [k] rows shorter than the first file raises at row [k] and leaves
      the header and the first [k] rows (C12); missing files give
      ["error"] cells and one box per row and missing file, without an
      exception (C13).
    - The window: a missing first file ends in the success box (C7); the
      generate guard compares counts, so an unpaired first element ends
      in a [KeyError] box (C8); [selected_files] only pairs A values with paths (C11); a
      check box changes the ticked elements but not the file list (C39) but never shows
      a stale pairing (C40).
    - Reading results files: a rendered table reads back (C9); a blank
      first or last cell in any data row makes the file unreadable when
      its last column is a strain column (C10).
    - The column extractor (C17-C24): the copy on tables, the emptied
      input when input is output, the exit status that ignores failures,
      the batch counts every file once, a blank first line rejects a
      file, output names never equal their input, two inputs with one root
      give one output and two successes (C22), and a
      cancelled dialog leaves a windowless process.
    - The barfiber tables (C25-C31): the largest absolute value, [nan] in
      the first place wins, a bad number in a name stops the run,
      labels are sorted by
      key, a table row splits back with an unambiguous ["error"], and the
      intended file names are recognised and their numbers read.  The
      dictionaries of a folder are well formed (C36), so no row and no
      column of its table is all ["error"] (C37), and the table has at most
      one row and one column per matching file name (C38); of two files
      with the same [(a, b)] the last listed sets the cell (C28).
    - Which files are written (C32-C35): whatever the inputs and however
      a run ends, the column extractor's command line writes only its
      output argument, its dialog only under the chosen output folders,
      the barfiber run only [<folder>_results.txt] and its error log in
      the output folder, and a [ResultProcessor] session only the two
      tables of [array_B] labels in the folders chosen for Generate; the
      input files are never changed.

    ** Bounds and fuel

    Every definition is structural: loops run over the lists they iterate
    (lines of a file, files, folders, events), so there is no fuel.  The
    decimal printer of [PyRepr] cuts a non-terminating expansion after 17
    decimals, which parsed decimal literals never have.  Integers are
    unbounded as in Python.

    ** Not modelled

    Rounding of decimal literals and of products, overflow and underflow;
    text encodings (strings are 8-bit, [str.isspace] is ASCII); Tk
    widget layout and window centring (process_results.py 23-29,
    46-56), which change no state the scripts read (dialog answers are
    explicit inputs, [os.listdir] and the clock are oracles);
    [print] to the console, which the model records as a message; directories and
    permission errors (opening a file for writing always succeeds);
    names containing a newline, which the regular expressions treat
    specially. *)

From Stdlib Require Export String Ascii ZArith Lia.
From stdpp Require Export base list decidable strings.

Declare Scope py_scope.
Delimit Scope py_scope with py.

(** ** Python exceptions and the result of code that may raise *)

(** The exceptions the scripts can raise on the paths modelled; the
    string is the offending input where Python reports one. *)
Inductive py_exc :=
| ValueError (what : string)
| IndexError
| KeyError (what : string)
| OSError (path : string).

#[export] Instance py_exc_eq_dec : EqDecision py_exc.
Proof. solve_decision. Defined.

(** [Ok v] is a normal return, [Raise e] an exception in flight. *)
Inductive res (A : Type) :=
| Ok (v : A)
| Raise (e : py_exc).
Arguments Ok {A} v.
Arguments Raise {A} e.

#[export] Instance res_ret : MRet res := @Ok.
#[export] Instance res_bind : MBind res :=
  fun A B (f : A -> res B) (c : res A) =>
    match c with Ok v => f v | Raise e => Raise e end.
#[export] Instance res_fmap : FMap res :=
  fun A B (f : A -> B) (c : res A) =>
    match c with Ok v => Ok (f v) | Raise e => Raise e end.

Notation "'throw' e" := (Raise e) (at level 10) : py_scope.
Open Scope py_scope.

(** [map] of a function that may raise: the first exception wins, as in a
    Python list comprehension. *)
Fixpoint res_map {A B} (f : A -> res B) (l : list A) : res (list B) :=
  match l with
  | [] => Ok []
  | x :: l' => y ← f x; ys ← res_map f l'; Ok (y :: ys)
  end.

(** ** Python list indexing *)

(** [l[i]] for an integer [i]: negative indices count from the end,
    anything else out of range raises [IndexError]. *)
Definition py_getitem {A} (l : list A) (i : Z) : res A :=
  let n := Z.of_nat (length l) in
  let j := if Z.ltb i 0 then (i + n)%Z else i in
  if Z.leb 0 j && Z.ltb j n then
    match l !! Z.to_nat j with Some x => Ok x | None => Raise IndexError end
  else Raise IndexError.

(** [l.index(x)]: position of the first occurrence, [ValueError] if none. *)
Fixpoint py_list_index {A} `{EqDecision A} (l : list A) (x : A) : res nat :=
  match l with
  | [] => Raise (ValueError "x not in list")
  | y :: l' => if decide (x = y) then Ok 0 else S <$> py_list_index l' x
  end.

(** [k in d] and [d[k]] on a Python dict kept as an association list in
    insertion order (keys are distinct when the code builds it). *)
Fixpoint assoc_lookup {K V} `{EqDecision K} (k : K) (d : list (K * V)) : option V :=
  match d with
  | [] => None
  | (k', v) :: d' => if decide (k = k') then Some v else assoc_lookup k d'
  end.

(** [enumerate(l)]. *)
Definition enumerate {A} (l : list A) : list (nat * A) := zip (seq 0 (length l)) l.

(** ** Lemmas on [res] *)

Lemma bind_Ok {A B} (c : res A) (f : A -> res B) v :
  (x ← c; f x) = Ok v <-> exists x, c = Ok x /\ f x = Ok v.
Proof.
  destruct c as [x|e]; simpl; split.
  - intros H. by exists x.
  - by intros (y & [= ->] & H).
  - discriminate.
  - by intros (y & ? & _).
Qed.

Lemma bind_Ok_l {A B} (x : A) (f : A -> res B) : (Ok x ≫= f) = f x.
Proof. done. Qed.

Lemma bind_Raise_inv {A B} (c : res A) (f : A -> res B) e :
  (x ← c; f x) = Raise e -> c = Raise e \/ exists x, c = Ok x /\ f x = Raise e.
Proof. destruct c as [x|e']; simpl; [eauto | by intros [= ->]; left]. Qed.

Lemma fmap_Ok {A B} (f : A -> B) (c : res A) v :
  f <$> c = Ok v <-> exists x, c = Ok x /\ v = f x.
Proof.
  destruct c as [x|e]; simpl; split.
  - intros [= <-]. eauto.
  - by intros (y & [= ->] & ->).
  - discriminate.
  - by intros (y & ? & _).
Qed.

Lemma res_map_Ok {A B} (f : A -> res B) l ys :
  res_map f l = Ok ys <-> Forall2 (fun x y => f x = Ok y) l ys.
Proof.
  revert ys; induction l as [|x l IH]; intros ys; simpl.
  - split; [intros [= <-]; constructor | by inversion 1].
  - rewrite bind_Ok. split.
    + intros (y & Hy & H). apply bind_Ok in H as (ys' & Hys & [= <-]).
      constructor; [done | by apply IH].
    + inversion 1; subst. exists y. split; [done|].
      apply bind_Ok. exists l'. split; [by apply IH | done].
Qed.

Lemma res_map_length {A B} (f : A -> res B) l ys :
  res_map f l = Ok ys -> length ys = length l.
Proof. rewrite res_map_Ok. intros H. symmetry. by eapply Forall2_length. Qed.

(** Totality of [res_map]: if [f] succeeds on every element, so does the map. *)
Lemma res_map_total {A B} (f : A -> res B) l :
  (forall x, x ∈ l -> exists y, f x = Ok y) -> exists ys, res_map f l = Ok ys.
Proof.
  induction l as [|x l IH]; intros Hf; simpl; [by eexists|].
  destruct (Hf x) as [y ->]; [by left|]. simpl.
  destruct IH as [ys ->]; [intros z Hz; apply Hf; by right|]. simpl. by eexists.
Qed.

(** A map whose every call returns [g x] returns [g <$> l]. *)
Lemma res_map_fmap {A B} (f : A -> res B) (g : A -> B) l :
  (forall x, x ∈ l -> f x = Ok (g x)) -> res_map f l = Ok (g <$> l).
Proof.
  induction l as [|x l IH]; intros Hf; simpl; [done|].
  rewrite Hf by by left. simpl. rewrite IH; [done|]. intros y Hy. apply Hf. by right.
Qed.

Lemma res_map_fmap_comp {A A' B} (f : A' -> res B) (h : A -> A') (g : A -> B) l :
  (forall x, x ∈ l -> f (h x) = Ok (g x)) -> res_map f (h <$> l) = Ok (g <$> l).
Proof.
  induction l as [|x l IH]; intros Hf; [done|].
  rewrite !fmap_cons. cbn [res_map]. rewrite Hf by by left.
  rewrite IH; [done|]. intros y Hy. apply Hf. by right.
Qed.

(** The first failing element decides the exception of the whole map. *)
Lemma res_map_app_Raise {A B} (f : A -> res B) l1 x l2 e :
  (forall y, y ∈ l1 -> exists z, f y = Ok z) -> f x = Raise e ->
  res_map f (l1 ++ x :: l2) = Raise e.
Proof.
  induction l1 as [|y l1 IH]; intros Hok Hx; simpl.
  - by rewrite Hx.
  - destruct (Hok y) as [z ->]; [by left|]. simpl.
    rewrite IH; [done | intros w Hw; apply Hok; by right | done].
Qed.

(** When [f] can raise only [e], so can the map, and it does as soon as
    one element raises. *)
Lemma res_map_only_raise {A B} (f : A -> res B) l e :
  (forall x, x ∈ l -> (exists y, f x = Ok y) \/ f x = Raise e) ->
  (exists ys, res_map f l = Ok ys) \/ res_map f l = Raise e.
Proof.
  induction l as [|x l IH]; intros Hf; simpl; [by left; eexists|].
  destruct (Hf x) as [[y ->]| ->]; [by left | | by right]. simpl.
  destruct IH as [[ys ->]| ->]; [intros z Hz; apply Hf; by right | by left; eexists | by right].
Qed.

Lemma res_map_raise_some {A B} (f : A -> res B) l e x :
  (forall x, x ∈ l -> (exists y, f x = Ok y) \/ f x = Raise e) ->
  x ∈ l -> f x = Raise e -> res_map f l = Raise e.
Proof.
  induction l as [|y l IH]; intros Hf Hx Hfx; simpl; [by apply elem_of_nil in Hx|].
  destruct (Hf y) as [[z Hz]|Hz]; [by left | | by rewrite Hz].
  rewrite Hz. simpl. apply elem_of_cons in Hx as [->|Hx]; [congruence|].
  rewrite IH; [done | intros w Hw; apply Hf; by right | done | done].
Qed.

(** ** Lemmas on association lists *)

Lemma assoc_lookup_elem {K V} `{EqDecision K} (k : K) (d : list (K * V)) :
  k ∈ fst <$> d -> exists v, assoc_lookup k d = Some v.
Proof.
  induction d as [|[k' v] d IH]; simpl; [by intros ?%elem_of_nil|].
  rewrite elem_of_cons. case_decide; [by eexists|]. intros [->|Hk]; [done|]. by apply IH.
Qed.

(** ** Lemmas on Python indexing *)

Lemma enumerate_lookup {A} (l : list A) i x : l !! i = Some x -> enumerate l !! i = Some (i, x).
Proof.
  intros H. unfold enumerate. apply lookup_zip_Some. split; [|done].
  rewrite lookup_seq_lt; [done|]. by eapply lookup_lt_Some.
Qed.

Lemma length_enumerate {A} (l : list A) : length (enumerate l) = length l.
Proof. unfold enumerate. rewrite length_zip, length_seq. lia. Qed.

Lemma enumerate_lookup_inv {A} (l : list A) i j x : enumerate l !! j = Some (i, x) -> i = j /\ l !! j = Some x.
Proof. unfold enumerate. intros [Hs Hx]%lookup_zip_Some. apply lookup_seq in Hs as [-> _]. done. Qed.

Lemma py_getitem_cases {A} (l : list A) i :
  (exists x, py_getitem l i = Ok x) \/ py_getitem l i = Raise IndexError.
Proof. unfold py_getitem. repeat case_match; eauto. Qed.

Lemma py_getitem_nat {A} (l : list A) (i : nat) :
  (i < length l)%nat -> py_getitem l (Z.of_nat i) = match l !! i with Some x => Ok x | None => Raise IndexError end.
Proof.
  intros Hi. unfold py_getitem.
  replace (Z.of_nat i <? 0)%Z with false by lia.
  replace ((0 <=? Z.of_nat i)%Z && (Z.of_nat i <? Z.of_nat (length l))%Z) with true by lia.
  by rewrite Nat2Z.id.
Qed.

Lemma py_getitem_lookup {A} (l : list A) (i : nat) x :
  l !! i = Some x -> py_getitem l (Z.of_nat i) = Ok x.
Proof.
  intros H. rewrite py_getitem_nat; [by rewrite H|].
  by eapply lookup_lt_Some.
Qed.

Lemma py_getitem_head {A} (x : A) l : py_getitem (x :: l) 0 = Ok x.
Proof. done. Qed.

Lemma py_getitem_out {A} (l : list A) (i : Z) :
  (Z.of_nat (length l) <= i)%Z -> py_getitem l i = Raise IndexError.
Proof.
  intros H. unfold py_getitem.
  replace (i <? 0)%Z with false by lia.
  replace ((0 <=? i)%Z && (i <? Z.of_nat (length l))%Z) with false by lia.
  done.
Qed.

Lemma py_getitem_nat_Ok {A} (l : list A) (i : nat) x :
  py_getitem l (Z.of_nat i) = Ok x <-> l !! i = Some x.
Proof.
  split; [|apply py_getitem_lookup].
  destruct (decide (i < length l)) as [Hi|Hi].
  - rewrite py_getitem_nat by done. destruct (l !! i); [by intros [= ->] | discriminate].
  - rewrite py_getitem_out by lia. discriminate.
Qed.

Lemma py_list_index_first {A} `{EqDecision A} (l : list A) x i :
  py_list_index l x = Ok i <-> l !! i = Some x /\ forall j, (j < i)%nat -> l !! j <> Some x.
Proof.
  revert i; induction l as [|y l IH]; intros i; simpl.
  - split; [discriminate | by intros [? _]].
  - case_decide as Hxy; subst.
    + split.
      * intros [= <-]. split; [done | intros j Hj; lia].
      * intros [Hi Hmin]. destruct i as [|i]; [done|].
        exfalso. apply (Hmin 0%nat); [lia | done].
    + rewrite fmap_Ok. split.
      * intros (k & Hk & ->). apply IH in Hk as [Hk Hmin].
        split; [done|]. intros [|j] Hj; simpl; [congruence|].
        apply Hmin. lia.
      * intros [Hi Hmin]. destruct i as [|i]; simpl in Hi; [congruence|].
        exists i. split; [|done]. apply IH. split; [done|].
        intros j Hj. apply (Hmin (S j)). lia.
Qed.

Lemma py_list_index_elem {A} `{EqDecision A} (l : list A) x :
  x ∈ l -> exists j, py_list_index l x = Ok j /\ (j < length l)%nat.
Proof.
  induction l as [|y l IH]; simpl; [by intros ?%elem_of_nil|].
  case_decide as Hxy; [exists 0%nat; split; [done | lia]|].
  intros [->|Hin]%elem_of_cons; [done|].
  destruct (IH Hin) as (j & -> & Hj). exists (S j). split; [done | lia].
Qed.

Lemma zip_elem_l {A B} (l : list A) (k : list B) x y : (x, y) ∈ zip l k -> x ∈ l.
Proof.
  revert k; induction l as [|a l IH]; intros [|b k]; simpl; try by intros ?%elem_of_nil.
  intros [[= -> ->]|Hin]%elem_of_cons; [by left | right; eauto].
Qed.

Lemma py_getitem_total {A} `{Inhabited A} (l : list A) (i : nat) :
  (i < length l)%nat -> py_getitem l (Z.of_nat i) = Ok (l !!! i).
Proof.
  intros Hi. apply py_getitem_lookup. by apply list_lookup_lookup_total_lt.
Qed.

Lemma zip_elem_r {A B} (l : list A) (k : list B) x y : (x, y) ∈ zip l k -> y ∈ k.
Proof.
  revert k; induction l as [|a l IH]; intros [|b k]; simpl; try by intros ?%elem_of_nil.
  intros [[= -> ->]|Hin]%elem_of_cons; [by left | right; eauto].
Qed.

Lemma py_list_index_NoDup {A} `{EqDecision A} (l : list A) x i :
  NoDup l -> l !! i = Some x -> py_list_index l x = Ok i.
Proof.
  intros Hnd Hi. apply py_list_index_first. split; [done|].
  intros j Hj Hj'. assert (i = j) by (eapply NoDup_lookup; eauto). lia.
Qed.

(** ** The hint database of the development *)

Create HintDb py discriminated.
Create Rewrite HintDb py_rw.
#[export] Hint Resolve py_getitem_lookup py_list_index_NoDup : py.
#[export] Hint Rewrite @py_getitem_out using lia : py_rw.

(** [res_inv] takes apart a hypothesis [c ≫= f = Ok v] into its steps. *)
Ltac res_inv :=
  repeat match goal with
  | H : mbind _ _ = Ok _ |- _ =>
      let x := fresh "x" in let Hx := fresh "Hx" in
      apply bind_Ok in H as (x & Hx & H)
  | H : fmap _ _ = Ok _ |- _ =>
      let x := fresh "x" in let Hx := fresh "Hx" in
      apply fmap_Ok in H as (x & Hx & H)
  end.
