(* ===== verification/PyText.v ===== *)
(** * PyText: the Python [str] builtins called by the scripts

    Models, on Stdlib strings, of [str.isspace], [str.strip()],
    [str.split()] (runs of whitespace), [str.split(sep)] for a one-character
    separator, [sep.join], [file.readlines()] and [str.startswith].  They
    model the Python runtime, not repository code, and carry the round-trip
    and shape lemmas the component files use. *)

From S2P Require Import Prelude.
From Stdlib Require Import DecimalString.

Local Open Scope string_scope.

(** ** Characters *)

(** [str.isspace] on one character of the ASCII range: tab, line feed,
    vertical tab, form feed, carriage return, the four separators
    0x1c-0x1f and space. *)
Definition py_isspace (c : ascii) : bool :=
  let n := nat_of_ascii c in
  (Nat.leb 9 n && Nat.leb n 13) || (Nat.leb 28 n && Nat.leb n 32).

Definition str1 (c : ascii) : string := String c EmptyString.

(** ** strip *)

Fixpoint py_lstrip (s : string) : string :=
  match s with
  | EmptyString => EmptyString
  | String c s' => if py_isspace c then py_lstrip s' else s
  end.

Fixpoint py_rstrip (s : string) : string :=
  match s with
  | EmptyString => EmptyString
  | String c s' =>
      let r := py_rstrip s' in
      match r with
      | EmptyString => if py_isspace c then EmptyString else str1 c
      | _ => String c r
      end
  end.

Definition py_strip (s : string) : string := py_rstrip (py_lstrip s).

(** ** split() on runs of whitespace *)

(** [cur] is the word read so far. *)
Fixpoint split_ws_from (cur : string) (s : string) : list string :=
  match s with
  | EmptyString => if decide (cur = EmptyString) then [] else [cur]
  | String c s' =>
      if py_isspace c
      then (if decide (cur = EmptyString) then [] else [cur]) ++ split_ws_from EmptyString s'
      else split_ws_from (cur +:+ str1 c) s'
  end.

Definition py_split_ws (s : string) : list string := split_ws_from EmptyString s.

(** ** split(sep) for a one-character separator *)

Fixpoint split_sep_from (sep : ascii) (cur : string) (s : string) : list string :=
  match s with
  | EmptyString => [cur]
  | String c s' =>
      if decide (c = sep) then cur :: split_sep_from sep EmptyString s'
      else split_sep_from sep (cur +:+ str1 c) s'
  end.

Definition py_split_sep (sep : ascii) (s : string) : list string :=
  split_sep_from sep EmptyString s.

(** [sep.join(l)]. *)
Fixpoint py_join (sep : string) (l : list string) : string :=
  match l with
  | [] => EmptyString
  | [x] => x
  | x :: l' => x +:+ sep +:+ py_join sep l'
  end.

(** ** readlines: every line keeps its final newline *)

Definition nl : ascii := "010"%char.
Definition tab : ascii := "009"%char.

Fixpoint readlines_from (cur : string) (s : string) : list string :=
  match s with
  | EmptyString => if decide (cur = EmptyString) then [] else [cur]
  | String c s' =>
      if decide (c = nl) then (cur +:+ str1 nl) :: readlines_from EmptyString s'
      else readlines_from (cur +:+ str1 c) s'
  end.

Definition py_readlines (s : string) : list string := readlines_from EmptyString s.

(** [str.startswith(p)]. *)
Definition py_startswith (p s : string) : bool := String.prefix p s.

(** [str.endswith(p)]. *)
Definition py_endswith (p s : string) : bool :=
  let n := String.length s in
  let k := String.length p in
  Nat.leb k n && bool_decide (substring (n - k) k s = p).

(** [str(n)] for an [int]. *)
Definition str_of_Z (z : Z) : string := NilZero.string_of_int (Z.to_int z).

(** Whether a string contains a character. *)
Fixpoint str_has (P : ascii -> bool) (s : string) : bool :=
  match s with
  | EmptyString => false
  | String c s' => P c || str_has P s'
  end.

(** ** Lemmas on append *)

(** stdpp makes [String.append] opaque to [simpl]; its two equations. *)
Lemma str_app_nil_l s : EmptyString +:+ s = s.
Proof. done. Qed.

Lemma str_app_cons c s1 s2 : String c s1 +:+ s2 = String c (s1 +:+ s2).
Proof. done. Qed.

Lemma py_rstrip_cons c s :
  py_rstrip (String c s) =
  match py_rstrip s with
  | EmptyString => if py_isspace c then EmptyString else str1 c
  | _ => String c (py_rstrip s)
  end.
Proof. done. Qed.

Lemma str1_app c s : str1 c +:+ s = String c s.
Proof. done. Qed.

Lemma str_app_nil_r s : s +:+ EmptyString = s.
Proof. induction s; [done | rewrite str_app_cons; congruence]. Qed.

Lemma str_app_assoc s1 s2 s3 : s1 +:+ (s2 +:+ s3) = (s1 +:+ s2) +:+ s3.
Proof. induction s1; [done | rewrite !str_app_cons; congruence]. Qed.

Lemma str_app_eq_nil s1 s2 : s1 +:+ s2 = EmptyString -> s1 = EmptyString /\ s2 = EmptyString.
Proof. destruct s1; [done | discriminate]. Qed.

Lemma str_has_app P s1 s2 : str_has P (s1 +:+ s2) = str_has P s1 || str_has P s2.
Proof.
  induction s1; rewrite ?str_app_cons; simpl; [done|]. rewrite IHs1. by destruct (P a).
Qed.

#[export] Hint Rewrite str_app_nil_l str_app_cons str_app_nil_r str_has_app : py_rw.

(** ** split(sep) and join *)

Lemma py_join_cons2 sep x y l : py_join sep (x :: y :: l) = x +:+ sep +:+ py_join sep (y :: l).
Proof. done. Qed.

Lemma split_sep_from_nonempty sep cur s : split_sep_from sep cur s <> [].
Proof.
  revert cur; induction s; intros cur; simpl; [done|]. by case_decide.
Qed.

Lemma split_sep_from_join sep cur s :
  py_join (str1 sep) (split_sep_from sep cur s) = cur +:+ s.
Proof.
  revert cur; induction s as [|c s IH]; intros cur; simpl.
  - by rewrite str_app_nil_r.
  - case_decide; subst.
    + destruct (split_sep_from sep EmptyString s) as [|w ws] eqn:E.
      * by apply split_sep_from_nonempty in E.
      * rewrite py_join_cons2, <- E, IH. done.
    + rewrite IH, <- str_app_assoc. done.
Qed.

(** Round trip: joining the pieces of [s.split(sep)] with [sep] gives [s]. *)
Lemma py_join_split_sep sep s : py_join (str1 sep) (py_split_sep sep s) = s.
Proof. apply split_sep_from_join. Qed.

(** No piece of [s.split(sep)] contains [sep]. *)
Lemma split_sep_from_no_sep sep cur s :
  str_has (fun c => bool_decide (c = sep)) cur = false ->
  Forall (fun w => str_has (fun c => bool_decide (c = sep)) w = false) (split_sep_from sep cur s).
Proof.
  revert cur; induction s as [|c s IH]; intros cur Hcur; simpl.
  - by constructor.
  - case_decide as Hc.
    + constructor; [done|]. by apply IH.
    + apply IH. rewrite str_has_app, Hcur. simpl.
      rewrite bool_decide_eq_false_2; done.
Qed.

(** The number of pieces is one more than the number of separators. *)
Fixpoint str_count (c : ascii) (s : string) : nat :=
  match s with
  | EmptyString => 0
  | String d s' => (if decide (d = c) then 1 else 0) + str_count c s'
  end.

Lemma split_sep_from_length sep cur s :
  length (split_sep_from sep cur s) = S (str_count sep s).
Proof.
  revert cur; induction s as [|c s IH]; intros cur; simpl; [done|].
  case_decide; simpl; rewrite IH; lia.
Qed.

(** ** split() *)

Lemma split_ws_from_words cur s :
  str_has py_isspace cur = false ->
  Forall (fun w => w <> EmptyString /\ str_has py_isspace w = false) (split_ws_from cur s).
Proof.
  revert cur; induction s as [|c s IH]; intros cur Hcur; simpl.
  - case_decide; repeat constructor; done.
  - destruct (py_isspace c) eqn:Hc.
    + apply Forall_app. split; [case_decide; repeat constructor; done|]. by apply IH.
    + apply IH. rewrite str_has_app, Hcur. simpl. by rewrite Hc.
Qed.

(** The words of [s.split()] are non-empty and hold no whitespace. *)
Lemma py_split_ws_words s :
  Forall (fun w => w <> EmptyString /\ str_has py_isspace w = false) (py_split_ws s).
Proof. by apply split_ws_from_words. Qed.

(** ** readlines *)

Lemma readlines_from_concat cur s :
  foldr String.append EmptyString (readlines_from cur s) = cur +:+ s.
Proof.
  revert cur; induction s as [|c s IH]; intros cur; simpl.
  - case_decide; subst; simpl; [done|]. by rewrite !str_app_nil_r.
  - case_decide; subst; simpl.
    + rewrite IH. simpl. by rewrite <- str_app_assoc.
    + rewrite IH, <- str_app_assoc. done.
Qed.

(** Round trip: the lines of a file concatenate back to its content. *)
Lemma py_readlines_concat s : foldr String.append EmptyString (py_readlines s) = s.
Proof. apply readlines_from_concat. Qed.

(** ** strip *)

Lemma py_lstrip_head s :
  match py_lstrip s with EmptyString => True | String c _ => py_isspace c = false end.
Proof. induction s as [|c s IH]; simpl; [done|]. destruct (py_isspace c) eqn:E; done. Qed.

Lemma py_lstrip_idem s : py_lstrip (py_lstrip s) = py_lstrip s.
Proof.
  induction s as [|c s IH]; simpl; [done|].
  destruct (py_isspace c) eqn:E; [done|]. simpl. by rewrite E.
Qed.

(** ** Rendered lines: [strip], [split(sep)] and [readlines] undo them *)

(** A cell that survives [strip] and [split]: non-empty, no whitespace. *)
Definition plain (w : string) : Prop := w <> EmptyString /\ str_has py_isspace w = false.

Lemma py_rstrip_plain_app w t :
  plain w -> py_rstrip (w +:+ t) = w +:+ py_rstrip t.
Proof.
  intros [Hne Hsp]. induction w as [|c w IH]; [done|].
  simpl in Hsp. apply orb_false_iff in Hsp as [Hc Hw].
  rewrite (str_app_cons c w t), (str_app_cons c w (py_rstrip t)). simpl.
  destruct w as [|c' w'].
  - rewrite !str_app_nil_l. destruct (py_rstrip t); [by rewrite Hc | done].
  - rewrite IH by done. by rewrite (str_app_cons c' w' (py_rstrip t)).
Qed.

Lemma py_join_cons_nonempty sep w ws : w <> EmptyString -> py_join sep (w :: ws) <> EmptyString.
Proof. destruct ws; simpl; [done|]. destruct w; done. Qed.

Lemma py_rstrip_join_nl sep cells :
  cells <> [] -> Forall plain cells ->
  py_rstrip (py_join (str1 sep) cells +:+ str1 nl) = py_join (str1 sep) cells.
Proof.
  induction cells as [|w [|w2 cs] IH]; intros Hne Hpl; [done| |].
  - inversion Hpl; subst. simpl. rewrite py_rstrip_plain_app by done. apply str_app_nil_r.
  - inversion Hpl as [|? ? Hw Hrest]; subst. rewrite py_join_cons2, <- !str_app_assoc.
    rewrite py_rstrip_plain_app by done. f_equal.
    rewrite str1_app, py_rstrip_cons, IH by done.
    destruct (py_join (str1 sep) (w2 :: cs)) eqn:E; [|done].
    exfalso. revert E. apply py_join_cons_nonempty. by inversion Hrest as [|? ? [? _]].
Qed.

Lemma py_lstrip_keep c s : py_isspace c = false -> py_lstrip (String c s) = String c s.
Proof. intros Hc. simpl. by rewrite Hc. Qed.

Lemma py_join_cons_head sep c w ws : exists t, py_join sep (String c w :: ws) = String c t.
Proof. destruct ws; simpl; eauto. Qed.

Lemma py_strip_join_nl sep cells :
  cells <> [] -> Forall plain cells ->
  py_strip (py_join (str1 sep) cells +:+ str1 nl) = py_join (str1 sep) cells.
Proof.
  intros Hne Hpl. unfold py_strip.
  destruct cells as [|[|c w] cs]; [done | by inversion Hpl as [|? ? [? _]] |].
  inversion Hpl as [|? ? [_ Hsp] _]; subst. simpl in Hsp. apply orb_false_iff in Hsp as [Hc _].
  destruct (py_join_cons_head (str1 sep) c w cs) as [t Ht].
  rewrite Ht, str_app_cons, py_lstrip_keep, <- str_app_cons, <- Ht by done.
  by apply py_rstrip_join_nl.
Qed.

Lemma split_sep_from_app sep cur w s :
  str_has (fun c => bool_decide (c = sep)) w = false ->
  split_sep_from sep cur (w +:+ s) = split_sep_from sep (cur +:+ w) s.
Proof.
  revert cur; induction w as [|c w IH]; intros cur Hw; simpl.
  - by rewrite str_app_nil_r.
  - simpl in Hw. apply orb_false_iff in Hw as [Hc Hw].
    rewrite decide_False by (intros ->; by rewrite bool_decide_eq_true_2 in Hc).
    rewrite IH by done. by rewrite <- str_app_assoc.
Qed.

Definition no_sep (sep : ascii) (w : string) : Prop := str_has (fun c => bool_decide (c = sep)) w = false.

Lemma plain_no_sep c w : py_isspace c = true -> plain w -> no_sep c w.
Proof.
  intros Hc [_ Hw]. unfold no_sep. induction w as [|d w IH]; [done|].
  simpl in *. apply orb_false_iff in Hw as [Hd Hw].
  rewrite IH by done. rewrite orb_false_r. apply bool_decide_eq_false_2. congruence.
Qed.

Lemma no_sep_join c sep cells :
  no_sep c sep -> Forall (no_sep c) cells -> no_sep c (py_join sep cells).
Proof.
  unfold no_sep. intros Hsep. induction 1 as [|w ws Hw Hws IH]; [done|].
  destruct ws as [|w2 ws]; [done|]. rewrite py_join_cons2, !str_has_app, Hw, Hsep, IH. done.
Qed.

Lemma plain_no_tab w : plain w -> no_sep tab w.
Proof. apply plain_no_sep. done. Qed.

Lemma plain_no_nl w : plain w -> no_sep nl w.
Proof. apply plain_no_sep. done. Qed.

#[export] Hint Resolve plain_no_tab plain_no_nl : py.

Lemma split_sep_from_sep sep cur s :
  split_sep_from sep cur (String sep s) = cur :: split_sep_from sep EmptyString s.
Proof. simpl. by rewrite decide_True. Qed.

Lemma split_sep_from_join_cells sep cur w ws :
  no_sep sep w -> Forall (no_sep sep) ws ->
  split_sep_from sep cur (py_join (str1 sep) (w :: ws)) = (cur +:+ w) :: ws.
Proof.
  revert cur w; induction ws as [|w2 ws IH]; intros cur w Hw Hws.
  - simpl. rewrite <- (str_app_nil_r w) at 1. rewrite split_sep_from_app by done. done.
  - rewrite py_join_cons2, split_sep_from_app by done. rewrite str1_app, split_sep_from_sep.
    inversion Hws; subst.
    rewrite IH by done. by rewrite str_app_nil_l.
Qed.

(** Round trip: [split(sep)] of a [join] with [sep] gives the pieces back. *)
Lemma py_split_sep_join sep w ws :
  Forall (no_sep sep) (w :: ws) -> py_split_sep sep (py_join (str1 sep) (w :: ws)) = w :: ws.
Proof.
  intros H. inversion H; subst. unfold py_split_sep.
  by rewrite split_sep_from_join_cells, str_app_nil_l.
Qed.

Lemma readlines_from_cons cur c s :
  readlines_from cur (String c s) =
  if decide (c = nl) then (cur +:+ str1 nl) :: readlines_from EmptyString s
  else readlines_from (cur +:+ str1 c) s.
Proof. done. Qed.

Lemma readlines_from_app cur w s :
  no_sep nl w ->
  readlines_from cur (w +:+ String nl s) = (cur +:+ w +:+ str1 nl) :: readlines_from EmptyString s.
Proof.
  revert cur; induction w as [|c w IH]; intros cur Hw.
  - rewrite str_app_nil_l, readlines_from_cons. by rewrite decide_True.
  - unfold no_sep in Hw. simpl in Hw. apply orb_false_iff in Hw as [Hc Hw].
    rewrite str_app_cons, readlines_from_cons.
    rewrite decide_False by (intros ->; by rewrite bool_decide_eq_true_2 in Hc).
    rewrite IH by done. f_equal. rewrite <- !str_app_assoc. done.
Qed.

(** Round trip: [readlines] of lines that each end with their only
    newline gives those lines back. *)
Lemma py_readlines_lines ls :
  Forall (no_sep nl) ls ->
  py_readlines (foldr String.append EmptyString ((fun l => l +:+ str1 nl) <$> ls)) =
    (fun l => l +:+ str1 nl) <$> ls.
Proof.
  unfold py_readlines. induction ls as [|l ls IH]; intros Hls; [done|].
  inversion Hls; subst. rewrite fmap_cons. cbn [foldr].
  rewrite <- str_app_assoc, str1_app, readlines_from_app by done.
  rewrite IH by done. by rewrite str_app_nil_l.
Qed.

(** ** [split()] undoes a join on whitespace *)

Lemma split_ws_from_app cur w s :
  str_has py_isspace w = false -> split_ws_from cur (w +:+ s) = split_ws_from (cur +:+ w) s.
Proof.
  revert cur; induction w as [|c w IH]; intros cur Hw.
  - by rewrite str_app_nil_l, str_app_nil_r.
  - simpl in Hw. apply orb_false_iff in Hw as [Hc Hw].
    rewrite str_app_cons. simpl. rewrite Hc, IH by done.
    by rewrite <- str_app_assoc, str1_app.
Qed.

(** Round trip: [split()] of plain cells joined by one whitespace
    character gives the cells back. *)
Lemma py_split_ws_join sep cells :
  py_isspace sep = true -> Forall plain cells -> py_split_ws (py_join (str1 sep) cells) = cells.
Proof.
  intros Hsep. unfold py_split_ws. induction 1 as [|w ws [Hne Hw] Hws IH]; [done|].
  destruct ws as [|w2 ws].
  - rewrite <- (str_app_nil_r w). simpl. rewrite split_ws_from_app by done.
    rewrite str_app_nil_l. simpl. rewrite decide_False by done. by rewrite str_app_nil_r.
  - rewrite py_join_cons2, split_ws_from_app by done.
    rewrite str_app_nil_l, str1_app. cbn [split_ws_from]. rewrite Hsep, decide_False by done.
    by rewrite IH.
Qed.

(** ** Appends, lengths and joins *)

Lemma str_app_inj_l s a b : s +:+ a = s +:+ b -> a = b.
Proof. induction s as [|c s IH]; [by rewrite !str_app_nil_l | rewrite !str_app_cons; intros [= H]; auto]. Qed.

Lemma str_length_app s t : String.length (s +:+ t) = String.length s + String.length t.
Proof. induction s as [|c s IH]; [by rewrite str_app_nil_l | rewrite str_app_cons; simpl; lia]. Qed.

Lemma py_join_snoc sep l x : l <> [] -> py_join sep (l ++ [x]) = py_join sep l +:+ sep +:+ x.
Proof.
  induction l as [|y [|y2 l] IH]; intros Hne; [done | done |].
  change ((y :: y2 :: l) ++ [x])%list with (y :: y2 :: (l ++ [x]))%list.
  rewrite py_join_cons2. change (y2 :: (l ++ [x]))%list with ((y2 :: l) ++ [x])%list.
  rewrite IH, py_join_cons2 by done. by rewrite !str_app_assoc.
Qed.

(** A string of whitespace only. *)
Definition blank (s : string) : Prop := str_has (fun c => negb (py_isspace c)) s = false.

Lemma py_lstrip_blank_app b t : blank b -> py_lstrip (b +:+ t) = py_lstrip t.
Proof.
  unfold blank. induction b as [|c b IH]; intros Hb; [by rewrite str_app_nil_l|].
  simpl in Hb. apply orb_false_iff in Hb as [Hc Hb]. rewrite str_app_cons. simpl.
  destruct (py_isspace c); [by apply IH | done].
Qed.

Lemma py_rstrip_blank b : blank b -> py_rstrip b = EmptyString.
Proof.
  unfold blank. induction b as [|c b IH]; intros Hb; [done|].
  simpl in Hb. apply orb_false_iff in Hb as [Hc Hb]. simpl. rewrite IH by done.
  destruct (py_isspace c); [done | discriminate].
Qed.

(** [rstrip] removes a whitespace tail after plain cells, and nothing else. *)
Lemma py_rstrip_join_blank sep cells b :
  blank b -> cells <> [] -> Forall plain cells ->
  py_rstrip (py_join (str1 sep) cells +:+ b) = py_join (str1 sep) cells.
Proof.
  intros Hb. induction cells as [|w [|w2 cs] IH]; intros Hne Hpl; [done| |].
  - inversion Hpl; subst. simpl. rewrite py_rstrip_plain_app, py_rstrip_blank by done.
    apply str_app_nil_r.
  - inversion Hpl as [|? ? Hw Hrest]; subst. rewrite py_join_cons2, <- !str_app_assoc.
    rewrite py_rstrip_plain_app by done. f_equal.
    rewrite str1_app, py_rstrip_cons, IH by done.
    destruct (py_join (str1 sep) (w2 :: cs)) eqn:E; [|done].
    exfalso. revert E. apply py_join_cons_nonempty. by inversion Hrest as [|? ? [? _]].
Qed.

Lemma py_strip_join_blank sep cells b :
  blank b -> cells <> [] -> Forall plain cells ->
  py_strip (py_join (str1 sep) cells +:+ b) = py_join (str1 sep) cells.
Proof.
  intros Hb Hne Hpl. unfold py_strip.
  destruct cells as [|[|c w] cs]; [done | by inversion Hpl as [|? ? [? _]] |].
  inversion Hpl as [|? ? [_ Hsp] _]; subst. simpl in Hsp. apply orb_false_iff in Hsp as [Hc _].
  destruct (py_join_cons_head (str1 sep) c w cs) as [t Ht].
  rewrite Ht, str_app_cons, py_lstrip_keep, <- str_app_cons, <- Ht by done.
  by apply py_rstrip_join_blank.
Qed.

Lemma py_strip_space_cons c s : py_isspace c = true -> py_strip (String c s) = py_strip s.
Proof. intros Hc. unfold py_strip. simpl. by rewrite Hc. Qed.

(** ** Substrings and affixes of appends *)

Lemma substring_skip x n m z : substring (String.length x + n) m (x +:+ z) = substring n m z.
Proof. induction x as [|c x IH]; [by rewrite str_app_nil_l | by rewrite str_app_cons]. Qed.

Lemma substring_prefix y z : substring 0 (String.length y) (y +:+ z) = y.
Proof. induction y as [|c y IH]; [by destruct z | rewrite str_app_cons; simpl; by rewrite IH]. Qed.

Lemma substring_mid x y z : substring (String.length x) (String.length y) (x +:+ y +:+ z) = y.
Proof. rewrite <- (Nat.add_0_r (String.length x)), substring_skip. apply substring_prefix. Qed.

Lemma py_endswith_app p s : py_endswith p (s +:+ p) = true.
Proof.
  unfold py_endswith. rewrite str_length_app, Nat.add_sub.
  pose proof (substring_mid s p EmptyString) as Hm. rewrite str_app_nil_r in Hm. rewrite Hm.
  apply andb_true_intro. split; [apply Nat.leb_le; lia | by apply bool_decide_eq_true].
Qed.

Lemma py_startswith_app p s : py_startswith p (p +:+ s) = true.
Proof. unfold py_startswith. apply prefix_correct, substring_prefix. Qed.

Lemma list_ascii_of_string_app s t :
  list_ascii_of_string (s +:+ t) = (list_ascii_of_string s ++ list_ascii_of_string t)%list.
Proof. induction s as [|c s IH]; [by rewrite str_app_nil_l | rewrite str_app_cons; simpl; by rewrite IH]. Qed.
