(* ===== verification/PyFloat.v ===== *)
(** * PyFloat: Python floats as the scripts use them

    A float is [NaN], [+inf], [-inf], negative zero or a finite value,
    kept as an exact rational ([PFin 0] is positive zero).  Comparisons
    follow IEEE 754 ([NaN] is unordered, [-0.0 == 0.0]); [py_max] is the
    builtin [max(a, b)], which keeps [a] unless [b > a]; [fabs] and
    [fmul_int] are [abs] and multiplication by an [int]; [py_float] is
    [float(str)].  [feq] identifies floats with the same numeric value
    (and [NaN] with itself); every operation respects it ([Proper]).
    Rounding of literals and products, overflow and underflow are not
    modelled. *)

From S2P Require Import Prelude PyText.
From Stdlib Require Import QArith Qabs Morphisms.

Declare Scope float_scope.
Delimit Scope float_scope with F.

Inductive pyfloat :=
| PNaN
| PInf
| PNInf
| PNZero
| PFin (q : Q).

(** Decidable equality on the representation (not the IEEE [==]). *)
#[export] Instance Q_eq_dec : EqDecision Q.
Proof. intros x y. unfold Decision. decide equality; first [apply Pos.eq_dec | apply Z.eq_dec]. Defined.
#[export] Instance pyfloat_eq_dec : EqDecision pyfloat.
Proof. solve_decision. Defined.

(** ** Numeric value *)

(** Extended rationals, the value of a non-NaN float. *)
Inductive ext := XNeg | XFin (q : Q) | XPos.

#[export] Instance ext_eq_dec : EqDecision ext.
Proof. solve_decision. Defined.

(** The value of a float, in lowest terms; [None] for [NaN]. *)
Definition fval (x : pyfloat) : option ext :=
  match x with
  | PNaN => None
  | PInf => Some XPos
  | PNInf => Some XNeg
  | PNZero => Some (XFin 0)
  | PFin q => Some (XFin (Qred q))
  end.

Definition ext_le (a b : ext) : bool :=
  match a, b with
  | XNeg, _ => true
  | _, XPos => true
  | XFin p, XFin q => Qle_bool p q
  | _, _ => false
  end.

(** ** IEEE comparisons: false as soon as one side is [NaN] *)

Definition fle (x y : pyfloat) : bool :=
  match fval x, fval y with Some a, Some b => ext_le a b | _, _ => false end.
Definition flt (x y : pyfloat) : bool :=
  match fval x, fval y with Some a, Some b => negb (ext_le b a) | _, _ => false end.
Definition feqb (x y : pyfloat) : bool :=
  match fval x, fval y with Some a, Some b => ext_le a b && ext_le b a | _, _ => false end.
(** Python's [x != y] is the negation of [x == y], true when one is [NaN]. *)
Definition fne (x y : pyfloat) : bool := negb (feqb x y).

Notation "x <=f y" := (fle x y) (at level 70) : float_scope.
Notation "x <f y" := (flt x y) (at level 70) : float_scope.
Open Scope float_scope.

(** The builtin [max(a, b)]: [b] replaces [a] only when [b > a]. *)
Definition py_max (a b : pyfloat) : pyfloat := if flt a b then b else a.

(** [abs(x)]. *)
Definition fabs (x : pyfloat) : pyfloat :=
  match x with
  | PNaN => PNaN
  | PInf | PNInf => PInf
  | PNZero => PFin 0
  | PFin q => PFin (Qabs q)
  end.

(** [x * k] for an [int] [k]; a zero product takes the sign rule of IEEE
    multiplication, and [inf * 0] is [NaN]. *)
Definition fmul_int (x : pyfloat) (k : Z) : pyfloat :=
  match x with
  | PNaN => PNaN
  | PInf => if (0 <? k)%Z then PInf else if (k <? 0)%Z then PNInf else PNaN
  | PNInf => if (0 <? k)%Z then PNInf else if (k <? 0)%Z then PInf else PNaN
  | PNZero => if (k <? 0)%Z then PFin 0 else PNZero
  | PFin q =>
      if Qeq_bool (q * inject_Z k) 0 then
        (if xorb (negb (Qle_bool 0 q)) (k <? 0)%Z then PNZero else PFin 0)
      else PFin (q * inject_Z k)
  end.

(** An [int] compared with a float: Python compares the exact values. *)
Definition of_Z (z : Z) : pyfloat := PFin (inject_Z z).

(** ** [str(x)]

    Python's shortest round-trip [repr] of a float is not modelled; what
    the scripts rely on is stated as the laws of an interface: the text of
    a float holds no tab and no newline and is never the word ["error"]. *)
Class FloatStr := {
  float_str : pyfloat -> string;
  float_str_no_tab x : str_has (fun c => bool_decide (c = tab)) (float_str x) = false;
  float_str_no_nl x : str_has (fun c => bool_decide (c = nl)) (float_str x) = false;
  float_str_not_error x : float_str x <> "error"%string
}.

(** ** [float(str)] *)

Definition digit_val (c : ascii) : option Z :=
  let n := nat_of_ascii c in
  if Nat.leb 48 n && Nat.leb n 57 then Some (Z.of_nat (n - 48)) else None.

Definition underscore : ascii := "_"%char.

(** After a first digit: [('_'? digit)*]; returns the value, the number of
    digits read and the rest. *)
Fixpoint more_digits (acc : Z) (cnt : nat) (l : list ascii) : Z * nat * list ascii :=
  match l with
  | [] => (acc, cnt, [])
  | c :: l' =>
      match digit_val c with
      | Some d => more_digits (10 * acc + d)%Z (S cnt) l'
      | None =>
          if decide (c = underscore) then
            match l' with
            | c' :: l'' =>
                match digit_val c' with
                | Some d => more_digits (10 * acc + d)%Z (S cnt) l''
                | None => (acc, cnt, l)
                end
            | [] => (acc, cnt, l)
            end
          else (acc, cnt, l)
      end
  end.

(** [digit ('_'? digit)*], appended to the digits already in [acc]. *)
Definition digit_part (acc : Z) (l : list ascii) : option (Z * nat * list ascii) :=
  match l with
  | c :: l' =>
      match digit_val c with
      | Some d => Some (more_digits (10 * acc + d)%Z 1 l')
      | None => None
      end
  | [] => None
  end.

Definition ascii_lower (c : ascii) : ascii :=
  let n := nat_of_ascii c in
  if Nat.leb 65 n && Nat.leb n 90 then ascii_of_nat (n + 32) else c.

Definition exponent_part (l : list ascii) : option (Z * list ascii) :=
  match l with
  | e :: l' =>
      if decide (ascii_lower e = "e"%char) then
        let '(neg, l'') :=
          match l' with
          | "-"%char :: r => (true, r)
          | "+"%char :: r => (false, r)
          | _ => (false, l')
          end in
        match digit_part 0 l'' with
        | Some (x, _, r) => Some (if neg then (- x)%Z else x, r)
        | None => None
        end
      else Some (0%Z, l)
  | [] => Some (0%Z, [])
  end.

(** The value [m * 10^(e - d)] of a literal with digits [m], [d] of them
    after the point, and exponent [e]. *)
Definition scale (m : Z) (d : nat) (e : Z) : Q :=
  let k := (e - Z.of_nat d)%Z in
  if (0 <=? k)%Z then inject_Z (m * 10 ^ k) else Qmake m (Z.to_pos (10 ^ (- k))).

(** A decimal literal without sign: [digits ['.' [digits]] | '.' digits],
    then an optional exponent, and nothing after it. *)
Definition decimal (l : list ascii) : option Q :=
  let '(m, nint, r) :=
    match digit_part 0 l with Some p => p | None => (0%Z, 0%nat, l) end in
  let '(m', nfrac, r') :=
    match r with
    | "."%char :: r1 => match digit_part m r1 with Some p => p | None => (m, 0%nat, r1) end
    | _ => (m, 0%nat, r)
    end in
  if decide (nint + nfrac = 0)%nat then None else
  match exponent_part r' with
  | Some (e, []) => Some (scale m' nfrac e)
  | _ => None
  end.

Definition lower_list (l : list ascii) : list ascii := map ascii_lower l.

Definition special (l : list ascii) (neg : bool) : option pyfloat :=
  let w := string_of_list_ascii (lower_list l) in
  if bool_decide (w = "inf"%string) || bool_decide (w = "infinity"%string)
  then Some (if neg then PNInf else PInf)
  else if decide (w = "nan"%string) then Some PNaN
  else None.

(** [float(s)]: surrounding whitespace is ignored; [ValueError] otherwise. *)
Definition py_float (s : string) : res pyfloat :=
  let l := list_ascii_of_string (py_strip s) in
  let '(neg, body) :=
    match l with
    | "-"%char :: r => (true, r)
    | "+"%char :: r => (false, r)
    | _ => (false, l)
    end in
  match special body neg with
  | Some x => Ok x
  | None =>
      match decimal body with
      | Some q =>
          if Qeq_bool q 0 then Ok (if neg then PNZero else PFin 0)
          else Ok (PFin (if neg then - q else q))
      | None => Raise (ValueError s)
      end
  end.

(** [int(s)] in base 10: surrounding whitespace, an optional sign, digits
    with single underscores between them; [ValueError] otherwise. *)
Definition py_int (s : string) : res Z :=
  let l := list_ascii_of_string (py_strip s) in
  let '(neg, body) :=
    match l with
    | "-"%char :: r => (true, r)
    | "+"%char :: r => (false, r)
    | _ => (false, l)
    end in
  match digit_part 0 body with
  | Some (m, _, []) => Ok (if neg then (- m)%Z else m)
  | _ => Raise (ValueError s)
  end.

(** ** The order on values *)

(** Values produced by [fval] are in lowest terms. *)
Definition ext_norm (a : ext) : Prop :=
  match a with XFin q => Qred q = q | _ => True end.

Lemma fval_norm x a : fval x = Some a -> ext_norm a.
Proof. destruct x; simpl; intros [= <-]; simpl; [done | done | done | apply Qred_complete, Qred_correct]. Qed.

Lemma ext_le_refl a : ext_le a a = true.
Proof. destruct a; simpl; [done| |done]. apply Qle_bool_iff, Qle_refl. Qed.

Lemma ext_le_trans a b c : ext_le a b = true -> ext_le b c = true -> ext_le a c = true.
Proof.
  destruct a, b, c; simpl; try done.
  rewrite !Qle_bool_iff. apply Qle_trans.
Qed.

Lemma ext_le_total a b : ext_le a b = false -> ext_le b a = true.
Proof.
  destruct a, b; simpl; try done.
  rewrite Qle_bool_iff. intros H. destruct (Qlt_le_dec q q0) as [Hlt|Hle]; [|done].
  apply Qlt_le_weak in Hlt. apply Qle_bool_iff in Hlt. congruence.
Qed.

Lemma ext_le_antisym a b :
  ext_norm a -> ext_norm b -> ext_le a b = true -> ext_le b a = true -> a = b.
Proof.
  destruct a, b; simpl; try done.
  rewrite !Qle_bool_iff. intros Ha Hb H1 H2.
  rewrite <- Ha, <- Hb. f_equal. apply Qred_complete, Qle_antisym; done.
Qed.

#[export] Hint Resolve ext_le_refl ext_le_trans ext_le_total ext_le_antisym fval_norm : py.

(** The larger of two values, the first on a tie. *)
Definition emax (a b : ext) : ext := if ext_le b a then a else b.

(** [max] on the values of floats: [NaN] in the first place sticks, in the
    second place it is ignored. *)
Definition vmax (a b : option ext) : option ext :=
  match a, b with
  | Some a', Some b' => Some (emax a' b')
  | _, None => a
  | None, _ => None
  end.

Lemma py_max_fval a b : fval (py_max a b) = vmax (fval a) (fval b).
Proof.
  unfold py_max, flt, vmax, emax.
  destruct (fval a) as [x|] eqn:Ha, (fval b) as [y|] eqn:Hb; simpl; try done.
  destruct (ext_le y x); simpl; congruence.
Qed.

Lemma emax_norm a b : ext_norm a -> ext_norm b -> ext_norm (emax a b).
Proof. unfold emax. by destruct (ext_le b a). Qed.

Lemma emax_ge_l a b : ext_le a (emax a b) = true.
Proof. unfold emax. destruct (ext_le b a) eqn:E; [apply ext_le_refl | by apply ext_le_total]. Qed.

Lemma emax_ge_r a b : ext_le b (emax a b) = true.
Proof. unfold emax. destruct (ext_le b a) eqn:E; [done | apply ext_le_refl]. Qed.

Lemma emax_lub a b c : ext_le a c = true -> ext_le b c = true -> ext_le (emax a b) c = true.
Proof. unfold emax. by destruct (ext_le b a). Qed.

Lemma emax_cases a b : emax a b = a \/ emax a b = b.
Proof. unfold emax. destruct (ext_le b a); auto. Qed.

(** Two values that bound each other are equal: [emax] is determined by
    the order up to the choice on a tie, which normal values never see. *)
Lemma emax_swap a b c :
  ext_norm a -> ext_norm b -> ext_norm c ->
  emax (emax a b) c = emax (emax a c) b.
Proof.
  intros Ha Hb Hc.
  apply ext_le_antisym; try (apply emax_norm; auto; apply emax_norm; auto);
    repeat apply emax_lub; eauto using emax_ge_l, emax_ge_r, ext_le_trans.
Qed.

(** ** Numeric equivalence *)

Definition feq (x y : pyfloat) : Prop := fval x = fval y.
Infix "≡f" := feq (at level 70) : float_scope.

#[export] Instance feq_equiv : Equivalence feq.
Proof. unfold feq. split; [done | by intros ?? | by intros ??? -> ->]. Qed.

#[export] Instance fle_proper : Proper (feq ==> feq ==> eq) fle.
Proof. intros x x' Hx y y' Hy. unfold fle. by rewrite Hx, Hy. Qed.

#[export] Instance flt_proper : Proper (feq ==> feq ==> eq) flt.
Proof. intros x x' Hx y y' Hy. unfold flt. by rewrite Hx, Hy. Qed.

#[export] Instance feqb_proper : Proper (feq ==> feq ==> eq) feqb.
Proof. intros x x' Hx y y' Hy. unfold feqb. by rewrite Hx, Hy. Qed.

Lemma feqb_sym x y : feqb x y = feqb y x.
Proof. unfold feqb. destruct (fval x), (fval y); [apply andb_comm|done..]. Qed.

Lemma feqb_refl x : fval x <> None -> feqb x x = true.
Proof. unfold feqb. destruct (fval x); [intros _; by rewrite ext_le_refl | done]. Qed.

#[export] Instance fne_proper : Proper (feq ==> feq ==> eq) fne.
Proof. intros x x' Hx y y' Hy. unfold fne. by rewrite Hx, Hy. Qed.

#[export] Instance py_max_proper : Proper (feq ==> feq ==> feq) py_max.
Proof. intros x x' Hx y y' Hy. unfold feq. by rewrite !py_max_fval, Hx, Hy. Qed.

(** [max] is order-insensitive up to [feq] once the accumulator is a
    number: [max(max(a, x), y)] and [max(max(a, y), x)] have equal values. *)
Lemma py_max_swap a x y :
  fval a <> None -> py_max (py_max a x) y ≡f py_max (py_max a y) x.
Proof.
  intros Ha. unfold feq. rewrite !py_max_fval.
  destruct (fval a) as [a'|] eqn:Ea; [|done].
  pose proof (fval_norm a a' Ea).
  destruct (fval x) as [x'|] eqn:Ex, (fval y) as [y'|] eqn:Ey; simpl; try done.
  f_equal. apply emax_swap; eauto with py.
Qed.

Lemma py_max_not_nan a b : fval a <> None -> fval (py_max a b) <> None.
Proof. rewrite py_max_fval. destruct (fval a), (fval b); done. Qed.

(** ** [max(iterable)] *)

(** The builtin [max] over [x :: l]: the first item, replaced by every
    later item that is greater. *)
Definition py_max_list (x : pyfloat) (l : list pyfloat) : pyfloat := foldl py_max x l.

Lemma fle_refl x : fval x <> None -> fle x x = true.
Proof. unfold fle. destruct (fval x); [intros _; apply ext_le_refl | done]. Qed.

Lemma fle_trans x y z : fle x y = true -> fle y z = true -> fle x z = true.
Proof.
  unfold fle. destruct (fval x), (fval y), (fval z); try done. apply ext_le_trans.
Qed.

Lemma fle_py_max_l x z : fval x <> None -> fle x (py_max x z) = true.
Proof.
  intros Hx. unfold fle. rewrite py_max_fval.
  destruct (fval x) as [a|]; [|done]. destruct (fval z); simpl; [apply emax_ge_l | apply ext_le_refl].
Qed.

Lemma fle_py_max_r x z : fval x <> None -> fval z <> None -> fle z (py_max x z) = true.
Proof.
  intros Hx Hz. unfold fle. rewrite py_max_fval.
  destruct (fval x) as [a|]; [|done]. destruct (fval z); [apply emax_ge_r | done].
Qed.

Lemma py_max_list_nan l : py_max_list PNaN l = PNaN.
Proof. unfold py_max_list. induction l as [|y l IH]; [done|]. simpl. apply IH. Qed.

Lemma py_max_list_not_nan x l : fval x <> None -> fval (py_max_list x l) <> None.
Proof.
  unfold py_max_list. revert x; induction l as [|y l IH]; intros x Hx; [done|].
  simpl. by apply IH, py_max_not_nan.
Qed.

Lemma py_max_list_ge x l : fval x <> None -> fle x (py_max_list x l) = true.
Proof.
  unfold py_max_list. revert x; induction l as [|y l IH]; intros x Hx; [by apply fle_refl|].
  simpl. apply (fle_trans _ (py_max x y)); [by apply fle_py_max_l|]. by apply IH, py_max_not_nan.
Qed.

(** The maximum bounds every item that is a number. *)
Lemma py_max_list_ub x l y :
  fval x <> None -> y ∈ x :: l -> fval y <> None -> fle y (py_max_list x l) = true.
Proof.
  revert x; induction l as [|z l IH]; intros x Hx Hy Hny.
  - apply list_elem_of_singleton in Hy. subst y. by apply fle_refl.
  - unfold py_max_list. simpl. fold (py_max_list (py_max x z) l).
    apply elem_of_cons in Hy as [Hyx|Hy].
    + subst y. apply (fle_trans _ (py_max x z)); [by apply fle_py_max_l | by apply py_max_list_ge, py_max_not_nan].
    + apply elem_of_cons in Hy as [Hyz|Hy].
      * subst y. apply (fle_trans _ (py_max x z)); [by apply fle_py_max_r | by apply py_max_list_ge, py_max_not_nan].
      * apply IH; [by apply py_max_not_nan | by right | done].
Qed.

(** The maximum is one of the items. *)
Lemma py_max_list_elem x l : py_max_list x l ∈ x :: l.
Proof.
  unfold py_max_list. revert x; induction l as [|z l IH]; intros x; simpl; [by left|].
  pose proof (IH (py_max x z)) as H. apply elem_of_cons in H as [H|H]; rewrite elem_of_cons.
  - rewrite H. unfold py_max. destruct (flt x z); [right; by left | by left].
  - right. by right.
Qed.

Lemma fval_None_iff x : fval x = None <-> x = PNaN.
Proof. by destruct x. Qed.

Lemma fabs_nan x : fabs x = PNaN <-> x = PNaN.
Proof. by destruct x. Qed.

(** ** Multiplication by a positive [int] *)

Definition ext_scale (k : Z) (a : ext) : ext :=
  match a with XFin q => XFin (Qred (q * inject_Z k)) | _ => a end.

Lemma fval_fmul_int c k :
  (0 < k)%Z -> fval (fmul_int c k) = option_map (ext_scale k) (fval c).
Proof.
  intros Hk. destruct c as [| | | |q]; simpl.
  - done.
  - by replace (0 <? k)%Z with true by lia.
  - by replace (0 <? k)%Z with true by lia.
  - replace (k <? 0)%Z with false by lia. reflexivity.
  - destruct (Qeq_bool (q * inject_Z k) 0) eqn:Hz.
    + apply Qeq_bool_eq in Hz.
      assert (Qred (Qred q * inject_Z k) = 0) as ->.
      { apply (Qred_complete _ 0). rewrite Qred_correct. exact Hz. }
      by destruct (xorb _ _).
    + simpl. do 2 f_equal. apply Qred_complete. rewrite Qred_correct. reflexivity.
Qed.

(** [float(s)] either returns or raises [ValueError] on [s] itself. *)
Lemma py_float_cases s : (exists v, py_float s = Ok v) \/ py_float s = Raise (ValueError s).
Proof. unfold py_float. repeat case_match; eauto. Qed.

Lemma py_int_cases s : (exists n, py_int s = Ok n) \/ py_int s = Raise (ValueError s).
Proof. unfold py_int. repeat case_match; eauto. Qed.
