(* ===== verification/PyRepr.v ===== *)
(** * PyRepr: a decimal printer for floats, an instance of [FloatStr]

    [str(x)] for the floats the scripts produce: [nan], [inf], [-inf],
    [-0.0], and finite values in Python's fixed notation with at least one
    digit after the point ([2.0], [0.025], [-188.0]).  A value with a
    finite decimal expansion is printed exactly; any other value (which
    parsing decimal literals never yields) is cut after 17 decimals.
    Python switches to exponent notation below [1e-4] and from [1e16]
    on; that form is not modelled.  The laws of [FloatStr] are proved. *)

From S2P Require Import Prelude PyText PyFloat.
From Stdlib Require Import QArith.

Local Open Scope string_scope.

Definition digit_char (d : Z) : ascii := ascii_of_nat (48 + Z.to_nat d).

(** The decimal digits of [n >= 0] in front of [acc]; [fuel] bounds the
    number of digits and [Pos.size_nat] binary digits are always enough. *)
Fixpoint digits_fuel (fuel : nat) (n : Z) (acc : string) : string :=
  match fuel with
  | O => acc
  | S f =>
      let acc' := String (digit_char (n mod 10)) acc in
      if (n <? 10)%Z then acc' else digits_fuel f (n / 10) acc'
  end.

Definition digits (n : Z) : string := digits_fuel (S (Z.to_nat (Z.log2 n))) n EmptyString.

(** The fractional digits [f] of [k] places, zero-padded to [k] places
    and without trailing zeros, at least one digit. *)
Fixpoint frac_digits (k : nat) (f : Z) (acc : string) : string :=
  match k with
  | O => acc
  | S k' =>
      let d := (f mod 10)%Z in
      let acc' := if decide (acc = EmptyString /\ d = 0%Z) then acc else String (digit_char d) acc in
      frac_digits k' (f / 10) acc'
  end.

(** The number of decimals of [n / d]: the least [k <= 17] with [d]
    dividing [n * 10^k], else 17. *)
Fixpoint places (fuel : nat) (k : nat) (n : Z) (d : Z) : nat :=
  match fuel with
  | O => k
  | S f => if decide ((n * 10 ^ Z.of_nat k) mod d = 0)%Z then k else places f (S k) n d
  end.

Definition fixed_str (q : Q) : string :=
  let q' := Qred q in
  let n := Z.abs (Qnum q') in
  let d := Zpos (Qden q') in
  let k := places 17 0 n d in
  let m := (n * 10 ^ Z.of_nat k / d)%Z in
  let ip := (m / 10 ^ Z.of_nat k)%Z in
  let fp := (m mod 10 ^ Z.of_nat k)%Z in
  let fs := frac_digits k fp EmptyString in
  (if (Qnum q' <? 0)%Z then "-" else "") +:+ digits ip +:+ "." +:+
  (if decide (fs = EmptyString) then "0" else fs).

Definition decimal_str (x : pyfloat) : string :=
  match x with
  | PNaN => "nan"
  | PInf => "inf"
  | PNInf => "-inf"
  | PNZero => "-0.0"
  | PFin q => fixed_str q
  end.

(** ** The laws *)

(** A character test false on every digit, the point and the minus sign. *)
Definition digit_free (P : ascii -> bool) : Prop :=
  (forall d, (0 <= d < 10)%Z -> P (digit_char d) = false) /\ P "."%char = false /\ P "-"%char = false
  /\ P "0"%char = false.

Lemma digits_fuel_free P fuel n acc :
  digit_free P -> (0 <= n)%Z -> str_has P acc = false -> str_has P (digits_fuel fuel n acc) = false.
Proof.
  intros HP. revert n acc; induction fuel as [|f IH]; intros n acc Hn Hacc; simpl; [done|].
  assert (Hd : str_has P (String (digit_char (n mod 10)) acc) = false).
  { simpl. rewrite Hacc, (proj1 HP); [done | apply Z.mod_pos_bound; lia]. }
  destruct (n <? 10)%Z; [done|]. apply IH; [|done]. apply Z.div_pos; lia.
Qed.

Lemma frac_digits_free P k f acc :
  digit_free P -> str_has P acc = false -> str_has P (frac_digits k f acc) = false.
Proof.
  intros HP. revert f acc; induction k as [|k IH]; intros f acc Hacc; simpl; [done|].
  apply IH. case_decide; [done|]. simpl. rewrite Hacc, (proj1 HP); [done|].
  apply Z.mod_pos_bound. lia.
Qed.

Lemma fixed_str_free P q : digit_free P -> str_has P (fixed_str q) = false.
Proof.
  intros HP. unfold fixed_str.
  rewrite !str_has_app. apply orb_false_iff. split; [|apply orb_false_iff; split].
  - destruct (_ <? 0)%Z; simpl; [by rewrite (proj1 (proj2 (proj2 HP)))|done].
  - apply digits_fuel_free; [done| |done].
    apply Z.div_pos; [apply Z.div_pos; [apply Z.mul_nonneg_nonneg; [lia | apply Z.pow_nonneg; lia] | lia] | apply Z.pow_pos_nonneg; lia].
  - simpl. rewrite (proj1 (proj2 HP)). simpl.
    case_decide; simpl; [by rewrite (proj2 (proj2 (proj2 HP)))|].
    by apply frac_digits_free.
Qed.

Lemma digit_char_nat d : (0 <= d < 10)%Z -> nat_of_ascii (digit_char d) = (48 + Z.to_nat d)%nat.
Proof. intros Hd. unfold digit_char. apply nat_ascii_embedding. lia. Qed.

Lemma digit_free_sep c : (nat_of_ascii c < 45)%nat -> digit_free (fun d => bool_decide (d = c)).
Proof.
  intros Hc. split_and!; try (apply bool_decide_eq_false_2; intros <-; vm_compute in Hc; lia).
  intros d Hd. apply bool_decide_eq_false_2. intros Heq.
  pose proof (digit_char_nat d Hd) as E. rewrite Heq in E. lia.
Qed.

Lemma decimal_str_sep c x :
  (nat_of_ascii c < 45)%nat -> nat_of_ascii c <> 97%nat -> nat_of_ascii c <> 105%nat ->
  nat_of_ascii c <> 110%nat -> nat_of_ascii c <> 102%nat ->
  str_has (fun d => bool_decide (d = c)) (decimal_str x) = false.
Proof.
  intros Hc ????. destruct x; simpl; try (by apply fixed_str_free, digit_free_sep);
    repeat (rewrite bool_decide_eq_false_2; [|intros <-; vm_compute in *; lia]); done.
Qed.

Definition starts_digit (s : string) : Prop :=
  exists d rest, s = String (digit_char d) rest /\ (0 <= d < 10)%Z.

Lemma digits_fuel_starts fuel n acc :
  (0 <= n)%Z -> starts_digit (String (digit_char (n mod 10)) acc) ->
  starts_digit (digits_fuel (S fuel) n acc).
Proof.
  revert n acc; induction fuel as [|f IH]; intros n acc Hn Hs; simpl.
  - destruct (n <? 10)%Z; done.
  - destruct (n <? 10)%Z; [done|]. apply IH; [apply Z.div_pos; lia|].
    do 2 eexists. split; [done|]. apply Z.mod_pos_bound. lia.
Qed.

Lemma digits_starts n : (0 <= n)%Z -> starts_digit (digits n).
Proof.
  intros Hn. apply digits_fuel_starts; [done|].
  do 2 eexists. split; [done|]. apply Z.mod_pos_bound. lia.
Qed.

Lemma decimal_str_not_error x : decimal_str x <> "error".
Proof.
  destruct x as [| | | |q]; try discriminate. unfold decimal_str, fixed_str.
  destruct (_ <? 0)%Z; [discriminate|]. rewrite str_app_nil_l.
  match goal with |- digits ?n +:+ ?t <> _ => assert (Hn : (0 <= n)%Z) end.
  { apply Z.div_pos; [apply Z.div_pos; [apply Z.mul_nonneg_nonneg; [lia | apply Z.pow_nonneg; lia] | lia] | apply Z.pow_pos_nonneg; lia]. }
  destruct (digits_starts _ Hn) as (d & rest & -> & Hd).
  rewrite str_app_cons. intros [= Hc _].
  pose proof (digit_char_nat d Hd) as E. rewrite Hc in E. change (nat_of_ascii "e"%char) with 101%nat in E. lia.
Qed.

#[export] Program Instance decimal_float_str : FloatStr := {| float_str := decimal_str |}.
Next Obligation. apply decimal_str_sep; vm_compute; lia. Qed.
Next Obligation. apply decimal_str_sep; vm_compute; lia. Qed.
Next Obligation. apply decimal_str_not_error. Qed.
