(* ===== verification/PyIO.v ===== *)
(** * PyIO: files, dialogs and exceptions of a running script

    The world a script sees: the text of every file by path (a [gmap]) and
    the message boxes shown so far, oldest first.  [io] is state passing
    with exceptions: an exception in flight keeps the writes made before
    it, as Python's [with open(...)] does.  [path_join] and [basename]
    model [os.path.join] and [os.path.basename] on POSIX paths.  Opening a
    file for writing always succeeds (directories are not modelled).
    [quiet c] says that [c] shows nothing and writes nothing;
    [only_writes P c] that [c] changes no file outside [P], with one
    lemma per construct ([bind], [try], loops, [open], [write]) in the
    [py] hint database, so that the frame of a whole script is proved by
    [eauto] and a few explicit steps. *)

From S2P Require Import Prelude PyText.
From stdpp Require Import gmap.

Local Open Scope string_scope.

Section World.
(** [D] is the type of message boxes of the script. *)
Context {D : Type}.

Record world := mk_world { files : gmap string string; shown : list D }.

Definition io (A : Type) := world -> res A * world.

#[export] Instance io_ret : MRet io := fun A x w => (Ok x, w).
#[export] Instance io_bind : MBind io :=
  fun A B (f : A -> io B) (c : io A) w =>
    match c w with
    | (Ok x, w') => f x w'
    | (Raise e, w') => (Raise e, w')
    end.

Definition io_lift {A} (r : res A) : io A := fun w => (r, w).

Definition io_raise {A} (e : py_exc) : io A := fun w => (Raise e, w).

(** [try: c except Exception as e: h(e)]. *)
Definition io_try {A} (c : io A) (h : py_exc -> io A) : io A :=
  fun w => match c w with (Raise e, w') => h e w' | r => r end.

(** [open(path).read()]: [OSError] when there is no such file. *)
Definition read_file (path : string) : io string :=
  fun w => match files w !! path with
           | Some s => (Ok s, w)
           | None => (Raise (OSError path), w)
           end.

(** [open(path, 'w')]: the file exists and is empty. *)
Definition open_write (path : string) : io unit :=
  fun w => (Ok tt, mk_world (<[path := EmptyString]> (files w)) (shown w)).

(** [f.write(s)] on a file opened for writing. *)
Definition write_str (path : string) (s : string) : io unit :=
  fun w => (Ok tt, mk_world (<[path := default EmptyString (files w !! path) +:+ s]> (files w)) (shown w)).

Definition path_exists (path : string) : io bool :=
  fun w => (Ok (bool_decide (is_Some (files w !! path))), w).

(** [messagebox.show...]. *)
Definition show (d : D) : io unit :=
  fun w => (Ok tt, mk_world (files w) (shown w ++ [d])).

(** A list comprehension whose body does I/O: the first exception wins
    and the effects before it stay. *)
Fixpoint io_map {A B} (f : A -> io B) (l : list A) : io (list B) :=
  match l with
  | [] => mret []
  | x :: l' => y ← f x; ys ← io_map f l'; mret (y :: ys)
  end.

Fixpoint io_iter {A} (f : A -> io unit) (l : list A) : io unit :=
  match l with
  | [] => mret tt
  | x :: l' => f x ;; io_iter f l'
  end.
End World.

Arguments world : clear implicits.
Arguments io : clear implicits.

(** ** Paths *)

Definition slash : ascii := "/"%char.

(** [os.path.join(dir, name)] for POSIX paths. *)
Definition path_join (dir name : string) : string :=
  match name with
  | String c _ => if decide (c = slash) then name else
      if decide (dir = EmptyString) then name
      else if py_endswith "/" dir then dir +:+ name else dir +:+ "/" +:+ name
  | EmptyString => if decide (dir = EmptyString) then name
      else if py_endswith "/" dir then dir else dir +:+ "/"
  end.

(** The paths [os.path.join(dir, name)] can give. *)
Definition in_dir (dir q : string) : Prop := exists name, q = path_join dir name.

(** [os.path.basename(p)]: what follows the last slash. *)
Definition basename (p : string) : string := default EmptyString (last (py_split_sep slash p)).

(** ** Lemmas *)

Section Lemmas.
Context {D : Type}.

Lemma io_bind_Ok {A B} (c : io D A) (f : A -> io D B) w x w' :
  c w = (Ok x, w') -> (c ≫= f) w = f x w'.
Proof. intros H. unfold mbind, io_bind. by rewrite H. Qed.

Lemma io_bind_Raise {A B} (c : io D A) (f : A -> io D B) w e w' :
  c w = (Raise e, w') -> (c ≫= f) w = (Raise e, w').
Proof. intros H. unfold mbind, io_bind. by rewrite H. Qed.

Lemma read_file_Some (w : world D) p s :
  files w !! p = Some s -> read_file p w = (Ok s, w).
Proof. intros H. unfold read_file. by rewrite H. Qed.

Lemma read_file_None (w : world D) p :
  files w !! p = None -> read_file p w = (Raise (OSError p), w).
Proof. intros H. unfold read_file. by rewrite H. Qed.
Lemma io_try_Ok {A} (c : io D A) h w x w' :
  c w = (Ok x, w') -> io_try c h w = (Ok x, w').
Proof. intros H. unfold io_try. by rewrite H. Qed.

Lemma io_try_Raise {A} (c : io D A) h w e w' :
  c w = (Raise e, w') -> io_try c h w = h e w'.
Proof. intros H. unfold io_try. by rewrite H. Qed.

(** The world after appending [s] to the file [p]. *)
Definition appended (p s : string) (w : world D) : world D :=
  mk_world (<[p := default EmptyString (files w !! p) +:+ s]> (files w)) (shown w).

Lemma appended_app p s1 s2 w : appended p s2 (appended p s1 w) = appended p (s1 +:+ s2) w.
Proof.
  unfold appended. simpl. rewrite lookup_insert_eq, insert_insert_eq. simpl.
  by rewrite str_app_assoc.
Qed.

Lemma write_str_appended p s (w : world D) : write_str p s w = (Ok tt, appended p s w).
Proof. done. Qed.

(** The world after [open(p, 'w')] and writes of [s]. *)
Lemma appended_open p s fs (sh : list D) :
  appended p s (mk_world (<[p := EmptyString]> fs) sh) = mk_world (<[p := s]> fs) sh.
Proof. unfold appended. simpl. by rewrite lookup_insert_eq, insert_insert_eq, str_app_nil_l. Qed.

(** A loop over [h <$> l] whose every round appends to one existing file
    appends the concatenation; [P] is an invariant of the worlds the
    rounds run in, kept by appending to that file. *)
Lemma io_iter_appended_inv {A B} (P : world D -> Prop) (f : B -> io D unit) (h : A -> B)
    (g : A -> string) p l w :
  (forall s w, P w -> P (appended p s w)) -> P w -> is_Some (files w !! p) ->
  (forall x w, x ∈ l -> P w -> f (h x) w = (Ok tt, appended p (g x) w)) ->
  io_iter f (h <$> l) w = (Ok tt, appended p (foldr String.append EmptyString (g <$> l)) w).
Proof.
  intros HP. revert w; induction l as [|x l IH]; intros w Hw [s Hs] Hf; simpl.
  - unfold appended. rewrite Hs. simpl. rewrite str_app_nil_r, insert_id by done.
    by destruct w.
  - erewrite io_bind_Ok by (apply Hf; [set_solver | done]).
    rewrite IH; [by rewrite appended_app | by apply HP | simpl; by rewrite lookup_insert_eq |].
    intros; apply Hf; [set_solver | done].
Qed.

Lemma io_iter_appended {A B} (f : B -> io D unit) (h : A -> B) (g : A -> string) p l w :
  is_Some (files w !! p) ->
  (forall x w, x ∈ l -> f (h x) w = (Ok tt, appended p (g x) w)) ->
  io_iter f (h <$> l) w = (Ok tt, appended p (foldr String.append EmptyString (g <$> l)) w).
Proof. intros Hp Hf. apply (io_iter_appended_inv (fun _ => True)); auto. Qed.

Lemma io_iter_app {A} (f : A -> io D unit) l1 l2 w w1 :
  io_iter f l1 w = (Ok tt, w1) -> io_iter f (l1 ++ l2) w = io_iter f l2 w1.
Proof.
  revert w; induction l1 as [|x l1 IH]; intros w H; simpl in *; [by injection H as <-|].
  unfold mbind, io_bind in *. destruct (f x w) as [[[]|e] w2]; [by apply IH | done].
Qed.

(** A loop whose rounds change nothing and can raise only [e] raises [e]
    as soon as one round does. *)
Lemma io_map_raise_some {A B} (f : A -> io D B) l e x w :
  (forall y, y ∈ l -> (exists z, f y w = (Ok z, w)) \/ f y w = (Raise e, w)) ->
  x ∈ l -> f x w = (Raise e, w) -> io_map f l w = (Raise e, w).
Proof.
  induction l as [|y l IH]; intros Hf Hx Hfx; simpl; [by apply elem_of_nil in Hx|].
  destruct (Hf y) as [[z Hz]|Hz]; [by left | | by erewrite io_bind_Raise by exact Hz].
  erewrite io_bind_Ok by exact Hz. apply elem_of_cons in Hx as [->|Hx]; [congruence|].
  erewrite io_bind_Raise; [done|]. apply IH; [intros; apply Hf; by right | done | done].
Qed.

(** Appending to [p] leaves every other file as it was. *)
Lemma appended_other p s w q : q <> p -> files (appended p s w) !! q = files w !! q.
Proof. intros Hq. unfold appended. simpl. by rewrite lookup_insert_ne. Qed.

(** ** Computations that show no box *)

Definition quiet {A} (c : io D A) : Prop := forall w, shown (c w).2 = shown w.

Lemma quiet_bind {A B} (c : io D A) (f : A -> io D B) :
  quiet c -> (forall x, quiet (f x)) -> quiet (c ≫= f).
Proof.
  intros Hc Hf w. unfold mbind, io_bind. specialize (Hc w).
  destruct (c w) as [[x|e] w']; simpl in *; [by rewrite Hf | done].
Qed.

Lemma quiet_ret {A} (x : A) : quiet (mret x).
Proof. done. Qed.
Lemma quiet_io_lift {A} (r : res A) : quiet (io_lift r).
Proof. done. Qed.
Lemma quiet_io_raise {A} e : quiet (A:=A) (io_raise e).
Proof. done. Qed.
Lemma quiet_read_file p : quiet (read_file p).
Proof. intros w. unfold read_file. by destruct (files w !! p). Qed.
Lemma quiet_open_write p : quiet (open_write p).
Proof. done. Qed.
Lemma quiet_write_str p s : quiet (write_str p s).
Proof. done. Qed.
Lemma quiet_path_exists p : quiet (path_exists p).
Proof. done. Qed.

Lemma quiet_io_iter {A} (f : A -> io D unit) l : (forall x, quiet (f x)) -> quiet (io_iter f l).
Proof. intros Hf. induction l as [|x l IH]; simpl; [apply quiet_ret | by apply quiet_bind]. Qed.

(** A quiet computation run on [w] leaves the boxes of [w]. *)
Lemma quiet_run {A} (c : io D A) w : quiet c -> c w = ((c w).1, mk_world (files (c w).2) (shown w)).
Proof. intros Hq. rewrite <- (Hq w). by destruct (c w) as [r [fs sh]]. Qed.
(** ** Computations that write only where allowed *)

(** [c] changes no file outside [P]. *)
Definition only_writes {A} (P : string -> Prop) (c : io D A) : Prop :=
  forall w q, ~ P q -> files (c w).2 !! q = files w !! q.

Lemma only_writes_bind {A B} P (c : io D A) (f : A -> io D B) :
  only_writes P c -> (forall x, only_writes P (f x)) -> only_writes P (c ≫= f).
Proof.
  intros Hc Hf w q Hq. unfold mbind, io_bind. specialize (Hc w q Hq).
  destruct (c w) as [[x|e] w']; simpl in *; [by rewrite Hf | done].
Qed.

Lemma only_writes_try {A} P (c : io D A) h :
  only_writes P c -> (forall e, only_writes P (h e)) -> only_writes P (io_try c h).
Proof.
  intros Hc Hh w q Hq. unfold io_try. specialize (Hc w q Hq).
  destruct (c w) as [[x|e] w']; simpl in *; [done | by rewrite Hh].
Qed.

Lemma only_writes_quiet_read {A} P (c : io D A) :
  (forall w, files (c w).2 = files w) -> only_writes P c.
Proof. intros Hc w q _. by rewrite Hc. Qed.

Lemma only_writes_ret {A} P (x : A) : only_writes P (mret x).
Proof. done. Qed.
Lemma only_writes_io_lift {A} P (r : res A) : only_writes P (io_lift r).
Proof. done. Qed.
Lemma only_writes_io_raise {A} P e : only_writes P (A:=A) (io_raise e).
Proof. done. Qed.
Lemma only_writes_read_file P p : only_writes P (read_file p).
Proof. intros w q _. unfold read_file. by destruct (files w !! p). Qed.
Lemma only_writes_path_exists P p : only_writes P (path_exists p).
Proof. done. Qed.
Lemma only_writes_show P d : only_writes P (show d).
Proof. done. Qed.
Lemma only_writes_open_write (P : string -> Prop) p : P p -> only_writes P (open_write p).
Proof. intros Hp w q Hq. simpl. rewrite lookup_insert_ne; [done|]. intros ->. by apply Hq. Qed.
Lemma only_writes_write_str (P : string -> Prop) p s : P p -> only_writes P (write_str p s).
Proof. intros Hp w q Hq. simpl. rewrite lookup_insert_ne; [done|]. intros ->. by apply Hq. Qed.

Lemma only_writes_io_iter_in {A} P (f : A -> io D unit) l :
  (forall x, In x l -> only_writes P (f x)) -> only_writes P (io_iter f l).
Proof.
  intros Hf. induction l as [|x l IH]; simpl; [apply only_writes_ret|].
  apply only_writes_bind; [apply Hf; by left|]. intros _. apply IH. intros y Hy. apply Hf. by right.
Qed.

Lemma only_writes_io_iter {A} P (f : A -> io D unit) l :
  (forall x, only_writes P (f x)) -> only_writes P (io_iter f l).
Proof. intros Hf. apply only_writes_io_iter_in. intros x _. apply Hf. Qed.

Lemma only_writes_io_map {A B} P (f : A -> io D B) l :
  (forall x, only_writes P (f x)) -> only_writes P (io_map f l).
Proof.
  intros Hf. induction l as [|x l IH]; simpl; [apply only_writes_ret|].
  apply only_writes_bind; [done|]. intros y. apply only_writes_bind; [done|]. intros. apply only_writes_ret.
Qed.

Lemma only_writes_mono {A} (P Q : string -> Prop) (c : io D A) :
  (forall q, P q -> Q q) -> only_writes P c -> only_writes Q c.
Proof. intros HPQ Hc w q Hq. apply Hc. intros Hp. by apply Hq, HPQ. Qed.
End Lemmas.

#[export] Hint Resolve quiet_bind quiet_ret quiet_io_lift quiet_io_raise quiet_read_file
  quiet_open_write quiet_write_str quiet_path_exists quiet_io_iter : py.
#[export] Hint Resolve only_writes_bind only_writes_try only_writes_ret only_writes_io_lift
  only_writes_io_raise only_writes_read_file only_writes_path_exists only_writes_show
  only_writes_io_iter only_writes_io_map : py.
