(* ===== verification/StrainReduce.v ===== *)
(** * StrainReduce: [ResultProcessor.process_strain_data]

    Function 2 of [src/process_results.py] (lines 181-208).  [X] is the
    data matrix built by [generate_function2_output]: [X[0]] is the
    threshold column (the C values), [X[k]] for [k >= 1] the strain column
    of the k-th selected A element, with the literal cell ["error"] for a
    missing value.  For every selected [a] the code computes
    - [y1], the largest strain of the rows with [c*10 <= a] (the RC value),
    - [y2], the largest strain of the rows with [a <= c*10] (the ECC value),
    starting from [-inf], and renders [-inf] as ["error"].

    [to_col_value], [max_where], [lower_keep], [upper_keep],
    [rc_max] and [ecc_max] (the two loops), [render_result], [strain_cells],
    [strain_for] and [process_strain_data] translate the code; the result
    lists hold the strings the code appends, [str(y)] being the [float_str]
    of the [FloatStr] interface.  [lower_spec], [upper_spec], [candidate]
    and [reduces_to] are the abstract contract of the spec
    ("ThresholdExtremumReducer"): the entry is ERROR when no qualifying row
    has a value, and the text of the maximum of the qualifying values
    otherwise. *)

From S2P Require Import Prelude PyText PyFloat PyRepr.
From Stdlib Require Import QArith Morphisms Permutation.

Local Open Scope string_scope.

(** ** The code *)

(** Line 191: [float(x) if x != "error" else float('-inf')]. *)
Definition to_col_value (x : string) : res pyfloat :=
  if decide (x = "error") then Ok PNInf else py_float x.

(** Lines 195-197 (and 201-203): [for c, val in zip(c_values, col_data):
    if keep(c): y = max(y, val)]. *)
Fixpoint max_where (keep : pyfloat -> bool) (y : pyfloat) (rows : list (pyfloat * pyfloat)) : pyfloat :=
  match rows with
  | [] => y
  | (c, v) :: rows' => max_where keep (if keep c then py_max y v else y) rows'
  end.

(** Line 196: [c * 10 <= a]. *)
Definition lower_keep (a : Z) (c : pyfloat) : bool := fle (fmul_int c 10) (of_Z a).

(** Line 202: [a <= c * 10]. *)
Definition upper_keep (a : Z) (c : pyfloat) : bool := fle (of_Z a) (fmul_int c 10).

(** Lines 194-197: [y1 = float('-inf')] and its loop over the rows. *)
Definition rc_max (a : Z) (rows : list (pyfloat * pyfloat)) : pyfloat :=
  max_where (lower_keep a) PNInf rows.

(** Lines 200-203: [y2 = float('-inf')] and its loop over the rows. *)
Definition ecc_max (a : Z) (rows : list (pyfloat * pyfloat)) : pyfloat :=
  max_where (upper_keep a) PNInf rows.

Section Code.
Context `{FloatStr}.

(** Lines 205-206: [str(y) if y != float('-inf') else "error"]. *)
Definition render_result (y : pyfloat) : string :=
  if fne y PNInf then float_str y else "error".

(** Lines 205-206: the RC and ECC entries appended for one column. *)
Definition strain_cells (a : Z) (rows : list (pyfloat * pyfloat)) : string * string :=
  (render_result (rc_max a rows), render_result (ecc_max a rows)).

(** Lines 189-191: the body of [for a in selected_a]: the column of [a]
    and its values, paired with the thresholds by [zip] (lines 195, 201). *)
Definition strain_for (X : list (list string)) (selected_a : list Z)
    (c_values : list pyfloat) (a : Z) : res (string * string) :=
  i ← py_list_index selected_a a;
  col ← py_getitem X (Z.of_nat (i + 1));
  col_data ← res_map to_col_value col;
  Ok (strain_cells a (zip c_values col_data)).

(** Lines 181-191 and 207-208: the thresholds, the loop over [selected_a]
    and the two result lists.  The label [b] is unused by the code. *)
Definition process_strain_data (X : list (list string)) (b : string) (selected_a : list Z)
    : res (list string * list string) :=
  X0 ← py_getitem X 0;
  c_values ← res_map py_float X0;
  pairs ← res_map (strain_for X selected_a c_values) selected_a;
  Ok (fst <$> pairs, snd <$> pairs : list string).
End Code.

(** ** The contract *)

(** A cell of a strain column denotes [-inf] when it reads ["error"] and
    its float value otherwise. *)
Definition cell_value (s : string) (v : pyfloat) : Prop :=
  (s = "error" /\ v = PNInf) \/ (s <> "error" /\ py_float s = Ok v).

(** The order of the spec on extended values. *)
Definition ext_leP (a b : ext) : Prop :=
  match a, b with
  | XNeg, _ => True
  | _, XPos => True
  | XFin p, XFin q => (p <= q)%Q
  | _, _ => False
  end.

(** The rows of the lower bound: ten times the threshold is at most [a]. *)
Definition lower_spec (a : Z) (c : pyfloat) : Prop :=
  fval c = Some XNeg \/ exists q, fval c = Some (XFin q) /\ (q * 10 <= inject_Z a)%Q.

(** The rows of the upper bound: [a] is at most ten times the threshold. *)
Definition upper_spec (a : Z) (c : pyfloat) : Prop :=
  fval c = Some XPos \/ exists q, fval c = Some (XFin q) /\ (inject_Z a <= q * 10)%Q.

(** A value a reduction may return: the value of a qualifying row, neither
    [NaN] nor [-inf]. *)
Definition candidate (qual : pyfloat -> Prop) (rows : list (pyfloat * pyfloat)) (x : ext) : Prop :=
  exists c v, (c, v) ∈ rows /\ qual c /\ fval v = Some x /\ x <> XNeg.

(** ERROR when there is no candidate, otherwise the text [str(y)] of a
    float [y] whose value is the greatest candidate.  The text of a float
    is never ["error"] (a law of [FloatStr]), so the two cases exclude
    each other. *)
Definition reduces_to {FS : FloatStr} (qual : pyfloat -> Prop) (rows : list (pyfloat * pyfloat))
    (r : string) : Prop :=
  (r = "error" /\ forall x, ~ candidate qual rows x) \/
  (exists y m, r = float_str y /\ fval y = Some m /\ candidate qual rows m /\
     forall x, candidate qual rows x -> ext_leP x m).

(** ** From the boolean order of the code to the order of the spec *)

Lemma ext_le_iff a b : ext_le a b = true <-> ext_leP a b.
Proof. destruct a, b; simpl; first [apply Qle_bool_iff | split; done]. Qed.

Lemma fle_iff x y :
  fle x y = true <-> exists a b, fval x = Some a /\ fval y = Some b /\ ext_leP a b.
Proof.
  unfold fle. destruct (fval x) as [a|], (fval y) as [b|]; split;
    try (intros (? & ? & ? & ? & ?); congruence); try discriminate.
  - intros H. exists a, b. by rewrite <- ext_le_iff.
  - intros (a' & b' & [= <-] & [= <-] & H). by apply ext_le_iff.
Qed.

Lemma fval_of_Z a : fval (of_Z a) = Some (XFin (Qred (inject_Z a))).
Proof. done. Qed.

(** The comparison of two finite values, shared by both predicates. *)
Lemma fin_le_iff x y :
  (exists a0 b, Some (XFin (Qred x)) = Some a0 /\ Some (XFin (Qred y)) = Some b /\
     ext_leP a0 b) <-> (x <= y)%Q.
Proof.
  split.
  - intros (? & ? & [= <-] & [= <-] & H). by apply Qred_le.
  - intros H. do 2 eexists. split_and!; [done | done |]. by apply Qred_le.
Qed.

Lemma lower_keep_iff a c : lower_keep a c = true <-> lower_spec a c.
Proof.
  unfold lower_keep, lower_spec. rewrite fle_iff, fval_fmul_int, fval_of_Z by lia.
  destruct (fval c) as [[|q|]|]; simpl.
  - split; [by left | intros _; by do 2 eexists].
  - rewrite (fin_le_iff (q * inject_Z 10) (inject_Z a)). split.
    + intros H. right. by exists q.
    + by intros [?|(q' & [= <-] & H)].
  - split; [by intros (? & ? & [= <-] & [= <-] & []) | by intros [?|(? & ? & _)]].
  - split; [by intros (? & ? & ? & ? & _) | by intros [?|(? & ? & _)]].
Qed.

Lemma upper_keep_iff a c : upper_keep a c = true <-> upper_spec a c.
Proof.
  unfold upper_keep, upper_spec. rewrite fle_iff, fval_fmul_int, fval_of_Z by lia.
  destruct (fval c) as [[|q|]|]; simpl.
  - split; [by intros (? & ? & [= <-] & [= <-] & []) | by intros [?|(? & ? & _)]].
  - rewrite (fin_le_iff (inject_Z a) (q * inject_Z 10)). split.
    + intros H. right. by exists q.
    + by intros [?|(q' & [= <-] & H)].
  - split; [by left | intros _; by do 2 eexists].
  - split; [by intros (? & ? & ? & ? & _) | by intros [?|(? & ? & _)]].
Qed.

(** ** The loop of lines 194-197 *)

Lemma max_where_app keep y rows1 rows2 :
  max_where keep y (rows1 ++ rows2) = max_where keep (max_where keep y rows1) rows2.
Proof. revert y; induction rows1 as [|[c v] rows1 IH]; intros y; simpl; auto. Qed.

(** Loop invariant: the running value [y] is a number, at least its
    start, either its start or the value of a kept row, and at least the
    value of every kept row read so far. *)
Lemma max_where_inv keep rows y m0 :
  fval y = Some m0 ->
  exists m, fval (max_where keep y rows) = Some m /\
    ext_le m0 m = true /\
    (m = m0 \/ exists c v, (c, v) ∈ rows /\ keep c = true /\ fval v = Some m) /\
    (forall c v x, (c, v) ∈ rows -> keep c = true -> fval v = Some x -> ext_le x m = true).
Proof.
  revert y m0; induction rows as [|[c v] rows IH]; intros y m0 Hy; simpl.
  - exists m0. split_and!; [done | apply ext_le_refl | by left | by intros ??? []%elem_of_nil].
  - set (y' := if keep c then py_max y v else y).
    assert (exists m0', fval y' = Some m0' /\ ext_le m0 m0' = true /\
      (m0' = m0 \/ (keep c = true /\ fval v = Some m0')) /\
      (forall x, keep c = true -> fval v = Some x -> ext_le x m0' = true)) as (m0' & Hy' & Hle & Horig & Hhead).
    { subst y'. destruct (keep c) eqn:Hk.
      - rewrite py_max_fval, Hy. destruct (fval v) as [x|] eqn:Hv; simpl.
        + exists (emax m0 x). split_and!; [done | apply emax_ge_l | | ].
          * destruct (emax_cases m0 x) as [->| ->]; auto.
          * intros ? _ [= <-]. apply emax_ge_r.
        + exists m0. split_and!; [done | apply ext_le_refl | by left | intros ???; congruence].
      - exists m0. split_and!; [done | apply ext_le_refl | by left | intros ???; congruence]. }
    destruct (IH y' m0' Hy') as (m & Hm & Hle' & Hor & Hall).
    exists m. split_and!; [done | eauto using ext_le_trans | |].
    + destruct Hor as [->|(c' & v' & Hin & Hk' & Hv')].
      * destruct Horig as [->|[Hk Hv]]; [by left|].
        right. exists c, v. split_and!; [by left | done | done].
      * right. exists c', v'. split_and!; [by right | done | done].
    + intros c' v' x Hin Hk' Hv'. apply elem_of_cons in Hin as [[= -> ->]|Hin].
      * eauto using ext_le_trans.
      * eauto.
Qed.

(** [render_result] decides on the value: ["error"] exactly for [-inf]. *)
Lemma render_result_val {FS : FloatStr} y m :
  fval y = Some m -> render_result y = if decide (m = XNeg) then "error" else float_str y.
Proof.
  intros Hy. unfold render_result, fne, feqb. rewrite Hy. simpl.
  case_decide as Hm; [by subst|]. by destruct m.
Qed.

Lemma ext_le_XNeg x : ext_le x XNeg = true -> x = XNeg.
Proof. by destruct x. Qed.

(** Refinement for one column: the loop started at [-inf] and rendered
    meets the contract, for any boolean test that decides the predicate. *)
Lemma max_where_reduces {FS : FloatStr} keep (qual : pyfloat -> Prop) rows :
  (forall c, keep c = true <-> qual c) ->
  reduces_to qual rows (render_result (max_where keep PNInf rows)).
Proof.
  intros Hq.
  destruct (max_where_inv keep rows PNInf XNeg eq_refl) as (m & Hm & _ & Hor & Hall).
  rewrite (render_result_val _ _ Hm). case_decide as Hm0.
  - left. split; [done|]. intros x (c & v & Hin & Hc & Hv & Hx).
    apply Hx, ext_le_XNeg. subst m. eapply Hall; eauto. by apply Hq.
  - right. exists (max_where keep PNInf rows), m. split_and!; [done | done | |].
    + destruct Hor as [->|(c & v & Hin & Hk & Hv)]; [done|].
      exists c, v. split_and!; [done | by apply Hq | done | done].
    + intros x (c & v & Hin & Hc & Hv & _). apply ext_le_iff.
      eapply Hall; eauto. by apply Hq.
Qed.

(** ** The whole function *)

Lemma to_col_value_Ok s v : to_col_value s = Ok v <-> cell_value s v.
Proof.
  unfold to_col_value, cell_value. case_decide as Hs; split.
  - intros [= <-]. by left.
  - by intros [[_ ->]|[? _]].
  - intros H. by right.
  - by intros [[? _]|[_ H]].
Qed.

Lemma strain_for_Ok {FS : FloatStr} X sa cs a r e :
  strain_for X sa cs a = Ok (r, e) ->
  exists j col vs, py_list_index sa a = Ok j /\ X !! S j = Some col /\
    Forall2 cell_value col vs /\ (r, e) = strain_cells a (zip cs vs).
Proof.
  unfold strain_for. intros H. res_inv.
  assert (Hre : strain_cells a (zip cs x1) = (r, e)) by congruence.
  exists x, x0, x1. split_and!; [done | | | done].
  - rewrite Nat.add_1_r in Hx0. by apply py_getitem_nat_Ok.
  - apply res_map_Ok in Hx1. eapply Forall2_impl; [exact Hx1|].
    intros ??. apply to_col_value_Ok.
Qed.

Lemma process_strain_data_Ok {FS : FloatStr} X (b : string) sa rc ecc :
  process_strain_data X b sa = Ok (rc, ecc) ->
  exists ths cs pairs, X !! 0%nat = Some ths /\
    Forall2 (fun t c => py_float t = Ok c) ths cs /\
    Forall2 (fun a p => strain_for X sa cs a = Ok p) sa pairs /\
    rc = fst <$> pairs /\ ecc = snd <$> pairs.
Proof.
  unfold process_strain_data. intros H. res_inv. injection H as <- <-.
  exists x, x0, x1. split_and!; [| by apply res_map_Ok | by apply res_map_Ok | done | done].
  by apply (py_getitem_nat_Ok X 0).
Qed.

(** The entry of the result rows for the [i]-th selected element comes
    from the column of its first occurrence. *)
Lemma process_strain_data_entry {FS : FloatStr} X (b : string) sa rc ecc i a :
  process_strain_data X b sa = Ok (rc, ecc) -> sa !! i = Some a ->
  exists ths cs j col vs r e,
    X !! 0%nat = Some ths /\ Forall2 (fun t c => py_float t = Ok c) ths cs /\
    py_list_index sa a = Ok j /\ X !! S j = Some col /\ Forall2 cell_value col vs /\
    rc !! i = Some r /\ ecc !! i = Some e /\ (r, e) = strain_cells a (zip cs vs).
Proof.
  intros H Hi. apply process_strain_data_Ok in H as (ths & cs & pairs & H0 & Hcs & Hp & -> & ->).
  destruct (Forall2_lookup_l _ _ _ _ _ Hp Hi) as ([r e] & Hpi & Hs).
  apply strain_for_Ok in Hs as (j & col & vs & Hj & Hcol & Hvs & Hre).
  exists ths, cs, j, col, vs, r, e. split_and!; try done.
  - by rewrite list_lookup_fmap, Hpi.
  - by rewrite list_lookup_fmap, Hpi.
Qed.

(** Both cells of one column meet the contract. *)
Lemma strain_cells_reduce {FS : FloatStr} a rows r e :
  (r, e) = strain_cells a rows ->
  reduces_to (lower_spec a) rows r /\ reduces_to (upper_spec a) rows e.
Proof.
  unfold strain_cells, rc_max, ecc_max. intros [= -> ->].
  split; apply max_where_reduces; [apply lower_keep_iff | apply upper_keep_iff].
Qed.

(** ** Properties of [process_strain_data] *)

(** C1 (refinement). When [process_strain_data] returns, the RC and ECC
    entries of every selected A element meet the spec's contract on the
    rows formed by the threshold column and that element's column: the RC
    entry is ERROR exactly when no row with [c*10 <= a] has a value other
    than NaN and [-inf], and is otherwise the largest such value; the ECC
    entry likewise for [a <= c*10]. *)
Theorem process_strain_data_refines {FS : FloatStr} X (b : string) sa rc ecc i a :
  process_strain_data X b sa = Ok (rc, ecc) -> sa !! i = Some a ->
  exists ths cs j col vs r e,
    X !! 0%nat = Some ths /\ Forall2 (fun t c => py_float t = Ok c) ths cs /\
    py_list_index sa a = Ok j /\ X !! S j = Some col /\ Forall2 cell_value col vs /\
    rc !! i = Some r /\ ecc !! i = Some e /\
    reduces_to (lower_spec a) (zip cs vs) r /\ reduces_to (upper_spec a) (zip cs vs) e.
Proof.
  intros H Hi.
  destruct (process_strain_data_entry X b sa rc ecc i a H Hi)
    as (ths & cs & j & col & vs & r & e & H0 & Hcs & Hj & Hcol & Hvs & Hr & He & Hre).
  apply strain_cells_reduce in Hre as [Hlo Hup].
  exists ths, cs, j, col, vs, r, e. done.
Qed.

(** The first scenario of the spec: thresholds [-31, -18.8, 0, 10], label
    20, values [1.0, 2.0, error, 4.0]: RC is 2.0 and ECC is 4.0. *)
Lemma process_strain_data_refines_witness :
  let X := [["-31"; "-18.8"; "0"; "10"]; ["1.0"; "2.0"; "error"; "4.0"]] in
  process_strain_data X "0.5g" [20%Z] = Ok (["2.0"], ["4.0"]) /\
  exists ths cs j col vs r e,
    X !! 0%nat = Some ths /\ Forall2 (fun t c => py_float t = Ok c) ths cs /\
    py_list_index [20%Z] 20%Z = Ok j /\ X !! S j = Some col /\ Forall2 cell_value col vs /\
    ["2.0"] !! 0%nat = Some r /\ ["4.0"] !! 0%nat = Some e /\
    reduces_to (lower_spec 20) (zip cs vs) r /\ reduces_to (upper_spec 20) (zip cs vs) e.
Proof.
  intros X. split; [vm_compute; reflexivity|].
  apply (process_strain_data_refines X "0.5g" [20%Z] _ _ 0 20); [vm_compute; reflexivity | reflexivity].
Defined.

(** ** Totality and the error paths *)

Lemma to_col_value_total s : (exists v, cell_value s v) -> exists v, to_col_value s = Ok v.
Proof. intros [v Hv]. exists v. by apply to_col_value_Ok. Qed.

(** C4 (termination). [process_strain_data] returns, with one RC and one
    ECC entry per selected element, as soon as the matrix has a column for
    every selected element, every threshold cell parses as a float and
    every cell of those columns is ["error"] or parses as a float. *)
Theorem process_strain_data_total {FS : FloatStr} X (b : string) sa ths :
  X !! 0%nat = Some ths ->
  Forall (fun t => exists c, py_float t = Ok c) ths ->
  (forall k col, (1 <= k <= length sa)%nat -> X !! k = Some col ->
     Forall (fun s => exists v, cell_value s v) col) ->
  (length sa < length X)%nat ->
  exists rc ecc, process_strain_data X b sa = Ok (rc, ecc) /\
    length rc = length sa /\ length ecc = length sa.
Proof.
  intros H0 Hths Hcols Hlen. unfold process_strain_data.
  assert (py_getitem X 0 = Ok ths) as -> by by apply (py_getitem_nat_Ok X 0). simpl.
  destruct (res_map_total py_float ths) as [cs ->]; [by apply Forall_forall|]. simpl.
  destruct (res_map_total (strain_for X sa cs) sa) as [pairs Hpairs].
  { intros a Ha. destruct (py_list_index_elem sa a Ha) as (j & Hj & Hjlt).
    destruct (lookup_lt_is_Some_2 X (S j)) as [col Hcol]; [lia|].
    unfold strain_for. rewrite Hj. simpl. rewrite Nat.add_1_r, (py_getitem_lookup _ _ _ Hcol). simpl.
    destruct (res_map_total to_col_value col) as [vs ->]; [|by eexists].
    intros s Hs. apply to_col_value_total.
    pose proof (Hcols (S j) col ltac:(lia) Hcol) as Hf. rewrite Forall_forall in Hf. by apply Hf. }
  rewrite Hpairs. simpl. eexists _, _. split; [done|].
  rewrite !length_fmap. split; eapply res_map_length; eauto.
Qed.

Lemma process_strain_data_total_witness :
  exists rc ecc,
    process_strain_data [["1"; "2"]; ["3"; "error"]; ["5"; "6"]] "0.5g" [10%Z; 20%Z] = Ok (rc, ecc) /\
    length rc = length [10%Z; 20%Z] /\ length ecc = length [10%Z; 20%Z].
Proof.
  apply (process_strain_data_total _ "0.5g" _ ["1"; "2"]); [reflexivity | | | simpl; lia].
  - repeat constructor; eexists; vm_compute; reflexivity.
  - intros k col Hk Hcol. destruct k as [|[|[|k]]]; try lia; vm_compute in Hcol;
      inversion Hcol; subst; repeat constructor; eexists;
      first [left; split; reflexivity | right; split; [discriminate | vm_compute; reflexivity]].
Defined.

(** C5 (error). A cell of a used strain column that is neither ["error"]
    nor a float does not become the ERROR sentinel: the whole function
    raises [ValueError] on that cell (the first bad cell of the first
    element's column). *)
Theorem process_strain_data_bad_cell {FS : FloatStr} (b : string) a sa ths pre s post rest :
  Forall (fun t => exists c, py_float t = Ok c) ths ->
  Forall (fun p => exists v, cell_value p v) pre ->
  s <> "error" -> (forall v, py_float s <> Ok v) ->
  process_strain_data (ths :: (pre ++ s :: post)%list :: rest) b (a :: sa) = Raise (ValueError s).
Proof.
  intros Hths Hpre Hs Hbad. unfold process_strain_data. simpl.
  destruct (res_map_total py_float ths) as [cs ->]; [by apply Forall_forall|]. simpl.
  unfold strain_for. simpl. rewrite decide_True by done. simpl.
  rewrite (py_getitem_lookup _ 1 (pre ++ s :: post)%list) by done. simpl.
  rewrite (res_map_app_Raise to_col_value pre s post (ValueError s)); [reflexivity| |].
  - intros p Hp. apply to_col_value_total. rewrite Forall_forall in Hpre. by apply Hpre.
  - unfold to_col_value. rewrite decide_False by done.
    destruct (py_float_cases s) as [[v Hv]|]; [by destruct (Hbad v)|done].
Qed.

Lemma process_strain_data_bad_cell_witness :
  process_strain_data [["0"]; ["1.5"; "n/a"]] "0.5g" [20%Z] = Raise (ValueError "n/a").
Proof.
  apply (process_strain_data_bad_cell "0.5g" 20 [] ["0"] ["1.5"] "n/a" [] []).
  - repeat constructor. eexists. vm_compute. reflexivity.
  - repeat constructor. eexists. right. split; [discriminate | vm_compute; reflexivity].
  - discriminate.
  - intros v. vm_compute. discriminate.
Defined.

(** ** The ERROR sentinel *)

(** Without a candidate the contract leaves only the ERROR cell. *)
Lemma reduces_to_no_candidate {FS : FloatStr} qual rows r :
  (forall x, ~ candidate qual rows x) -> reduces_to qual rows r -> r = "error".
Proof. intros Hno [[-> _]|(y & m & _ & _ & Hc & _)]; [done | by destruct (Hno m)]. Qed.

(** Rows whose values are all [-inf] have no candidate. *)
Lemma no_candidate_neg_inf qual cs vs :
  Forall (fun v => v = PNInf) vs -> forall x, ~ candidate qual (zip cs vs) x.
Proof.
  intros Hvs x (c & v & Hin & _ & Hv & Hx).
  apply zip_elem_r in Hin. rewrite Forall_forall in Hvs.
  rewrite (Hvs v Hin) in Hv. simpl in Hv. congruence.
Qed.

Lemma cells_neg_inf col vs :
  Forall2 cell_value col vs -> Forall (fun s => s = "error" \/ py_float s = Ok PNInf) col ->
  Forall (fun v => v = PNInf) vs.
Proof.
  induction 1 as [|s v col vs Hsv _ IH]; inversion 1 as [|? ? Hs Hrest]; subst;
    constructor; auto.
  destruct Hsv as [[_ ->]|[Hne Hv]]; [done|]. destruct Hs as [?|Hs]; congruence.
Qed.

(** C6 (error). A column whose cells all denote [-inf] (the literal
    ["error"], or a float [-inf]) yields ERROR for both the RC and the ECC
    entry of its element, whatever the thresholds. *)
Theorem process_strain_data_all_error {FS : FloatStr} X (b : string) sa rc ecc i a j col :
  process_strain_data X b sa = Ok (rc, ecc) -> sa !! i = Some a ->
  py_list_index sa a = Ok j -> X !! S j = Some col ->
  Forall (fun s => s = "error" \/ py_float s = Ok PNInf) col ->
  rc !! i = Some "error" /\ ecc !! i = Some "error".
Proof.
  intros H Hi Hj Hcol Hall.
  destruct (process_strain_data_entry X b sa rc ecc i a H Hi)
    as (ths & cs & j' & col' & vs & r & e & _ & _ & Hj' & Hcol' & Hvs & Hr & He & Hre).
  rewrite Hj in Hj'. injection Hj' as <-. rewrite Hcol in Hcol'. injection Hcol' as <-.
  pose proof (cells_neg_inf col vs Hvs Hall) as Hneg.
  apply strain_cells_reduce in Hre as [Hlo Hup].
  rewrite Hr, He. split; f_equal; eapply reduces_to_no_candidate; eauto using no_candidate_neg_inf.
Qed.

(** The second scenario of the spec: threshold 5, label 50, value
    ["error"]: both results are ERROR. *)
Lemma process_strain_data_all_error_witness :
  process_strain_data [["5"]; ["error"]] "0.5g" [50%Z] = Ok (["error"], ["error"]) /\
  ["error"] !! 0%nat = Some "error" /\ ["error"] !! 0%nat = Some "error".
Proof.
  split; [vm_compute; reflexivity|].
  apply (process_strain_data_all_error [["5"]; ["error"]] "0.5g" [50%Z] _ _ 0 50 0 ["error"]);
    [vm_compute; reflexivity | reflexivity | vm_compute; reflexivity | reflexivity |].
  repeat constructor.
Defined.

(** ** Row order *)

#[export] Instance max_where_proper keep : Proper (feq ==> eq ==> feq) (max_where keep).
Proof.
  intros y y' Hy rows ? <-. revert y y' Hy.
  induction rows as [|[c v] rows IH]; intros y y' Hy; simpl; [done|].
  apply IH. destruct (keep c); [by apply py_max_proper | done].
Qed.

(** Two adjacent rows can be exchanged once the running value is a number. *)
Lemma max_where_swap keep y c1 v1 c2 v2 rows :
  fval y <> None ->
  max_where keep y ((c1, v1) :: (c2, v2) :: rows) ≡f max_where keep y ((c2, v2) :: (c1, v1) :: rows).
Proof.
  intros Hy. simpl. apply max_where_proper; [|done].
  destruct (keep c1), (keep c2); try reflexivity. by apply py_max_swap.
Qed.

Lemma max_where_perm keep rows rows' :
  Permutation rows rows' -> forall y, fval y <> None ->
  max_where keep y rows ≡f max_where keep y rows'.
Proof.
  induction 1 as [|[c v] l l' _ IH|[c1 v1] [c2 v2] l|l l' l'' _ IH1 _ IH2]; intros y Hy.
  - reflexivity.
  - simpl. apply IH. destruct (keep c); [by apply py_max_not_nan | done].
  - by apply max_where_swap.
  - etransitivity; [by apply IH1 | by apply IH2].
Qed.

(** C14 (equivalence). Reordering the rows (thresholds and values moved
    together) does not change the value of [y1] or of [y2]: the maxima
    computed from any permutation of the rows are numerically equal, so
    the entries stay ERROR or stay the text of the same value. *)
Theorem strain_max_row_order a rows rows' :
  Permutation rows rows' ->
  rc_max a rows ≡f rc_max a rows' /\ ecc_max a rows ≡f ecc_max a rows'.
Proof. intros Hp. split; apply max_where_perm; done. Qed.

Lemma strain_max_row_order_witness :
  let rows := [(PFin 1, PFin 7); (PFin 3, PNaN); (PFin 2, PFin 5)] in
  let rows' := [(PFin 2, PFin 5); (PFin 1, PFin 7); (PFin 3, PNaN)] in
  Permutation rows rows' /\
  rc_max 20 rows ≡f rc_max 20 rows' /\ ecc_max 20 rows ≡f ecc_max 20 rows'.
Proof.
  intros rows rows'.
  assert (Hp : Permutation rows rows').
  { subst rows rows'. symmetry. exact (Permutation_cons_append [(PFin 1, PFin 7); (PFin 3, PNaN)] (PFin 2, PFin 5)). }
  split; [exact Hp | exact (strain_max_row_order 20 rows rows' Hp)].
Defined.

(** [max(y, val)] keeps [y] itself while no qualifying value is greater. *)
Lemma max_where_no_greater keep y rows :
  (forall c v, (c, v) ∈ rows -> keep c = true -> flt y v = false) -> max_where keep y rows = y.
Proof.
  induction rows as [|[c v] rows IH]; intros Hno; simpl; [done|].
  destruct (keep c) eqn:Hk; [unfold py_max; rewrite (Hno c v (list_elem_of_here _ _) Hk)|];
    apply IH; intros c' v' Hin; apply Hno; by right.
Qed.

Lemma max_where_first_wins keep c v rows :
  flt PNInf v = true -> keep c = true ->
  (forall c' v', (c', v') ∈ rows -> keep c' = true -> flt v v' = false) ->
  max_where keep PNInf ((c, v) :: rows) = v.
Proof. intros Hv Hk Hno. simpl. rewrite Hk. unfold py_max at 1. rewrite Hv. by apply max_where_no_greater. Qed.

(** C15 (functional). [max] keeps the first of equal values: when the
    first qualifying row's value is above [-inf] and no later qualifying
    value is greater, [y1] (and [y2]) is that very value, whatever the
    later rows hold.  Ties are therefore decided by row order: with
    [-0.0] first and [0.0] later the result is [-0.0], and in the other
    order [0.0], printed differently by [str]. *)
Theorem strain_max_first_wins a c v rows :
  flt PNInf v = true ->
  (lower_keep a c = true ->
   (forall c' v', (c', v') ∈ rows -> lower_keep a c' = true -> flt v v' = false) ->
   rc_max a ((c, v) :: rows) = v) /\
  (upper_keep a c = true ->
   (forall c' v', (c', v') ∈ rows -> upper_keep a c' = true -> flt v v' = false) ->
   ecc_max a ((c, v) :: rows) = v).
Proof. intros Hv. split; intros Hk Hno; by apply max_where_first_wins. Qed.

Lemma strain_max_first_wins_witness :
  rc_max 50 [(PFin 5, PNZero); (PFin 5, PFin 0)] = PNZero /\
  rc_max 50 [(PFin 5, PFin 0); (PFin 5, PNZero)] = PFin 0 /\
  process_strain_data [["5"; "5"]; ["-0.0"; "0"]] "0.5g" [50%Z] = Ok (["-0.0"], ["-0.0"]) /\
  process_strain_data [["5"; "5"]; ["0"; "-0.0"]] "0.5g" [50%Z] = Ok (["0.0"], ["0.0"]).
Proof.
  assert (Hone : forall v w, flt v w = false ->
    forall c' v', (c', v') ∈ [(PFin 5, w)] -> lower_keep 50 c' = true -> flt v v' = false).
  { intros v w Hw c' v' Hin _. apply list_elem_of_singleton in Hin. by injection Hin as -> ->. }
  split_and!.
  - exact (proj1 (strain_max_first_wins 50 (PFin 5) PNZero _ eq_refl) eq_refl (Hone PNZero (PFin 0) eq_refl)).
  - exact (proj1 (strain_max_first_wins 50 (PFin 5) (PFin 0) _ eq_refl) eq_refl (Hone (PFin 0) PNZero eq_refl)).
  - vm_compute. reflexivity.
  - vm_compute. reflexivity.
Defined.

(** ** NaN *)

Lemma fval_None x : fval x = None -> x = PNaN.
Proof. by destruct x. Qed.

Lemma max_where_nan_row keep y c v rows :
  keep PNaN = false -> (fval c = None \/ fval v = None) ->
  max_where keep y ((c, v) :: rows) = max_where keep y rows.
Proof.
  intros Hk [Hc|Hv]; simpl.
  - by rewrite (fval_None c Hc), Hk.
  - rewrite (fval_None v Hv). destruct (keep c); [|done].
    unfold py_max, flt. by destruct (fval y).
Qed.

(** C16 (functional). A row whose threshold or value is NaN never affects
    either result: it is neither a qualifying row nor an ERROR, it is
    dropped. *)
Theorem strain_cells_skip_nan {FS : FloatStr} a rows1 c v rows2 :
  fval c = None \/ fval v = None ->
  strain_cells a (rows1 ++ (c, v) :: rows2) = strain_cells a (rows1 ++ rows2).
Proof.
  intros H. unfold strain_cells, rc_max, ecc_max. simpl. rewrite !max_where_app.
  by rewrite !max_where_nan_row.
Qed.

Lemma strain_cells_skip_nan_witness :
  (fval (PFin 1) = None \/ fval PNaN = None) /\
  strain_cells 20 ([(PFin 1, PFin 3)] ++ (PFin 1, PNaN) :: [(PFin 10, PFin 9)]) =
  strain_cells 20 ([(PFin 1, PFin 3)] ++ [(PFin 10, PFin 9)]).
Proof.
  assert (H : fval (PFin 1) = None \/ fval PNaN = None) by (right; reflexivity).
  split; [exact H | exact (strain_cells_skip_nan 20 _ _ _ _ H)].
Defined.
