(* ===== verification/ResultsFile.v ===== *)
(** * ResultsFile: reading results files and writing the two tables

    [src/process_results.py]: the constants of [ResultProcessor.__init__]
    (lines 13-15), [read_results_file] (lines 159-179),
    [generate_function1_output] (lines 244-272) and
    [generate_function2_output] (lines 274-310).  A results file is a
    tab-separated table whose header names its strain columns ["B..."];
    the k-th such column is filed under the k-th label of [array_B],
    whatever its header says.  Reading a file catches every exception,
    shows an error box and returns [None].  Function 1 is followed on
    readable files (C3), on a column shorter than the first file (C12)
    and on missing files ([present], with the expected rows [f1_row_o]
    and boxes [f1_boxes], C13).  The last section bounds the files the
    generators can write ([gen_output]). *)

From S2P Require Import Prelude PyText PyFloat PyRepr PyIO StrainReduce.
From stdpp Require Import gmap.

Local Open Scope string_scope.

(** ** Constants (lines 13-15) *)

Definition array_A : list Z := [100; 200; 300; 400; 500; 600; 700]%Z.

(** [f"{i/10:.1f}g"] for an integer [i]: one decimal of [i/10] is exact. *)
Definition b_label (i : nat) : string :=
  str_of_Z (Z.of_nat (i / 10)) +:+ "." +:+ str_of_Z (Z.of_nat (i mod 10)) +:+ "g".

Definition array_B : list string := b_label <$> seq 1 17.

(** The message boxes of [ResultProcessor]. *)
Inductive rp_dialog :=
| ReadError (path : string) (e : py_exc)   (* line 178 *)
| GenerateError (e : py_exc)               (* line 242 *)
| Generated (dir : string)                 (* line 238 *)
| WarnNoA                                  (* line 214 *)
| WarnUnpaired                             (* line 218 *)
| WarnNoB                                  (* line 224 *)
| InfoAllPaired.                           (* line 142 *)

Abbreviation tabs := (str1 tab).
Abbreviation newline := (str1 nl).

(** ** Reading (lines 159-179) *)

(** Line 170: the positions of the headers that start with ["B"]. *)
Definition b_indices (headers : list string) : list nat :=
  fst <$> filter (fun p : nat * string => py_startswith "B" p.2 = true) (enumerate headers).

(** Lines 162-176, the body of the [try]. *)
Definition parse_results (content : string) : res (list string * list (string * list string)) :=
  let lines := py_readlines content in
  line0 ← py_getitem lines 0;
  let headers := py_split_sep tab (py_strip line0) in
  first_column ← res_map (fun line => py_getitem (py_split_sep tab line) 0) (drop 1 lines);
  b_columns ← res_map (fun p : string * nat =>
      col ← res_map (fun line => py_getitem (py_split_sep tab (py_strip line)) (Z.of_nat p.2))
              (drop 1 lines);
      Ok (p.1, col))
    (zip array_B (b_indices headers));
  Ok (first_column, b_columns).

(** Lines 159-179. *)
Definition read_results_file (path : string)
    : io rp_dialog (option (list string * list (string * list string))) :=
  io_try (content ← read_file path; r ← io_lift (parse_results content); mret (Some r))
         (fun e => show (ReadError path e) ;; mret None).

(** ** Writing *)

Section Output.
Context `{FloatStr}.

(** [self.selected_files[a]]. *)
Definition dict_get (m : gmap Z string) (k : Z) : res string :=
  match m !! k with Some v => Ok v | None => Raise (KeyError (str_of_Z k)) end.

(** Lines 294-297: the column of [b] in a file read for function 2. *)
Definition column_for (b : string) (first_column : list string)
    (r : option (list string * list (string * list string))) : list string :=
  match r with
  | Some (_, b_data) =>
      match assoc_lookup b b_data with
      | Some col => col
      | None => replicate (length first_column) "error"
      end
  | None => replicate (length first_column) "error"
  end.

(** Lines 306-310: one line [a, ECC, RC] per selected element. *)
Definition write_max_rows (out : string) (selected_a : list Z) (rc ecc : list string)
    : io rp_dialog unit :=
  io_iter (fun p : nat * Z =>
      e ← io_lift (py_getitem ecc (Z.of_nat p.1));
      r ← io_lift (py_getitem rc (Z.of_nat p.1));
      write_str out (py_join tabs [str_of_Z p.2; e; r] +:+ newline))
    (enumerate selected_a).

(** Lines 277-310: [return] on an unreadable or empty first file leaves
    the remaining [b] unprocessed. *)
Fixpoint gen2_loop (files : gmap Z string) (selected_a : list Z) (output_dir : string)
    (bs : list string) : io rp_dialog unit :=
  match bs with
  | [] => mret tt
  | b :: bs' =>
      a0 ← io_lift (py_getitem selected_a 0);
      first_file ← io_lift (dict_get files a0);
      r ← read_results_file first_file;
      match r with
      | Some (first_column, _) =>
          if decide (first_column = []) then mret tt else
          X_rest ← io_map (fun a =>
              path ← io_lift (dict_get files a);
              r' ← read_results_file path;
              mret (column_for b first_column r')) selected_a;
          '(rc, ecc) ← io_lift (process_strain_data (first_column :: X_rest) b selected_a);
          let out := path_join output_dir ("max_strain_" +:+ b +:+ ".txt") in
          open_write out;;
          write_max_rows out selected_a rc ecc;;
          gen2_loop files selected_a output_dir bs'
      | None => mret tt
      end
  end.

(** Lines 274-310. *)
Definition generate_function2_output (files : gmap Z string) (selected_a : list Z)
    (selected_b : list string) (output_dir : string) : io rp_dialog unit :=
  gen2_loop files selected_a output_dir selected_b.

(** Lines 265-271: the cell of element [a] in row [row_idx]. *)
Definition strain_cell (files : gmap Z string) (b : string) (row_idx : nat) (a : Z)
    : io rp_dialog string :=
  path ← io_lift (dict_get files a);
  r ← read_results_file path;
  match r with
  | Some (_, b_data) =>
      match assoc_lookup b b_data with
      | Some col => io_lift (py_getitem col (Z.of_nat row_idx))
      | None => mret "error"
      end
  | None => mret "error"
  end.

(** Lines 244-272. *)
Definition generate_function1_output (files : gmap Z string) (selected_a : list Z)
    (selected_b : list string) (output_dir : string) : io rp_dialog unit :=
  a0 ← io_lift (py_getitem selected_a 0);
  first_file ← io_lift (dict_get files a0);
  r ← read_results_file first_file;
  match r with
  | Some (first_column, _) =>
      if decide (first_column = []) then mret tt else
      io_iter (fun b =>
          let out := path_join output_dir ("strain_distribution_" +:+ b +:+ ".txt") in
          open_write out;;
          write_str out (py_join tabs ("b\a" :: (str_of_Z <$> selected_a)) +:+ newline);;
          io_iter (fun p : nat * string =>
              cells ← io_map (strain_cell files b p.1) selected_a;
              write_str out (py_join tabs (p.2 :: cells) +:+ newline))
            (enumerate first_column))
        selected_b
  | None => mret tt
  end.
End Output.

(** ** The file format *)

(** A table as the simulation tool writes it: cells separated by tabs,
    every line ended by a newline. *)
Definition render_line (cells : list string) : string := py_join tabs cells +:+ newline.
Definition render_table (rows : list (list string)) : string :=
  foldr String.append EmptyString (render_line <$> rows).


Lemma lines_of_table_nl rows :
  Forall (Forall (no_sep nl)) rows -> py_readlines (render_table rows) = render_line <$> rows.
Proof.
  intros Hrows. unfold render_table.
  assert (render_line <$> rows = (fun l => l +:+ newline) <$> (py_join tabs <$> rows)) as ->
    by (rewrite <- list_fmap_compose; done).
  apply py_readlines_lines. apply Forall_fmap. eapply Forall_impl; [exact Hrows|].
  intros r Hr. simpl. by apply no_sep_join.
Qed.

Lemma lines_of_table rows :
  Forall (Forall plain) rows -> py_readlines (render_table rows) = render_line <$> rows.
Proof.
  intros Hrows. apply lines_of_table_nl. eapply Forall_impl; [exact Hrows|].
  intros r Hr. eapply Forall_impl; eauto with py.
Qed.

Lemma split_strip_line w ws :
  Forall plain (w :: ws) -> py_split_sep tab (py_strip (render_line (w :: ws))) = w :: ws.
Proof.
  intros H. unfold render_line. rewrite py_strip_join_nl by done.
  apply py_split_sep_join. eapply Forall_impl; eauto with py.
Qed.

Lemma first_cell_line w w2 ws :
  Forall plain (w :: w2 :: ws) -> py_getitem (py_split_sep tab (render_line (w :: w2 :: ws))) 0 = Ok w.
Proof.
  intros H. inversion H as [|? ? Hw _]; subst. unfold render_line, py_split_sep.
  rewrite py_join_cons2, <- !str_app_assoc, split_sep_from_app by (apply plain_no_tab; done).
  rewrite str1_app, split_sep_from_sep. done.
Qed.

Lemma b_indices_lt headers i : i ∈ b_indices headers -> (i < length headers)%nat.
Proof.
  unfold b_indices, enumerate. intros ((j, h) & -> & Hin)%list_elem_of_fmap.
  apply list_elem_of_filter in Hin as [_ Hin]. apply zip_elem_l, elem_of_seq in Hin. simpl. lia.
Qed.

(** C9 (roundtrip). Reading back a well-formed table: when every cell is
    non-empty and free of whitespace, the header has at least two
    columns and every row as many cells as the header, [parse_results]
    returns the first cell of every data row and, for the k-th header
    starting with ["B"] (k < 17), the k-th label of [array_B] with that
    column of the data rows. *)
Theorem parse_results_render header rows :
  (2 <= length header)%nat ->
  Forall (fun r => length r = length header) rows ->
  Forall plain header -> Forall (Forall plain) rows ->
  parse_results (render_table (header :: rows)) =
    Ok ((fun r => r !!! 0%nat) <$> rows,
        (fun p : string * nat => (p.1, (fun r => r !!! p.2) <$> rows))
          <$> zip array_B (b_indices header)).
Proof.
  intros Hlen Hrect Hh Hrows.
  destruct header as [|h0 [|h1 hs]]; simpl in Hlen; [lia | lia |].
  unfold parse_results. rewrite lines_of_table by (constructor; done).
  rewrite fmap_cons, py_getitem_head, bind_Ok_l, split_strip_line by done.
  change (drop 1 (?x :: ?l)) with l.
  rewrite (res_map_fmap_comp _ render_line (fun r => r !!! 0%nat)).
  2: { intros r Hr. rewrite Forall_forall in Hrect, Hrows.
       specialize (Hrect r Hr). specialize (Hrows r Hr).
       destruct r as [|w [|w2 ws]]; simpl in Hrect; try lia.
       by rewrite first_cell_line. }
  rewrite bind_Ok_l.
  rewrite (res_map_fmap _ (fun p : string * nat => (p.1, (fun r => r !!! p.2) <$> rows))); [done|].
  intros [b k] Hbk. simpl. apply zip_elem_r, b_indices_lt in Hbk.
  rewrite (res_map_fmap_comp _ render_line (fun r => r !!! k)); [done|].
  intros r Hr. rewrite Forall_forall in Hrect, Hrows.
  specialize (Hrect r Hr). specialize (Hrows r Hr).
  destruct r as [|w ws]; simpl in Hrect; [lia|].
  rewrite split_strip_line by done. apply py_getitem_total. simpl in *. lia.
Qed.

Lemma parse_results_render_witness :
  parse_results (render_table (["C"; "B1"; "B2"] :: [["-31"; "1.0"; "5"]; ["10"; "4.0"; "6"]])) =
    Ok ((fun r => r !!! 0%nat) <$> [["-31"; "1.0"; "5"]; ["10"; "4.0"; "6"]],
        (fun p : string * nat => (p.1, (fun r => r !!! p.2) <$> [["-31"; "1.0"; "5"]; ["10"; "4.0"; "6"]]))
          <$> zip array_B (b_indices ["C"; "B1"; "B2"])).
Proof.
  apply parse_results_render; [simpl; lia | repeat constructor | |];
    repeat constructor; (discriminate || reflexivity).
Defined.

(** A row with a blank first or last cell loses that cell to [strip()]. *)
Lemma blank_row_split ws r :
  ws <> [] -> Forall plain ws -> r = "" :: ws \/ r = (ws ++ [""])%list ->
  py_split_sep tab (py_strip (render_line r)) = ws.
Proof.
  intros Hne Hpl Hr. assert (Hsplit : py_split_sep tab (py_join tabs ws) = ws).
  { destruct ws as [|w ws']; [done|]. apply py_split_sep_join. eapply Forall_impl; eauto with py. }
  unfold render_line. destruct Hr as [->| ->].
  - destruct ws as [|w ws']; [done|].
    rewrite py_join_cons2, str_app_nil_l, <- str_app_assoc, str1_app, py_strip_space_cons by done.
    by rewrite py_strip_join_blank.
  - rewrite py_join_snoc, str_app_nil_r, <- !str_app_assoc by done.
    by rewrite py_strip_join_blank.
Qed.

(** The last header, when it starts with ["B"], is a strain column. *)
Lemma b_indices_last hs hl : py_startswith "B" hl = true -> length hs ∈ b_indices (hs ++ [hl])%list.
Proof.
  intros Hb. unfold b_indices, enumerate. apply list_elem_of_fmap. exists (length hs, hl).
  split; [done|]. apply list_elem_of_filter. split; [done|].
  apply list_elem_of_lookup. exists (length hs). apply lookup_zip_Some. split.
  - rewrite lookup_seq_lt; [done|]. rewrite length_app. simpl. lia.
  - by apply list_lookup_middle.
Qed.

(** Each of the first 17 strain columns gets a label of [array_B]. *)
Lemma zip_array_B_label (k : nat) (bi : list nat) : k ∈ bi -> (length bi <= 17)%nat -> exists b, (b, k) ∈ zip array_B bi.
Proof.
  intros (j & Hj)%list_elem_of_lookup Hlen. pose proof (lookup_lt_Some _ _ _ Hj) as Hlt.
  destruct (lookup_lt_is_Some_2 array_B j) as [b Hb]; [simpl; lia|].
  exists b. apply list_elem_of_lookup. exists j. by apply lookup_zip_Some.
Qed.

(** C10 (error). A blank first or last cell in any data row makes the
    whole file unreadable when the last column is one of the (at most 17)
    strain columns: [line.strip()] removes the tab next to the blank cell,
    the row has one cell less than the header, and reading the last
    strain column raises [IndexError]; [read_results_file] then shows an
    error box and returns [None], whatever the other rows hold. *)
Theorem read_results_file_blank_cell (w : world rp_dialog) path hs hl rows1 ws r rows2 :
  hs <> [] -> Forall plain (hs ++ [hl])%list -> py_startswith "B" hl = true ->
  (length (b_indices (hs ++ [hl])%list) <= 17)%nat ->
  Forall (Forall (no_sep nl)) (rows1 ++ rows2)%list ->
  Forall plain ws -> length ws = length hs -> r = "" :: ws \/ r = (ws ++ [""])%list ->
  files w !! path = Some (render_table ((hs ++ [hl])%list :: (rows1 ++ r :: rows2)%list)) ->
  read_results_file path w = (Ok None, mk_world (files w) (shown w ++ [ReadError path IndexError])).
Proof.
  intros Hhs Hh HB H17 Hrows Hws Hlen Hr Hf.
  assert (Hwsne : ws <> []) by (destruct ws, hs; simpl in *; done).
  assert (Hparse : parse_results (render_table ((hs ++ [hl])%list :: (rows1 ++ r :: rows2)%list)) = Raise IndexError).
  { unfold parse_results. rewrite lines_of_table_nl.
    2: { rewrite Forall_forall in Hrows. apply Forall_forall. intros x Hx.
         apply elem_of_cons in Hx as [->|Hx]; [eapply Forall_impl; eauto with py|].
         apply elem_of_app in Hx as [Hx|[->|Hx]%elem_of_cons];
           [apply Hrows, elem_of_app; by left | | apply Hrows, elem_of_app; by right].
         destruct Hr as [->| ->]; [constructor; [done|] | apply Forall_app; split; [|by repeat constructor]];
           eapply Forall_impl; eauto with py. }
    destruct hs as [|h0 hs']; [done|].
    change ((h0 :: hs') ++ [hl])%list with (h0 :: (hs' ++ [hl]))%list in *.
    rewrite fmap_cons, py_getitem_head, bind_Ok_l, split_strip_line by done.
    change (drop 1 (?x :: ?l)) with l.
    destruct (res_map_total (fun line => py_getitem (py_split_sep tab line) 0)
                (render_line <$> (rows1 ++ r :: rows2)%list)) as [fc ->].
    { intros x _. unfold py_split_sep. destruct (split_sep_from tab "" x) eqn:E; [|by eexists].
      by apply split_sep_from_nonempty in E. }
    rewrite bind_Ok_l.
    destruct (zip_array_B_label _ _ (b_indices_last (h0 :: hs') hl HB) H17) as [b Hb].
    erewrite res_map_raise_some; [done | | exact Hb |].
    - intros p _. destruct (res_map_only_raise (fun line => py_getitem (py_split_sep tab (py_strip line)) (Z.of_nat p.2))
        (render_line <$> (rows1 ++ r :: rows2)%list) IndexError) as [[ys Hys]|Hys];
        [intros x _; apply py_getitem_cases | left; rewrite Hys; by eexists | right; by rewrite Hys].
    - simpl. erewrite res_map_raise_some; [done | intros x _; apply py_getitem_cases | |].
      + apply list_elem_of_fmap. exists r. split; [done | apply elem_of_app; right; by left].
      + simpl. rewrite (blank_row_split ws r) by done. apply py_getitem_out. rewrite Hlen. simpl. lia. }
  unfold read_results_file. erewrite io_try_Raise; [reflexivity|].
  rewrite (io_bind_Ok _ _ _ _ _ (read_file_Some w _ _ Hf)).
  unfold mbind at 1, io_bind at 1, io_lift. by rewrite Hparse.
Qed.

Lemma read_results_file_blank_cell_witness :
  let w := mk_world (<["r.txt" := render_table [["C"; "B1"; "B2"]; ["10"; "4.0"; ""]]]> ∅) [] in
  read_results_file "r.txt" w = (Ok None, mk_world (files w) (shown w ++ [ReadError "r.txt" IndexError])).
Proof.
  intros w.
  apply (read_results_file_blank_cell w "r.txt" ["C"; "B1"] "B2" [] ["10"; "4.0"] ["10"; "4.0"; ""] []).
  all: first [ discriminate | (right; reflexivity) | (vm_compute; reflexivity) | (vm_compute; lia)
             | (repeat constructor; first [discriminate | reflexivity]) ].
Defined.

(** ** Function 2 from the files to the written table *)

(** A selected element whose file exists and parses to [r]. *)
Definition readable (sel : gmap Z string) (w : world rp_dialog) (a : Z)
    (r : list string * list (string * list string)) : Prop :=
  exists path s, sel !! a = Some path /\ files w !! path = Some s /\ parse_results s = Ok r.

Lemma read_results_file_Some (w : world rp_dialog) path s r :
  files w !! path = Some s -> parse_results s = Ok r -> read_results_file path w = (Ok (Some r), w).
Proof.
  intros Hf Hp. unfold read_results_file. apply io_try_Ok.
  erewrite io_bind_Ok by (by apply read_file_Some).
  erewrite io_bind_Ok by (unfold io_lift; by rewrite Hp). reflexivity.
Qed.

Lemma read_results_file_missing (w : world rp_dialog) p :
  files w !! p = None ->
  read_results_file p w = (Ok None, mk_world (files w) (shown w ++ [ReadError p (OSError p)])).
Proof. intros H. unfold read_results_file, io_try. by rewrite (io_bind_Raise _ _ _ _ _ (read_file_None w p H)). Qed.

Section Gen2.
Context `{FloatStr}.

(** What the theorems expect function 2 to write for element [p.2], the
    [p.1]-th selected one (stated where both result lists are long
    enough). *)
Definition max_row (rc ecc : list string) (p : nat * Z) : string :=
  py_join tabs [str_of_Z p.2; ecc !!! p.1; rc !!! p.1] +:+ newline.

Lemma read_columns sel (w : world rp_dialog) b fc R sa :
  (forall a, a ∈ sa -> readable sel w a (R a)) ->
  io_map (fun a =>
      path ← io_lift (dict_get sel a);
      r' ← read_results_file path;
      mret (column_for b fc r')) sa w =
    (Ok ((fun a => column_for b fc (Some (R a))) <$> sa), w).
Proof.
  induction sa as [|a sa IH]; intros Hr; [done|]. simpl.
  destruct (Hr a (list_elem_of_here _ _)) as (path & s & Hsel & Hf & Hp).
  erewrite io_bind_Ok.
  2: { erewrite io_bind_Ok by (unfold io_lift, dict_get; by rewrite Hsel).
       erewrite io_bind_Ok by (by eapply read_results_file_Some). reflexivity. }
  cbv beta. erewrite io_bind_Ok by (apply IH; intros; apply Hr; by right). reflexivity.
Qed.

Lemma write_max_rows_content out sa rc ecc (w : world rp_dialog) :
  length rc = length sa -> length ecc = length sa -> is_Some (files w !! out) ->
  write_max_rows out sa rc ecc w =
    (Ok tt, appended out (foldr String.append EmptyString (max_row rc ecc <$> enumerate sa)) w).
Proof.
  intros Hrc Hecc Hout. unfold write_max_rows.
  rewrite <- (list_fmap_id (enumerate sa)) at 1.
  apply io_iter_appended; [done|]. intros [i a] w' Hin.
  unfold enumerate in Hin. apply zip_elem_l, elem_of_seq in Hin. simpl in *.
  erewrite io_bind_Ok by (unfold io_lift; rewrite py_getitem_total by lia; reflexivity).
  erewrite io_bind_Ok by (unfold io_lift; rewrite py_getitem_total by lia; reflexivity).
  reflexivity.
Qed.
(** What the theorems expect function 1 to write: the cell for row [i]
    of a file read as [r] (stated where the column is long enough), the
    header, and one line per row label. *)
Definition cell1 (b : string) (i : nat) (r : list string * list (string * list string)) : string :=
  match assoc_lookup b r.2 with Some col => col !!! i | None => "error" end.

Definition f1_header (sa : list Z) : string := py_join tabs ("b\a" :: (str_of_Z <$> sa)) +:+ newline.

Definition f1_row (b : string) (sa : list Z) (R : Z -> list string * list (string * list string))
    (p : nat * string) : string :=
  py_join tabs (p.2 :: ((fun a => cell1 b p.1 (R a)) <$> sa)) +:+ newline.

Lemma strain_cell_Ok sel (w : world rp_dialog) b i a r :
  readable sel w a r -> (forall col, assoc_lookup b r.2 = Some col -> (i < length col)%nat) ->
  strain_cell sel b i a w = (Ok (cell1 b i r), w).
Proof.
  intros (path & s & Hsel & Hf & Hp) Hlen. unfold strain_cell, cell1.
  erewrite io_bind_Ok by (unfold io_lift, dict_get; by rewrite Hsel).
  erewrite io_bind_Ok by (by eapply read_results_file_Some).
  destruct r as [fc bd]. simpl in *. destruct (assoc_lookup b bd) as [col|] eqn:Hc; [|done].
  unfold io_lift. rewrite py_getitem_total by (by apply Hlen). done.
Qed.

Lemma strain_cells_row sel (w : world rp_dialog) b i R sa :
  (forall a, a ∈ sa -> readable sel w a (R a)) ->
  (forall a col, a ∈ sa -> assoc_lookup b (R a).2 = Some col -> (i < length col)%nat) ->
  io_map (strain_cell sel b i) sa w = (Ok ((fun a => cell1 b i (R a)) <$> sa), w).
Proof.
  induction sa as [|a sa IH]; intros Hr Hl; [done|]. simpl.
  erewrite io_bind_Ok by (apply strain_cell_Ok; [apply Hr; left | intros; eapply Hl; [left | done]]).
  erewrite io_bind_Ok by (apply IH; intros; [apply Hr | eapply Hl]; eauto; by right).
  reflexivity.
Qed.

Lemma readable_frame sel (w w' : world rp_dialog) a r out :
  readable sel w a r -> (forall q, q <> out -> files w' !! q = files w !! q) ->
  (forall path, sel !! a = Some path -> path <> out) -> readable sel w' a r.
Proof.
  intros (path & s & Hsel & Hf & Hp) Hw Hout. exists path, s. split_and!; [done | | done].
  rewrite Hw; [done | by apply Hout].
Qed.

Lemma strain_cell_cases sel (w : world rp_dialog) b i a r :
  readable sel w a r ->
  (exists c, strain_cell sel b i a w = (Ok c, w)) \/ strain_cell sel b i a w = (Raise IndexError, w).
Proof.
  intros (path & s & Hsel & Hf & Hp). unfold strain_cell.
  erewrite io_bind_Ok by (unfold io_lift, dict_get; by rewrite Hsel).
  erewrite io_bind_Ok by (by eapply read_results_file_Some).
  destruct r as [fc bd]. simpl. destruct (assoc_lookup b bd) as [col|]; [|left; by eexists].
  unfold io_lift. destruct (py_getitem_cases col (Z.of_nat i)) as [[x ->]| ->]; [left; by eexists | by right].
Qed.

(** Row [i] of a column with [i] rows or fewer: [b_data[b][row_idx]] raises. *)
Lemma strain_cell_short sel (w : world rp_dialog) b i a r col :
  readable sel w a r -> assoc_lookup b r.2 = Some col -> (length col <= i)%nat ->
  strain_cell sel b i a w = (Raise IndexError, w).
Proof.
  intros (path & s & Hsel & Hf & Hp) Hc Hi. unfold strain_cell.
  erewrite io_bind_Ok by (unfold io_lift, dict_get; by rewrite Hsel).
  erewrite io_bind_Ok by (by eapply read_results_file_Some).
  destruct r as [fc bd]. simpl in Hc |- *. rewrite Hc. unfold io_lift. rewrite py_getitem_out; [done | lia].
Qed.

(** Lines 259-272: the rows of a table of function 1, each cell read from
    its file again, when every row index is within every column [b]. *)
Lemma f1_rows sel b sa R out rows (w : world rp_dialog) :
  is_Some (files w !! out) ->
  (forall a, a ∈ sa -> readable sel w a (R a)) ->
  (forall a path, a ∈ sa -> sel !! a = Some path -> path <> out) ->
  (forall p a col, p ∈ rows -> a ∈ sa -> assoc_lookup b (R a).2 = Some col -> (p.1 < length col)%nat) ->
  io_iter (fun p : nat * string =>
      cells ← io_map (strain_cell sel b p.1) sa;
      write_str out (py_join tabs (p.2 :: cells) +:+ newline)) rows w =
    (Ok tt, appended out (foldr String.append EmptyString (f1_row b sa R <$> rows)) w).
Proof.
  intros Hout Hr Hsel Hlen. rewrite <- (list_fmap_id rows) at 1.
  apply (io_iter_appended_inv (fun w' => forall q, q <> out -> files w' !! q = files w !! q)); [| done | done |].
  - intros t w' Hw' q Hq. rewrite appended_other by done. by apply Hw'.
  - intros [i label] w' Hin Hw'. erewrite io_bind_Ok; [reflexivity|]. apply strain_cells_row.
    + intros a Ha. eapply readable_frame; [by apply Hr | done | intros; by eapply Hsel].
    + intros a col Ha Hc. by apply (Hlen (i, label) a col).
Qed.

(** C3 (functional). Function 1 for one strain label [b], when every
    selected element's file exists, parses and is not the output file, the
    first one has data rows and every column [b] is at least as long as
    the first file: [generate_function1_output] writes exactly
    [strain_distribution_<b>.txt], the header [b\a, a...] and, for each
    row label of the first file, that label and the row's value of column
    [b] of each element's file, or ["error"] for a file without it; no
    box is shown and no other file changes. *)
Theorem generate_function1_one sel a0 sa' b dir R (w : world rp_dialog) :
  (forall a, a ∈ a0 :: sa' -> readable sel w a (R a)) -> (R a0).1 <> [] ->
  (forall a path, a ∈ a0 :: sa' -> sel !! a = Some path ->
     path <> path_join dir ("strain_distribution_" +:+ b +:+ ".txt")) ->
  (forall a col, a ∈ a0 :: sa' -> assoc_lookup b (R a).2 = Some col -> (length (R a0).1 <= length col)%nat) ->
  generate_function1_output sel (a0 :: sa') [b] dir w =
    (Ok tt, mk_world (<[path_join dir ("strain_distribution_" +:+ b +:+ ".txt") :=
                          f1_header (a0 :: sa') +:+
                          foldr String.append EmptyString (f1_row b (a0 :: sa') R <$> enumerate (R a0).1)]>
                        (files w)) (shown w)).
Proof.
  intros Hr Hfc Hout Hlen. set (out := path_join dir ("strain_distribution_" +:+ b +:+ ".txt")) in *.
  unfold generate_function1_output.
  destruct (Hr a0 (list_elem_of_here _ _)) as (path & s & Hsel & Hf & Hp).
  erewrite io_bind_Ok by reflexivity.
  erewrite io_bind_Ok by (unfold io_lift, dict_get; by rewrite Hsel).
  erewrite io_bind_Ok by (by eapply read_results_file_Some).
  destruct (R a0) as [fc bd] eqn:HR. cbn [fst] in *. rewrite decide_False by done.
  cbn [io_iter]. erewrite io_bind_Ok; [reflexivity|].
  erewrite io_bind_Ok by reflexivity.
  erewrite io_bind_Ok by (apply write_str_appended).
  rewrite (f1_rows _ _ _ R).
  - rewrite appended_app. destruct w as [fs sh]. simpl. by rewrite appended_open.
  - simpl. by rewrite lookup_insert_eq.
  - intros a Ha. eapply readable_frame; [by apply Hr | | intros; by eapply Hout].
    intros q Hq. rewrite appended_other by done. simpl. by rewrite lookup_insert_ne.
  - done.
  - intros [i label] a col Hin Ha Hc. unfold enumerate in Hin. apply zip_elem_l, elem_of_seq in Hin.
    pose proof (Hlen a col Ha Hc) as Hl. simpl in *. lia.
Qed.

(** C12 (error). Function 1 reads the files once per cell and writes each
    table line as it goes.  When the shortest column [b] among the
    selected files has [k] rows, fewer than the first file, the generation
    raises [IndexError] at row [k]: the output file keeps the header and
    exactly the first [k] rows, nothing else changes, and the exception
    reaches the caller ([generate_output] shows the error box and keeps
    the processing window open). *)
Theorem generate_function1_short sel a0 sa' b dir R k a1 col1 (w : world rp_dialog) :
  (forall a, a ∈ a0 :: sa' -> readable sel w a (R a)) ->
  (forall a path, a ∈ a0 :: sa' -> sel !! a = Some path ->
     path <> path_join dir ("strain_distribution_" +:+ b +:+ ".txt")) ->
  (forall a col, a ∈ a0 :: sa' -> assoc_lookup b (R a).2 = Some col -> (k <= length col)%nat) ->
  a1 ∈ a0 :: sa' -> assoc_lookup b (R a1).2 = Some col1 -> length col1 = k ->
  (k < length (R a0).1)%nat ->
  generate_function1_output sel (a0 :: sa') [b] dir w =
    (Raise IndexError,
     mk_world (<[path_join dir ("strain_distribution_" +:+ b +:+ ".txt") :=
                  f1_header (a0 :: sa') +:+
                  foldr String.append EmptyString (f1_row b (a0 :: sa') R <$> take k (enumerate (R a0).1))]>
                 (files w)) (shown w)).
Proof.
  intros Hr Hout Hlen Ha1 Hc1 Hk Hkfc. set (out := path_join dir ("strain_distribution_" +:+ b +:+ ".txt")) in *.
  unfold generate_function1_output.
  destruct (Hr a0 (list_elem_of_here _ _)) as (path & s & Hsel & Hf & Hp).
  erewrite io_bind_Ok by reflexivity.
  erewrite io_bind_Ok by (unfold io_lift, dict_get; by rewrite Hsel).
  erewrite io_bind_Ok by (by eapply read_results_file_Some).
  destruct (R a0) as [fc bd] eqn:HR. cbn [fst] in *.
  rewrite decide_False by (intros ->; simpl in Hkfc; lia).
  destruct (lookup_lt_is_Some_2 fc k Hkfc) as [label Hlabel].
  set (w1 := appended out (f1_header (a0 :: sa')) (mk_world (<[out := EmptyString]> (files w)) (shown w))).
  assert (Hw1 : forall a, a ∈ a0 :: sa' -> readable sel w1 a (R a)).
  { intros a Ha. eapply readable_frame; [by apply Hr | | intros; by eapply Hout].
    intros q Hq. subst w1. rewrite appended_other by done. simpl. by rewrite lookup_insert_ne. }
  set (w2 := appended out (foldr String.append EmptyString (f1_row b (a0 :: sa') R <$> take k (enumerate fc))) w1).
  assert (Hrow : io_map (strain_cell sel b k) (a0 :: sa') w2 = (Raise IndexError, w2)).
  { assert (Hw2 : forall a, a ∈ a0 :: sa' -> readable sel w2 a (R a)).
    { intros a Ha. eapply readable_frame; [by apply Hw1 | | intros; by eapply Hout].
      intros q Hq. subst w2. by rewrite appended_other. }
    apply (io_map_raise_some _ _ _ a1); [| done |].
    - intros a Ha. by eapply strain_cell_cases, Hw2.
    - eapply strain_cell_short; [by apply Hw2 | done | lia]. }
  cbn [io_iter]. erewrite io_bind_Raise; [reflexivity|].
  erewrite io_bind_Ok by reflexivity.
  erewrite io_bind_Ok by (apply write_str_appended).
  rewrite <- (take_drop_middle (enumerate fc) k (k, label)) at 1 by (by apply enumerate_lookup).
  erewrite io_iter_app.
  2: { apply f1_rows; [subst w1; simpl; by rewrite lookup_insert_eq | done | done |].
       intros [i l] a col Hin Ha Hc. apply elem_of_take in Hin as (j & Hj & Hjk).
       apply enumerate_lookup_inv in Hj as [-> _]. pose proof (Hlen a col Ha Hc). simpl. lia. }
  fold w2. cbn [io_iter]. erewrite io_bind_Raise; [|erewrite io_bind_Raise; [reflexivity | exact Hrow]].
  subst w2 w1. rewrite appended_app. destruct w as [fs sh]. simpl. by rewrite appended_open.
Qed.

Definition short_sel : gmap Z string := {[ 100%Z := "r1.txt"; 200%Z := "r2.txt" ]}.
Definition short_world : world rp_dialog :=
  mk_world {[ "r1.txt" := render_table [["C"; "B1"]; ["-31"; "1.0"]; ["10"; "4.0"]];
              "r2.txt" := render_table [["C"; "B1"]; ["-31"; "2.0"]] ]} [].
Definition short_R (a : Z) : list string * list (string * list string) :=
  if decide (a = 100%Z) then (["-31"; "10"], [("0.1g", ["1.0"; "4.0"])])
  else (["-31"], [("0.1g", ["2.0"])]).

Lemma generate_function1_short_witness :
  generate_function1_output short_sel [100%Z; 200%Z] ["0.1g"] "out" short_world =
    (Raise IndexError,
     mk_world (<[path_join "out" ("strain_distribution_" +:+ "0.1g" +:+ ".txt") :=
                  f1_header [100%Z; 200%Z] +:+
                  foldr String.append EmptyString
                    (f1_row "0.1g" [100%Z; 200%Z] short_R <$> take 1 (enumerate (short_R 100%Z).1))]>
                 (files short_world)) (shown short_world)).
Proof.
  apply (generate_function1_short short_sel 100 [200%Z] "0.1g" "out" short_R 1 200 ["2.0"]).
  - intros a Ha. repeat apply elem_of_cons in Ha as [->|Ha]; [| | by apply elem_of_nil in Ha].
    + exists "r1.txt", (render_table [["C"; "B1"]; ["-31"; "1.0"]; ["10"; "4.0"]]).
      split_and!; vm_compute; reflexivity.
    + exists "r2.txt", (render_table [["C"; "B1"]; ["-31"; "2.0"]]).
      split_and!; vm_compute; reflexivity.
  - intros a path Ha Hp. repeat apply elem_of_cons in Ha as [->|Ha]; [| | by apply elem_of_nil in Ha];
      vm_compute in Hp; injection Hp as <-; discriminate.
  - intros a col Ha Hc. repeat apply elem_of_cons in Ha as [->|Ha]; [| | by apply elem_of_nil in Ha];
      vm_compute in Hc; injection Hc as <-; simpl; lia.
  - by right; left.
  - reflexivity.
  - reflexivity.
  - simpl. lia.
Defined.

(** ** Function 1 with missing files *)

(** An element's file read by function 1: readable with content [r], or
    missing ([None]). *)
Definition present (sel : gmap Z string) (w : world rp_dialog) (a : Z)
    (m : option (list string * list (string * list string))) : Prop :=
  match m with
  | Some r => readable sel w a r
  | None => exists p, sel !! a = Some p /\ files w !! p = None
  end.

(** What the theorems expect: a cell of a missing file is ["error"], and
    reading it shows one box. *)
Definition cell1o (b : string) (i : nat) (m : option (list string * list (string * list string))) : string :=
  match m with Some r => cell1 b i r | None => "error" end.

Definition f1_row_o (b : string) (sa : list Z) (M : Z -> option (list string * list (string * list string)))
    (p : nat * string) : string :=
  py_join tabs (p.2 :: ((fun a => cell1o b p.1 (M a)) <$> sa)) +:+ newline.

Definition box_of (sel : gmap Z string) (a : Z) (m : option (list string * list (string * list string)))
    : list rp_dialog :=
  match m, sel !! a with None, Some p => [ReadError p (OSError p)] | _, _ => [] end.

Definition f1_boxes (sel : gmap Z string) (sa : list Z)
    (M : Z -> option (list string * list (string * list string))) : list rp_dialog :=
  sa ≫= (fun a => box_of sel a (M a)).

Lemma present_frame sel (w w' : world rp_dialog) a m out :
  present sel w a m -> (forall q, q <> out -> files w' !! q = files w !! q) ->
  (forall path, sel !! a = Some path -> path <> out) -> present sel w' a m.
Proof.
  destruct m as [r|]; simpl; [apply readable_frame|].
  intros (p & Hs & Hf) Hw Hout. exists p. split; [done|]. rewrite Hw; [done | by apply Hout].
Qed.

Lemma present_files_eq sel (w w' : world rp_dialog) a m :
  present sel w a m -> files w' = files w -> present sel w' a m.
Proof.
  intros Hp Hf. destruct m as [r|]; simpl in *.
  - destruct Hp as (p & s & Hs & Hfs & Hps). exists p, s. by rewrite Hf.
  - destruct Hp as (p & Hs & Hfs). exists p. by rewrite Hf.
Qed.

Lemma strain_cell_present sel (w : world rp_dialog) b i a m :
  present sel w a m -> (forall r col, m = Some r -> assoc_lookup b r.2 = Some col -> (i < length col)%nat) ->
  strain_cell sel b i a w = (Ok (cell1o b i m), mk_world (files w) (shown w ++ box_of sel a m)).
Proof.
  destruct m as [r|]; simpl.
  - intros Hr Hl. rewrite (strain_cell_Ok _ _ _ _ _ r) by eauto. rewrite app_nil_r. by destruct w.
  - intros (p & Hs & Hf) _. unfold strain_cell, box_of. rewrite Hs.
    erewrite io_bind_Ok by (unfold io_lift, dict_get; by rewrite Hs).
    by erewrite io_bind_Ok by (by apply read_results_file_missing).
Qed.

Lemma strain_cells_present sel (w : world rp_dialog) b i M sa :
  (forall a, a ∈ sa -> present sel w a (M a)) ->
  (forall a r col, a ∈ sa -> M a = Some r -> assoc_lookup b r.2 = Some col -> (i < length col)%nat) ->
  io_map (strain_cell sel b i) sa w =
    (Ok ((fun a => cell1o b i (M a)) <$> sa), mk_world (files w) (shown w ++ f1_boxes sel sa M)).
Proof.
  revert w; induction sa as [|a sa IH]; intros w Hp Hl; simpl.
  - rewrite app_nil_r. by destruct w.
  - erewrite io_bind_Ok by (apply strain_cell_present; [apply Hp; left | intros; eapply Hl; [left | done ..]]).
    erewrite io_bind_Ok.
    2: { apply IH; [intros a' Ha'; eapply present_files_eq; [apply Hp; by right | done] |
                    intros; eapply Hl; [by right | done ..]]. }
    unfold f1_boxes. simpl. by rewrite app_assoc.
Qed.

(** The rows of function 1 when some files are missing: every row shows
    one box per missing file. *)
Lemma f1_rows_present sel b sa M out rows (w : world rp_dialog) :
  is_Some (files w !! out) ->
  (forall a, a ∈ sa -> present sel w a (M a)) ->
  (forall a path, a ∈ sa -> sel !! a = Some path -> path <> out) ->
  (forall p a r col, p ∈ rows -> a ∈ sa -> M a = Some r -> assoc_lookup b r.2 = Some col ->
     (p.1 < length col)%nat) ->
  io_iter (fun p : nat * string =>
      cells ← io_map (strain_cell sel b p.1) sa;
      write_str out (py_join tabs (p.2 :: cells) +:+ newline)) rows w =
    (Ok tt, mk_world (<[out := default EmptyString (files w !! out) +:+
                              foldr String.append EmptyString (f1_row_o b sa M <$> rows)]> (files w))
                     (shown w ++ mjoin (replicate (length rows) (f1_boxes sel sa M)))).
Proof.
  revert w. induction rows as [|[i l] rows IH]; intros w Hout Hp Hs Hl; simpl.
  - rewrite str_app_nil_r, app_nil_r. destruct Hout as [x Hx]. rewrite Hx. simpl.
    rewrite insert_id by done. by destruct w.
  - erewrite io_bind_Ok.
    2: { erewrite io_bind_Ok by (apply strain_cells_present; [done | intros a r col Ha HM Hc; apply (Hl (i, l) a r col); [left | done ..]]).
         apply write_str_appended. }
    rewrite IH.
    + unfold appended. cbn [files shown]. rewrite lookup_insert_eq, insert_insert_eq. cbn [default].
      f_equal; f_equal; [| simpl; by rewrite app_assoc].
      unfold id. rewrite <- str_app_assoc. reflexivity.
    + unfold appended. simpl. by rewrite lookup_insert_eq.
    + intros a Ha. eapply present_frame; [by apply Hp | | intros; by eapply Hs].
      intros q Hq. unfold appended. simpl. by rewrite lookup_insert_ne.
    + done.
    + intros p a r col Hin. apply Hl. by right.
Qed.

(** C13 (error). A missing file does not stop function 1 as long as the
    first element's file is readable: every cell of a missing element
    reads the file again and shows one read-error box, so each row shows
    one box per missing file, in the order of the selected elements, and
    the table holds ["error"] for those elements; the other cells, the
    header and the files untouched are as for readable files, and no
    exception reaches the caller (which then reports success). *)
Theorem generate_function1_missing sel a0 sa' b dir r0 M (w : world rp_dialog) :
  M a0 = Some r0 -> r0.1 <> [] ->
  (forall a, a ∈ a0 :: sa' -> present sel w a (M a)) ->
  (forall a path, a ∈ a0 :: sa' -> sel !! a = Some path ->
     path <> path_join dir ("strain_distribution_" +:+ b +:+ ".txt")) ->
  (forall a r col, a ∈ a0 :: sa' -> M a = Some r -> assoc_lookup b r.2 = Some col ->
     (length r0.1 <= length col)%nat) ->
  generate_function1_output sel (a0 :: sa') [b] dir w =
    (Ok tt, mk_world (<[path_join dir ("strain_distribution_" +:+ b +:+ ".txt") :=
                          f1_header (a0 :: sa') +:+
                          foldr String.append EmptyString (f1_row_o b (a0 :: sa') M <$> enumerate r0.1)]>
                        (files w))
                     (shown w ++ mjoin (replicate (length r0.1) (f1_boxes sel (a0 :: sa') M)))).
Proof.
  intros HM0 Hfc Hp Hout Hlen. set (out := path_join dir ("strain_distribution_" +:+ b +:+ ".txt")) in *.
  unfold generate_function1_output.
  pose proof (Hp a0 (list_elem_of_here _ _)) as Hp0. rewrite HM0 in Hp0.
  destruct Hp0 as (path & s & Hsel & Hf & Hps).
  erewrite io_bind_Ok by reflexivity.
  erewrite io_bind_Ok by (unfold io_lift, dict_get; by rewrite Hsel).
  erewrite io_bind_Ok by (by eapply read_results_file_Some).
  destruct r0 as [fc bd]. cbn [fst] in *. rewrite decide_False by done.
  cbn [io_iter]. erewrite io_bind_Ok; [reflexivity|].
  erewrite io_bind_Ok by reflexivity.
  erewrite io_bind_Ok by (apply write_str_appended).
  rewrite (f1_rows_present _ _ _ M).
  - unfold appended. cbn [files shown]. rewrite !lookup_insert_eq, !insert_insert_eq, length_enumerate.
    cbn [default]. by rewrite str_app_nil_l.
  - unfold appended. simpl. by rewrite lookup_insert_eq.
  - intros a Ha. eapply present_frame; [by apply Hp | | intros; by eapply Hout].
    intros q Hq. unfold appended. simpl. by rewrite !lookup_insert_ne.
  - done.
  - intros [i l] a r col Hin Ha HMa Hc. apply zip_elem_l, elem_of_seq in Hin.
    pose proof (Hlen a r col Ha HMa Hc). simpl in *. lia.
Qed.

Definition missing_sel : gmap Z string := {[ 100%Z := "r1.txt"; 200%Z := "gone.txt" ]}.
Definition missing_world : world rp_dialog :=
  mk_world {[ "r1.txt" := render_table [["C"; "B1"; "B2"]; ["-31"; "1.0"; "5"]; ["10"; "4.0"; "6"]] ]} [].
Definition missing_M (a : Z) : option (list string * list (string * list string)) :=
  if decide (a = 100%Z) then Some (["-31"; "10"], [("0.1g", ["1.0"; "4.0"]); ("0.2g", ["5"; "6"])]) else None.

Lemma generate_function1_missing_witness :
  generate_function1_output missing_sel [100%Z; 200%Z] ["0.1g"] "out" missing_world =
    (Ok tt, mk_world (<[path_join "out" ("strain_distribution_" +:+ "0.1g" +:+ ".txt") :=
                          f1_header [100%Z; 200%Z] +:+
                          foldr String.append EmptyString
                            (f1_row_o "0.1g" [100%Z; 200%Z] missing_M <$> enumerate ["-31"; "10"])]>
                        (files missing_world))
                     (shown missing_world ++ mjoin (replicate 2 (f1_boxes missing_sel [100%Z; 200%Z] missing_M)))).
Proof.
  apply (generate_function1_missing missing_sel 100 [200%Z] "0.1g" "out"
           (["-31"; "10"], [("0.1g", ["1.0"; "4.0"]); ("0.2g", ["5"; "6"])]) missing_M).
  - reflexivity.
  - discriminate.
  - intros a Ha. repeat apply elem_of_cons in Ha as [->|Ha]; [| | by apply elem_of_nil in Ha].
    + exists "r1.txt", (render_table [["C"; "B1"; "B2"]; ["-31"; "1.0"; "5"]; ["10"; "4.0"; "6"]]).
      split_and!; vm_compute; reflexivity.
    + exists "gone.txt". split; vm_compute; reflexivity.
  - intros a path Ha Hp. repeat apply elem_of_cons in Ha as [->|Ha]; [| | by apply elem_of_nil in Ha];
      vm_compute in Hp; injection Hp as <-; discriminate.
  - intros a r col Ha HM Hc. repeat apply elem_of_cons in Ha as [->|Ha]; [| | by apply elem_of_nil in Ha];
      vm_compute in HM; [injection HM as <-; vm_compute in Hc; injection Hc as <-; simpl; lia | discriminate].
Defined.


(** C2 (functional). Function 2 for one strain label [b], when every
    selected element's file exists and parses and the first file has data
    rows: [generate_function2_output] builds the matrix of the threshold
    column and, per element, its column [b] (or ["error"] cells), and
    either writes exactly [max_strain_<b>.txt], one line [a, ECC, RC] per
    selected element from the results of [process_strain_data], leaving
    every other file and the boxes as they were, or raises what
    [process_strain_data] raises and changes nothing. *)
Theorem generate_function2_one sel a0 sa' b dir R (w : world rp_dialog) :
  (forall a, a ∈ a0 :: sa' -> readable sel w a (R a)) -> (R a0).1 <> [] ->
  generate_function2_output sel (a0 :: sa') [b] dir w =
    match process_strain_data ((R a0).1 :: ((fun a => column_for b (R a0).1 (Some (R a))) <$> a0 :: sa')) b (a0 :: sa') with
    | Ok (rc, ecc) =>
        (Ok tt, mk_world (<[path_join dir ("max_strain_" +:+ b +:+ ".txt") :=
                              foldr String.append EmptyString (max_row rc ecc <$> enumerate (a0 :: sa'))]> (files w))
                         (shown w))
    | Raise e => (Raise e, w)
    end.
Proof.
  intros Hr Hfc. unfold generate_function2_output. cbn [gen2_loop].
  destruct (Hr a0 (list_elem_of_here _ _)) as (path & s & Hsel & Hf & Hp).
  erewrite io_bind_Ok by reflexivity.
  erewrite io_bind_Ok by (unfold io_lift, dict_get; by rewrite Hsel).
  erewrite io_bind_Ok by (by eapply read_results_file_Some).
  destruct (R a0) as [fc bd]. cbn [fst] in Hfc |- *. rewrite decide_False by done.
  erewrite io_bind_Ok by (by apply (read_columns sel w b fc R)).
  destruct (process_strain_data _ b _) as [[rc ecc]|e] eqn:Hps.
  - erewrite io_bind_Ok by reflexivity.
    apply process_strain_data_Ok in Hps as (ths & cs & pairs & _ & _ & Hpairs & -> & ->).
    pose proof (Forall2_length _ _ _ Hpairs) as Hlen.
    erewrite io_bind_Ok by reflexivity.
    erewrite io_bind_Ok by (apply write_max_rows_content; [by rewrite length_fmap | by rewrite length_fmap |];
                              simpl; by rewrite lookup_insert_eq).
    destruct w as [fs sh]. simpl. by rewrite appended_open.
  - erewrite io_bind_Raise by reflexivity. reflexivity.
Qed.
End Gen2.

Lemma generate_function2_one_witness :
  let sel := {[ 100%Z := "r1.txt" ]} in
  let R := fun _ : Z => (["-31"; "10"], [("0.1g", ["1.0"; "4.0"])]) in
  let w := mk_world {[ "r1.txt" := render_table [["C"; "B1"]; ["-31"; "1.0"]; ["10"; "4.0"]] ]} [] in
  generate_function2_output sel [100%Z] ["0.1g"] "out" w =
    match process_strain_data ((R 100%Z).1 :: ((fun a => column_for "0.1g" (R 100%Z).1 (Some (R a))) <$> [100%Z])) "0.1g" [100%Z] with
    | Ok (rc, ecc) =>
        (Ok tt, mk_world (<[path_join "out" ("max_strain_" +:+ "0.1g" +:+ ".txt") :=
                              foldr String.append EmptyString (max_row rc ecc <$> enumerate [100%Z])]> (files w))
                         (shown w))
    | Raise e => (Raise e, w)
    end.
Proof.
  intros sel R w. apply generate_function2_one; [|discriminate].
  intros a Ha. apply list_elem_of_singleton in Ha as ->.
  exists "r1.txt", (render_table [["C"; "B1"]; ["-31"; "1.0"]; ["10"; "4.0"]]).
  split_and!; [reflexivity | reflexivity | vm_compute; reflexivity].
Defined.

Lemma generate_function1_one_witness :
  let sel := {[ 100%Z := "r1.txt"; 200%Z := "r2.txt" ]} in
  let r1 := (["-31"; "10"], [("0.1g", ["1.0"; "4.0"])]) in
  let r2 := (["-31"; "10"], [("0.1g", ["2.0"; "5.0"])]) in
  let R := fun a : Z => if decide (a = 100%Z) then r1 else r2 in
  let w := mk_world {[ "r1.txt" := render_table [["C"; "B1"]; ["-31"; "1.0"]; ["10"; "4.0"]];
                       "r2.txt" := render_table [["C"; "B1"]; ["-31"; "2.0"]; ["10"; "5.0"]] ]} [] in
  generate_function1_output sel [100%Z; 200%Z] ["0.1g"] "out" w =
    (Ok tt, mk_world (<[path_join "out" ("strain_distribution_" +:+ "0.1g" +:+ ".txt") :=
                          f1_header [100%Z; 200%Z] +:+
                          foldr String.append EmptyString (f1_row "0.1g" [100%Z; 200%Z] R <$> enumerate (R 100%Z).1)]>
                        (files w)) (shown w)).
Proof.
  intros sel r1 r2 R w. apply generate_function1_one; [| discriminate | |].
  - intros a Ha. apply elem_of_cons in Ha as [->|Ha]; [|apply list_elem_of_singleton in Ha as ->].
    + exists "r1.txt", (render_table [["C"; "B1"]; ["-31"; "1.0"]; ["10"; "4.0"]]).
      split_and!; [reflexivity | reflexivity | vm_compute; reflexivity].
    + exists "r2.txt", (render_table [["C"; "B1"]; ["-31"; "2.0"]; ["10"; "5.0"]]).
      split_and!; [reflexivity | reflexivity | vm_compute; reflexivity].
  - intros a path Ha Hsel. apply elem_of_cons in Ha as [->|Ha]; [|apply list_elem_of_singleton in Ha as ->];
      vm_compute in Hsel; injection Hsel as <-; discriminate.
  - intros a col Ha Hc. apply elem_of_cons in Ha as [->|Ha]; [|apply list_elem_of_singleton in Ha as ->];
      vm_compute in Hc; injection Hc as <-; simpl; lia.
Defined.

(** ** Which files the generation writes *)

(** The two tables an output folder [d] can receive for a label [b]. *)
Definition gen_output (d b q : string) : Prop :=
  q = path_join d ("max_strain_" +:+ b +:+ ".txt") \/
  q = path_join d ("strain_distribution_" +:+ b +:+ ".txt").

Lemma read_results_file_only P p : only_writes P (read_results_file p).
Proof.
  unfold read_results_file. apply only_writes_try; [|eauto with py].
  apply only_writes_bind; [eauto with py|]; intros s.
  apply only_writes_bind; eauto with py.
Qed.

#[local] Hint Resolve read_results_file_only : py.

Section GenFrame.
Context `{FloatStr}.

Lemma gen2_loop_only files sa dir bs :
  only_writes (fun q => exists b, In b bs /\ gen_output dir b q) (gen2_loop files sa dir bs).
Proof.
  induction bs as [|b bs IH]; simpl; [eauto with py|].
  apply only_writes_bind; [eauto with py|]; intros a0.
  apply only_writes_bind; [eauto with py|]; intros ff.
  apply only_writes_bind; [eauto with py|]; intros [[fc ?]|]; [|eauto with py].
  case_decide; [eauto with py|].
  apply only_writes_bind.
  { apply only_writes_io_map. intros a. repeat (apply only_writes_bind; [eauto with py|]; intros ?). eauto with py. }
  intros X. apply only_writes_bind; [eauto with py|]; intros [rc ecc].
  assert (Hb : forall q, q = path_join dir ("max_strain_" +:+ b +:+ ".txt") ->
                 exists b', In b' (b :: bs) /\ gen_output dir b' q)
    by (intros q ->; exists b; split; [by left|by left]).
  apply only_writes_bind; [by apply only_writes_open_write, Hb|]; intros _.
  apply only_writes_bind.
  - unfold write_max_rows. apply only_writes_io_iter. intros p.
    repeat (apply only_writes_bind; [eauto with py|]; intros ?). by apply only_writes_write_str, Hb.
  - intros _. eapply only_writes_mono, IH. intros q (b' & Hin & Hq). exists b'. split; [by right|done].
Qed.

Lemma gen1_only files sa sb dir :
  only_writes (fun q => exists b, In b sb /\ gen_output dir b q) (generate_function1_output files sa sb dir).
Proof.
  unfold generate_function1_output.
  apply only_writes_bind; [eauto with py|]; intros a0.
  apply only_writes_bind; [eauto with py|]; intros ff.
  apply only_writes_bind; [eauto with py|]; intros [[fc ?]|]; [|eauto with py].
  case_decide; [eauto with py|].
  apply only_writes_io_iter_in. intros b Hb.
  assert (Hq : forall q, q = path_join dir ("strain_distribution_" +:+ b +:+ ".txt") ->
                 exists b', In b' sb /\ gen_output dir b' q)
    by (intros q ->; exists b; split; [done|by right]).
  apply only_writes_bind; [by apply only_writes_open_write, Hq|]; intros _.
  apply only_writes_bind; [by apply only_writes_write_str, Hq|]; intros _.
  apply only_writes_io_iter. intros p.
  apply only_writes_bind; [|intros ?; by apply only_writes_write_str, Hq].
  apply only_writes_io_map. intros a. unfold strain_cell.
  repeat (apply only_writes_bind; [eauto with py|]; intros ?).
  repeat case_match; eauto with py.
Qed.
End GenFrame.
