(* ===== verification/ResultsGui.v ===== *)
(** * ResultsGui: the file-selection state machine of [ResultProcessor]

    [src/process_results.py]: the state of a [ResultProcessor] object
    (the dict [selected_files], the check boxes [a_vars] and [b_vars],
    [current_function], whether the processing window is open, the
    lines of [file_listbox], whether the process still runs) and its
    handlers as one transition function [handle]: [start_function1/2]
    with [create_processing_ui], the check boxes, [select_file],
    [reset_selection], [generate_output], [return_to_main] and the close
    button of the main window ([on_closing], [cleanup]).
    [update_file_list] runs where the code calls it, and only there.
    Dialog answers (the chosen file or directory, [""] when cancelled,
    the answer of [askokcancel]) are part of the event.  [reachable]
    closes the initial state under [handle]. *)

From S2P Require Import Prelude PyText PyFloat PyRepr PyIO StrainReduce ResultsFile.
From stdpp Require Import gmap.

Local Open Scope string_scope.

Record rp_state := mk_rp {
  rp_world : world rp_dialog;
  selected_files : gmap Z string;
  a_vars : list bool;
  b_vars : list bool;
  current_function : option nat;
  processing_open : bool;
  listbox : list string;   (* the lines of [file_listbox] *)
  running : bool           (* false once [cleanup] has run [os._exit(0)] *)
}.

Inductive rp_event :=
| StartFunction (k : nat)          (* the buttons of function 1 and 2 *)
| ToggleA (i : nat)                (* the i-th A check box *)
| ToggleB (i : nat)                (* the i-th b check box *)
| SelectFile (answer : string)     (* askopenfilename, "" when cancelled *)
| ResetSelection
| Generate (answer : string)       (* askdirectory, "" when cancelled *)
| ReturnToMain
| CloseMain (ok : bool).           (* WM_DELETE_WINDOW of the main window, askokcancel *)

(** Lines 8-21: no file selected, no window but the main one. *)
Definition init_state (w : world rp_dialog) : rp_state :=
  mk_rp w ∅ [] [] None false [] true.

Definition set_world (s : rp_state) (w : world rp_dialog) : rp_state :=
  mk_rp w (selected_files s) (a_vars s) (b_vars s) (current_function s) (processing_open s)
    (listbox s) (running s).

Definition show_in (s : rp_state) (d : rp_dialog) : rp_state :=
  set_world s (mk_world (files (rp_world s)) (shown (rp_world s) ++ [d])).

(** Lines 128, 138, 212: [[a for a, var in zip(self.array_A, self.a_vars) if var.get()]]. *)
Definition selected_a (s : rp_state) : list Z :=
  fst <$> filter (fun p : Z * bool => p.2 = true) (zip array_A (a_vars s)).

(** Line 222. *)
Definition selected_b (s : rp_state) : list string :=
  fst <$> filter (fun p : string * bool => p.2 = true) (zip array_B (b_vars s)).

(** Lines 125-133: [update_file_list], the line of each ticked element:
    the base name of its file, or ["未选择"] ("not chosen"). *)
Definition file_list_lines (sa : list Z) (sel : gmap Z string) : list string :=
  (fun a => str_of_Z a +:+ ": " +:+
     match sel !! a with Some p => basename p | None => "未选择" end) <$> sa.

Definition update_file_list (s : rp_state) : rp_state :=
  mk_rp (rp_world s) (selected_files s) (a_vars s) (b_vars s) (current_function s)
    (processing_open s) (file_list_lines (selected_a s) (selected_files s)) (running s).

(** Lines 312-322 with [create_processing_ui] (lines 58-114): fresh,
    unticked check boxes; [selected_files] is kept; the list is refreshed
    (line 114). *)
Definition start_function (s : rp_state) (k : nat) : rp_state :=
  update_file_list
    (mk_rp (rp_world s) (selected_files s) (replicate (length array_A) false)
       (replicate (length array_B) false) (Some k) true (listbox s) (running s)).

(** Lines 135-152. *)
Definition select_file (s : rp_state) (answer : string) : rp_state :=
  let unselected := filter (fun a => selected_files s !! a = None) (selected_a s) in
  match unselected with
  | [] => show_in s InfoAllPaired
  | a :: _ =>
      if decide (answer = "") then s
      else update_file_list
             (mk_rp (rp_world s) (<[a := answer]> (selected_files s)) (a_vars s) (b_vars s)
                (current_function s) (processing_open s) (listbox s) (running s))
  end.

(** Lines 154-157. *)
Definition reset_selection (s : rp_state) : rp_state :=
  update_file_list
    (mk_rp (rp_world s) ∅ (a_vars s) (b_vars s) (current_function s) (processing_open s)
       (listbox s) (running s)).

(** Lines 116-123. *)
Definition return_to_main (s : rp_state) : rp_state :=
  mk_rp (rp_world s) (selected_files s) (a_vars s) (b_vars s) (current_function s) false
    (listbox s) (running s).

(** Lines 34-44: [on_closing] asks for confirmation; [cleanup] ends the
    process with [os._exit(0)]. *)
Definition on_closing (s : rp_state) (ok : bool) : rp_state :=
  if ok then mk_rp (rp_world s) (selected_files s) (a_vars s) (b_vars s) (current_function s) false
               (listbox s) false
  else s.

Section Generate.
Context `{FloatStr}.

(** Lines 232-242: the [try] around the generation. *)
Definition run_generation (s : rp_state) (sa : list Z) (sb : list string) (dir : string)
    : rp_state :=
  let body : io rp_dialog unit :=
    (if decide (current_function s = Some 2%nat)
     then generate_function2_output (selected_files s) sa sb dir
     else generate_function1_output (selected_files s) sa sb dir) ;;
    show (Generated dir) in
  match body (rp_world s) with
  | (Ok _, w') => return_to_main (set_world s w')
  | (Raise e, w') => show_in (set_world s w') (GenerateError e)
  end.

(** Lines 210-242. *)
Definition generate_output (s : rp_state) (answer : string) : rp_state :=
  let sa := selected_a s in
  if decide (sa = []) then show_in s WarnNoA
  else if decide (length sa <> size (selected_files s)) then show_in s WarnUnpaired
  else let sb := selected_b s in
  if decide (sb = []) then show_in s WarnNoB
  else if decide (answer = "") then s
  else run_generation s sa sb answer.

(** One user action.  The buttons of a closed processing window cannot
    be pressed, nor those of the hidden main window. *)
Definition handle (s : rp_state) (e : rp_event) : rp_state :=
  if negb (running s) then s else
  match e with
  | StartFunction k => if processing_open s then s else start_function s k
  | ToggleA i =>
      if processing_open s then
        mk_rp (rp_world s) (selected_files s) (alter negb i (a_vars s)) (b_vars s)
          (current_function s) true (listbox s) (running s)
      else s
  | ToggleB i =>
      if processing_open s then
        mk_rp (rp_world s) (selected_files s) (a_vars s) (alter negb i (b_vars s))
          (current_function s) true (listbox s) (running s)
      else s
  | SelectFile answer => if processing_open s then select_file s answer else s
  | ResetSelection => if processing_open s then reset_selection s else s
  | Generate answer => if processing_open s then generate_output s answer else s
  | ReturnToMain => if processing_open s then return_to_main s else s
  | CloseMain ok => if processing_open s then s else on_closing s ok
  end.

Inductive reachable (w0 : world rp_dialog) : rp_state -> Prop :=
| reach_init : reachable w0 (init_state w0)
| reach_step s e : reachable w0 s -> reachable w0 (handle s e).

Definition run (s : rp_state) (es : list rp_event) : rp_state := foldl handle s es.
End Generate.

(** ** Lemmas *)

Lemma selected_a_elem s a : a ∈ selected_a s -> a ∈ array_A.
Proof.
  unfold selected_a. intros ((a', v) & -> & Hin)%list_elem_of_fmap.
  apply list_elem_of_filter in Hin as [_ Hin]. by apply zip_elem_l in Hin.
Qed.

Lemma array_A_NoDup : NoDup array_A.
Proof. apply (bool_decide_unpack _). vm_compute. reflexivity. Qed.

(** An A value is ticked when the check box at its position is set. *)
Lemma selected_a_iff s i a :
  array_A !! i = Some a -> a ∈ selected_a s <-> a_vars s !! i = Some true.
Proof.
  intros Hi. unfold selected_a. rewrite list_elem_of_fmap. split.
  - intros ((a', v) & -> & Hin). apply list_elem_of_filter in Hin as [Hv Hin]. simpl in Hv. subst v.
    apply list_elem_of_lookup in Hin as (j & Hj). apply lookup_zip_Some in Hj as [Hj Hv].
    by rewrite (NoDup_lookup _ _ _ _ array_A_NoDup Hi Hj).
  - intros Hv. exists (a, true). split; [done|]. apply list_elem_of_filter. split; [done|].
    apply list_elem_of_lookup. exists i. by apply lookup_zip_Some.
Qed.

Section GenerateLemmas.
Context `{FloatStr}.

Lemma run_generation_files s sa sb dir :
  selected_files (run_generation s sa sb dir) = selected_files s.
Proof. unfold run_generation. by repeat case_match. Qed.

Lemma generate_output_files s dir :
  selected_files (generate_output s dir) = selected_files s.
Proof. unfold generate_output. repeat case_decide; try done. apply run_generation_files. Qed.

(** [select_file] pairs the first ticked, unpaired element with a
    non-empty answer, or changes nothing. *)
Lemma select_file_files s answer :
  selected_files (select_file s answer) = selected_files s \/
  exists a, a ∈ selected_a s /\ answer <> "" /\
    selected_files (select_file s answer) = <[a := answer]> (selected_files s).
Proof.
  unfold select_file. destruct (filter _ (selected_a s)) as [|a l] eqn:E; [by left|].
  case_decide; [by left|]. right. exists a. split_and!; [|done|done].
  assert (Ha : a ∈ filter (fun a => selected_files s !! a = None) (selected_a s)) by (rewrite E; by left).
  by apply list_elem_of_filter in Ha as [_ Ha].
Qed.

(** Every transition keeps the pairs of [selected_files] or adds a pair
    of a ticked element with a non-empty path, or empties the dict. *)
Lemma handle_files s e :
  selected_files (handle s e) = selected_files s \/
  selected_files (handle s e) = ∅ \/
  exists a p, a ∈ selected_a s /\ p <> "" /\
    selected_files (handle s e) = <[a := p]> (selected_files s).
Proof.
  unfold handle. destruct (running s); simpl; [|by left].
  destruct e as [k|i|i|answer| |answer| |ok]; destruct (processing_open s); auto.
  - destruct (select_file_files s answer) as [->|(a & Ha & Hne & ->)]; [by left|].
    right; right. eauto.
  - rewrite generate_output_files. by left.
  - destruct ok; by left.
Qed.

(** C11 (invariant). In every reachable state each paired element is one
    of the seven A values and is paired with a non-empty path. *)
Theorem reachable_selected_files w0 s :
  reachable w0 s ->
  forall a p, selected_files s !! a = Some p -> a ∈ array_A /\ p <> "".
Proof.
  induction 1 as [|s e Hr IH]; intros a p Hp; [done|].
  destruct (handle_files s e) as [Hf|[Hf|(a' & p' & Ha' & Hp' & Hf)]]; rewrite Hf in Hp.
  - by apply IH.
  - done.
  - apply lookup_insert_Some in Hp as [[<- <-]|[_ Hp]]; [|by apply IH].
    split; [by eapply selected_a_elem | done].
Qed.
End GenerateLemmas.

Lemma reachable_run `{FloatStr} w0 s es : reachable w0 s -> reachable w0 (run s es).
Proof. revert s; induction es as [|e es IH]; intros s Hs; simpl; [done|]. apply IH. by constructor. Qed.

Lemma reachable_selected_files_witness :
  let w0 := mk_world (D := rp_dialog) ∅ [] in
  let s := run (init_state w0) [StartFunction 1; ToggleA 0; SelectFile "r100.txt"] in
  reachable w0 s /\ selected_files s !! 100%Z = Some "r100.txt" /\
  (100%Z ∈ array_A /\ "r100.txt" <> "").
Proof.
  intros w0 s. assert (Hr : reachable w0 s) by (apply reachable_run, reach_init).
  assert (Hs : selected_files s !! 100%Z = Some "r100.txt") by (vm_compute; reflexivity).
  split; [exact Hr | split; [exact Hs | exact (reachable_selected_files w0 s Hr _ _ Hs)]].
Defined.

(** Both generators look the first ticked element up first
    ([self.selected_files[selected_a[0]]], lines 247 and 282). *)
Lemma gen_unpaired_first `{FloatStr} sel a0 rest bs dir (w : world rp_dialog) :
  sel !! a0 = None -> bs <> [] ->
  generate_function2_output sel (a0 :: rest) bs dir w = (Raise (KeyError (str_of_Z a0)), w) /\
  generate_function1_output sel (a0 :: rest) bs dir w = (Raise (KeyError (str_of_Z a0)), w).
Proof.
  intros Ha Hbs. destruct bs as [|b bs]; [done|].
  unfold generate_function2_output, generate_function1_output, dict_get. simpl. unfold dict_get, mbind, io_bind, io_lift. simpl. by rewrite Ha.
Qed.

(** C8 (safety). The guard of [generate_output] (line 217) compares the
    number of ticked elements with the number of paired files, not the
    elements themselves: whenever the counts agree but the first ticked
    element has no file (an element paired and then unticked), the guard
    passes and both functions fail with [KeyError] on that element: an
    error box, no file written, the processing window left open, instead
    of the "pair every element" warning. *)
Theorem generate_guard_counts_not_keys `{FloatStr} s dir a0 rest :
  running s = true -> processing_open s = true -> selected_a s = a0 :: rest ->
  length (selected_a s) = size (selected_files s) -> selected_b s <> [] -> dir <> "" ->
  selected_files s !! a0 = None ->
  files (rp_world (handle s (Generate dir))) = files (rp_world s) /\
  shown (rp_world (handle s (Generate dir))) =
    (shown (rp_world s) ++ [GenerateError (KeyError (str_of_Z a0))])%list /\
  processing_open (handle s (Generate dir)) = true.
Proof.
  intros Hrun Hopen Hsa Hlen Hsb Hdir Ha. unfold handle. rewrite Hrun, Hopen. simpl. unfold generate_output.
  rewrite Hsa in Hlen |- *. rewrite decide_False by done.
  rewrite decide_False by (intros Hne; by apply Hne).
  rewrite !decide_False by done. unfold run_generation.
  destruct (gen_unpaired_first (selected_files s) a0 rest (selected_b s) dir (rp_world s) Ha Hsb) as [H2 H1].
  case_decide; [rewrite (io_bind_Raise _ _ _ _ _ H2) | rewrite (io_bind_Raise _ _ _ _ _ H1)];
    simpl; split_and!; done.
Qed.

Lemma generate_guard_counts_not_keys_witness :
  let s := run (init_state (mk_world ∅ []))
             [StartFunction 2; ToggleA 0; SelectFile "r100.txt"; ToggleA 0; ToggleA 1; ToggleB 0] in
  files (rp_world (handle s (Generate "out"))) = files (rp_world s) /\
  shown (rp_world (handle s (Generate "out"))) =
    (shown (rp_world s) ++ [GenerateError (KeyError (str_of_Z 200))])%list /\
  processing_open (handle s (Generate "out")) = true.
Proof.
  intros s. apply (generate_guard_counts_not_keys s "out" 200 []);
    (vm_compute; first [reflexivity | discriminate]).
Defined.

(** ** An unreadable first file *)

Section FirstFile.
Context `{FloatStr}.

Lemma gen2_first_missing sel a0 rest bs dir (w : world rp_dialog) p :
  sel !! a0 = Some p -> files w !! p = None -> bs <> [] ->
  generate_function2_output sel (a0 :: rest) bs dir w =
    (Ok tt, mk_world (files w) (shown w ++ [ReadError p (OSError p)])).
Proof.
  intros Ha Hp Hbs. destruct bs as [|b bs]; [done|].
  unfold generate_function2_output. simpl. unfold dict_get.
  erewrite io_bind_Ok by reflexivity. rewrite Ha. erewrite io_bind_Ok by reflexivity.
  by erewrite io_bind_Ok by (apply read_results_file_missing; done).
Qed.

Lemma gen1_first_missing sel a0 rest bs dir (w : world rp_dialog) p :
  sel !! a0 = Some p -> files w !! p = None ->
  generate_function1_output sel (a0 :: rest) bs dir w =
    (Ok tt, mk_world (files w) (shown w ++ [ReadError p (OSError p)])).
Proof.
  intros Ha Hp. unfold generate_function1_output. unfold dict_get.
  erewrite io_bind_Ok by reflexivity. rewrite Ha. erewrite io_bind_Ok by reflexivity.
  by erewrite io_bind_Ok by (apply read_results_file_missing; done).
Qed.
End FirstFile.

(** C7 (error). When the file paired with the first ticked element
    cannot be opened, [generate_output] shows the read error, writes no
    file, and then reports success and returns to the main window: the
    generators [return] silently on a missing first column (lines 249-250,
    284-285), so the caller (line 238) believes the files were written. *)
Theorem generate_missing_first_reports_success `{FloatStr} s dir a0 rest p :
  running s = true -> processing_open s = true -> selected_a s = a0 :: rest ->
  length (selected_a s) = size (selected_files s) -> selected_b s <> [] -> dir <> "" ->
  selected_files s !! a0 = Some p -> files (rp_world s) !! p = None ->
  files (rp_world (handle s (Generate dir))) = files (rp_world s) /\
  shown (rp_world (handle s (Generate dir))) =
    (shown (rp_world s) ++ [ReadError p (OSError p); Generated dir])%list /\
  processing_open (handle s (Generate dir)) = false.
Proof.
  intros Hrun Hopen Hsa Hlen Hsb Hdir Ha Hp. unfold handle. rewrite Hrun, Hopen. simpl. unfold generate_output.
  rewrite Hsa in Hlen |- *. rewrite decide_False by done.
  rewrite decide_False by (intros Hne; by apply Hne).
  rewrite !decide_False by done. unfold run_generation.
  assert (Hgen : forall c : io rp_dialog unit,
    c (rp_world s) = (Ok tt, mk_world (files (rp_world s)) (shown (rp_world s) ++ [ReadError p (OSError p)])) ->
    (c ;; show (Generated dir)) (rp_world s) =
      (Ok tt, mk_world (files (rp_world s)) (shown (rp_world s) ++ [ReadError p (OSError p); Generated dir]))).
  { intros c Hc. erewrite io_bind_Ok by exact Hc. unfold show. simpl. by rewrite <- app_assoc. }
  rewrite Hgen; [done|].
  case_decide; [by apply gen2_first_missing | by apply gen1_first_missing].
Qed.

Lemma generate_missing_first_reports_success_witness :
  let s := run (init_state (mk_world ∅ []))
             [StartFunction 2; ToggleA 0; SelectFile "missing.txt"; ToggleB 0] in
  files (rp_world (handle s (Generate "out"))) = files (rp_world s) /\
  shown (rp_world (handle s (Generate "out"))) =
    (shown (rp_world s) ++ [ReadError "missing.txt" (OSError "missing.txt"); Generated "out"])%list /\
  processing_open (handle s (Generate "out")) = false.
Proof.
  intros s. apply (generate_missing_first_reports_success s "out" 100 [] "missing.txt");
    (vm_compute; first [reflexivity | discriminate]).
Defined.

(** ** Which files a session writes *)

Lemma selected_b_elem s b : b ∈ selected_b s -> b ∈ array_B.
Proof.
  unfold selected_b. intros ((b', v) & -> & Hin)%list_elem_of_fmap.
  apply list_elem_of_filter in Hin as [_ Hin]. by apply zip_elem_l in Hin.
Qed.

(** The files a [Generate d] can write: the two tables of a label of
    [array_B] in [d]. *)
Definition generate_writes (d q : string) : Prop := exists b, b ∈ array_B /\ gen_output d b q.

Section SessionFrame.
Context `{FloatStr}.

Lemma generate_output_frame s d q :
  ~ generate_writes d q -> files (rp_world (generate_output s d)) !! q = files (rp_world s) !! q.
Proof.
  intros Hq. unfold generate_output. repeat case_decide; try done.
  unfold run_generation.
  assert (Hbody : only_writes (fun q => exists b, In b (selected_b s) /\ gen_output d b q)
    ((if decide (current_function s = Some 2%nat)
      then generate_function2_output (selected_files s) (selected_a s) (selected_b s) d
      else generate_function1_output (selected_files s) (selected_a s) (selected_b s) d) ;;
     show (Generated d))).
  { apply only_writes_bind; [|eauto with py]. case_decide; [apply gen2_loop_only|apply gen1_only]. }
  assert (Hnot : ~ exists b, In b (selected_b s) /\ gen_output d b q).
  { intros (b & Hb & Hg). apply Hq. exists b. split; [apply (selected_b_elem s), list_elem_of_In, Hb|done]. }
  unfold only_writes in Hbody. specialize (Hbody (rp_world s) q Hnot). cbv zeta.
  revert Hbody. match goal with |- context [?c (rp_world s)] => destruct (c (rp_world s)) as [[] w'] end; done.
Qed.

Lemma handle_frame s e q :
  (forall d, e = Generate d -> ~ generate_writes d q) ->
  files (rp_world (handle s e)) !! q = files (rp_world s) !! q.
Proof.
  intros Hq. unfold handle. destruct (running s); simpl; [|done].
  destruct e as [k|i|i|answer| |answer| |ok]; destruct (processing_open s); try done.
  - unfold select_file. by repeat case_match.
  - by apply generate_output_frame, Hq.
  - by destruct ok.
Qed.

(** C35 (safety). A session writes no file but the tables of the labels
    of [array_B] in the output folders chosen by its [Generate] events:
    the results files that were read, and any other file, keep their
    contents, whatever the answers and however the generation ends. *)
Theorem run_writes_only_tables s es q :
  (forall d, In (Generate d) es -> ~ generate_writes d q) ->
  files (rp_world (run s es)) !! q = files (rp_world s) !! q.
Proof.
  unfold run. revert s; induction es as [|e es IH]; intros s Hq; [done|].
  cbn [foldl]. rewrite IH by (intros d Hin; exact (Hq d (or_intror Hin))).
  apply handle_frame. intros d ->. exact (Hq d (or_introl eq_refl)).
Qed.
End SessionFrame.

Lemma run_writes_only_tables_witness :
  let w0 := mk_world {[ "r1.txt" := render_table [["C"; "B1"]; ["-31"; "1.0"]] ]} [] in
  let es := [StartFunction 2; ToggleA 0; SelectFile "r1.txt"; ToggleB 0; Generate "out"] in
  (forall d, In (Generate d) es -> ~ generate_writes d "r1.txt") /\
  files (rp_world (run (init_state w0) es)) !! "r1.txt" = Some (render_table [["C"; "B1"]; ["-31"; "1.0"]]).
Proof.
  intros w0 es.
  assert (Hq : forall d, In (Generate d) es -> ~ generate_writes d "r1.txt").
  { intros d Hin. repeat destruct Hin as [Hin|Hin]; try discriminate; [|done].
    injection Hin as <-. intros (b & _ & [Hp|Hp]); unfold path_join in Hp;
      repeat case_decide; simplify_eq; discriminate. }
  split; [exact Hq|]. rewrite (run_writes_only_tables (H:=decimal_float_str) (init_state w0) es "r1.txt" Hq).
  reflexivity.
Defined.

(** ** The file list *)

Section FileList.
Context `{FloatStr}.

Lemma generate_output_listbox s d : listbox (generate_output s d) = listbox s.
Proof.
  unfold generate_output, run_generation. repeat case_decide; try done; cbv zeta;
  match goal with |- context [?c (rp_world s)] => destruct (c (rp_world s)) as [[] w'] end; done.
Qed.

(** Every transition leaves the list and the pairs alone, or ends with
    [update_file_list]. *)
Lemma handle_listbox s e :
  (listbox (handle s e) = listbox s /\ selected_files (handle s e) = selected_files s) \/
  exists t, handle s e = update_file_list t.
Proof.
  unfold handle. destruct (running s); simpl; [|by left].
  destruct e as [k|i|i|answer| |answer| |ok]; destruct (processing_open s); try (by left).
  - right. by eexists.
  - unfold select_file. destruct (filter _ _); [by left|]. case_decide; [by left|]. right. by eexists.
  - right. by eexists.
  - left. by rewrite generate_output_listbox, generate_output_files.
  - destruct ok; by left.
Qed.

(** C40 (invariant). In every reachable state the list box shows, for
    each element it lists, the base name of the file that element is
    paired with now (or ["未选择"]); the elements listed are A values.
    Although the list may omit ticked elements or keep unticked ones
    (C39), it never shows a file that is no longer the pairing. *)
Theorem reachable_listbox_current w0 s :
  reachable w0 s ->
  exists sa, Forall (fun a => a ∈ array_A) sa /\ listbox s = file_list_lines sa (selected_files s).
Proof.
  induction 1 as [|s e Hr (sa & Hsa & Hl)]; [by exists []|].
  destruct (handle_listbox s e) as [[-> ->]|[t ->]]; [by exists sa|].
  exists (selected_a t). split; [|done].
  apply Forall_forall. intros a Ha. by eapply selected_a_elem.
Qed.
End FileList.

Lemma reachable_listbox_current_witness :
  let w0 := mk_world (D := rp_dialog) ∅ [] in
  let s := run (init_state w0) [StartFunction 1; ToggleA 0; SelectFile "d/r100.txt"] in
  reachable w0 s /\
  exists sa, Forall (fun a => a ∈ array_A) sa /\ listbox s = file_list_lines sa (selected_files s).
Proof.
  intros w0 s. assert (Hr : reachable w0 s) by (apply reachable_run, reach_init).
  split; [exact Hr | exact (reachable_listbox_current w0 s Hr)].
Defined.

(** C39 (functional). The A check boxes have no [command] (line 79):
    ticking or unticking the i-th box adds or removes [array_A[i]] from
    the ticked elements, but the list box and the pairs stay as they
    were, so the list shows elements that are no longer ticked and omits
    newly ticked ones until a file is chosen or the selection reset. *)
Theorem toggle_a_list_stale s i a v :
  running s = true -> processing_open s = true ->
  array_A !! i = Some a -> a_vars s !! i = Some v ->
  (a ∈ selected_a (handle s (ToggleA i)) <-> v = false) /\
  listbox (handle s (ToggleA i)) = listbox s /\
  selected_files (handle s (ToggleA i)) = selected_files s.
Proof.
  intros Hrun Hopen Ha Hv. unfold handle. rewrite Hrun, Hopen. simpl. split_and!; [|done|done].
  rewrite (selected_a_iff _ _ _ Ha). simpl. rewrite list_lookup_alter_eq, Hv.
  destruct v; simpl; split; congruence.
Qed.

Lemma toggle_a_list_stale_witness :
  let s := run (init_state (mk_world ∅ [])) [StartFunction 1; ToggleA 0; SelectFile "d/r100.txt"] in
  running s = true /\ processing_open s = true /\ array_A !! 0%nat = Some 100%Z /\
  a_vars s !! 0%nat = Some true /\
  ((100%Z ∈ selected_a (handle s (ToggleA 0)) <-> true = false) /\
   listbox (handle s (ToggleA 0)) = listbox s /\
   selected_files (handle s (ToggleA 0)) = selected_files s).
Proof.
  intros s.
  assert (H1 : running s = true) by reflexivity. assert (H2 : processing_open s = true) by reflexivity.
  assert (H3 : array_A !! 0%nat = Some 100%Z) by reflexivity.
  assert (H4 : a_vars s !! 0%nat = Some true) by reflexivity.
  do 4 (split; [assumption|]). exact (toggle_a_list_stale s 0 100 true H1 H2 H3 H4).
Defined.
