(* ===== verification/ColumnExtractor.v ===== *)
(** * ColumnExtractor: [src/column_extractor.py]

    The column extractor copies the [n]-th whitespace-separated field of
    every non-blank line of a text file into a new file, one field per
    line, and writes ["error"] for a line with fewer fields.
    - [extract_column] (lines 6-21) is the copy, on the files of the world
      of [PyIO]; it catches every exception, shows it in a box and returns
      [false].
    - [process_file] (lines 76-104) is one round of the batch loop of
      [on_confirm]: the first-line precheck, the output name
      [<root>_column_<n>.txt], the overwrite question and the counters;
      [process_files] is the loop (line 75).
    - [validate_column] (lines 37-45), [on_confirm] (lines 47-113) and
      [ce_handle] model the dialog of [gui_mode] as a transition function
      on [ce_state]: the events are the edits of the entry, the confirm
      button with the answers of the file dialogs, and the window's close
      button.
    - [ce_main] is the command-line entry (lines 119-134).
    The last section proves which files the two modes can write.

    The text of the messages (Chinese in the code) is kept as data:
    [ce_msg] is an entry of [error_messages], [ce_output] a message box or
    the usage line printed by the command-line mode.  The answers of
    [askyesno] come from an oracle [answer : nat -> bool], the answer to
    the k-th question of the batch. *)

From S2P Require Import Prelude PyText PyFloat PyIO.
From stdpp Require Import gmap.

Local Open Scope string_scope.

(** An entry of [error_messages] (lines 84, 101 and 104). *)
Inductive ce_msg :=
| MaxColumns (name : string) (n : nat)
| ProcessFailed (name : string)
| ExcMsg (name : string) (e : py_exc).

(** What the script shows: the boxes of lines 20, 44, 93 and 111, and the
    usage line of line 130. *)
Inductive ce_output :=
| ExtractError (e : py_exc)
| InvalidColumn
| AskOverwrite (name : string)
| BatchSummary (success error : nat) (msgs : list ce_msg)
| Usage.

Abbreviation ce_io := (io ce_output).

(** ** [extract_column] *)

(** Lines 11-17: what one line of the input adds to the output. *)
Definition extract_line (output_file : string) (column_num : Z) (line : string) : ce_io unit :=
  let line := py_strip line in
  if decide (line = EmptyString) then mret tt else
  let columns := py_split_ws line in
  if decide (column_num <= Z.of_nat (length columns))%Z then
    c ← io_lift (py_getitem columns (column_num - 1));
    write_str output_file (c +:+ str1 nl)
  else write_str output_file ("error" +:+ str1 nl).

(** Lines 6-21.  The input is opened before the output is truncated and
    its lines are read afterwards, so an input that is also the output
    reads as empty. *)
Definition extract_column (input_file output_file : string) (column_num : Z) : ce_io bool :=
  io_try
    (_ ← read_file input_file;
     open_write output_file;;
     s ← read_file input_file;
     io_iter (extract_line output_file column_num) (py_readlines s);;
     mret true)
    (fun e => show (ExtractError e);; mret false).

(** ** The batch of [on_confirm] *)

(** [os.path.splitext(name)[0]] for a name without slash: the part before
    the last dot, unless only dots precede that dot. *)
Definition splitext_root (name : string) : string :=
  let parts := removelast (py_split_sep "."%char name) in
  if existsb (fun p => negb (bool_decide (p = EmptyString))) parts
  then py_join "." parts else name.

(** Line 88. *)
Definition output_filename (input_filename : string) (column_num : Z) : string :=
  splitext_root input_filename +:+ "_column_" +:+ str_of_Z column_num +:+ ".txt".

(** Lines 80-81: the number of fields of the first line. *)
Definition first_line_columns (s : string) : nat :=
  let first_line := py_strip (default EmptyString (head (py_readlines s))) in
  if decide (first_line = EmptyString) then 0 else length (py_split_ws first_line).

(** The counters of lines 71-73, and the number of questions asked. *)
Record batch := mk_batch {
  success_count : nat;
  error_count : nat;
  error_messages : list ce_msg;
  asked : nat
}.

Definition batch0 : batch := mk_batch 0 0 [] 0.

Definition add_error (st : batch) (m : ce_msg) : batch :=
  mk_batch (success_count st) (S (error_count st)) (error_messages st ++ [m]) (asked st).

Definition add_success (st : batch) : batch :=
  mk_batch (S (success_count st)) (error_count st) (error_messages st) (asked st).

Definition note_asked (st : batch) : batch :=
  mk_batch (success_count st) (error_count st) (error_messages st) (S (asked st)).

Section Batch.
(** The answers to the overwrite questions, in the order they are asked. *)
Variable answer : nat -> bool.
Variable output_dir : string.
Variable column_num : Z.

(** Lines 97-101: the extraction and its count. *)
Definition extract_counted (input_file output_path : string) (st : batch) : ce_io batch :=
  ok ← extract_column input_file output_path column_num;
  mret (if (ok : bool) then add_success st else add_error st (ProcessFailed (basename input_file))).

(** Lines 76-104: one input file.  Only opening the input can raise, before
    any counter changes. *)
Definition process_file (st : batch) (input_file : string) : ce_io batch :=
  let input_filename := basename input_file in
  io_try
    (s ← read_file input_file;
     let max_columns := first_line_columns s in
     if decide (Z.of_nat max_columns < column_num)%Z
     then mret (add_error st (MaxColumns input_filename max_columns)) else
     let ofn := output_filename input_filename column_num in
     let output_path := path_join output_dir ofn in
     ex ← path_exists output_path;
     if (ex : bool) then
       show (AskOverwrite ofn);;
       if answer (asked st) then extract_counted input_file output_path (note_asked st)
       else mret (note_asked st)
     else extract_counted input_file output_path st)
    (fun e => mret (add_error st (ExcMsg input_filename e))).

(** Line 75. *)
Fixpoint process_files (st : batch) (input_files : list string) : ce_io batch :=
  match input_files with
  | [] => mret st
  | f :: fs => st' ← process_file st f; process_files st' fs
  end.
End Batch.

(** ** The dialog of [gui_mode] *)

(** Lines 37-45. *)
Definition validate_column (entry : string) : ce_io (option Z) :=
  match py_int entry with
  | Ok n => if decide (n < 1)%Z then show InvalidColumn;; mret None else mret (Some n)
  | Raise (ValueError _) => show InvalidColumn;; mret None
  | Raise e => io_raise e
  end.

(** How [on_confirm] ends: the dialog stays (an invalid column), the
    dialog is gone but the process runs on (a file dialog was cancelled),
    or the process exits (line 113). *)
Inductive confirm_outcome := KeepDialog | DialogClosed | Exited.

(** Lines 47-113, with the answers of the two file dialogs and of the
    overwrite questions. *)
Definition on_confirm (entry : string) (input_files : list string) (output_dir : string)
    (answer : nat -> bool) : ce_io confirm_outcome :=
  cn ← validate_column entry;
  match cn with
  | None => mret KeepDialog
  | Some column_num =>
      if decide (input_files = []) then mret DialogClosed else
      if decide (output_dir = EmptyString) then mret DialogClosed else
      st ← process_files answer output_dir column_num batch0 input_files;
      show (BatchSummary (success_count st) (error_count st) (error_messages st));;
      mret Exited
  end.

(** The process of [gui_mode]: the root window is withdrawn (line 25), so
    the column dialog is the only window that takes events. *)
Record ce_state := mk_ce {
  ce_world : world ce_output;
  entry : string;
  dialog_open : bool;
  alive : bool
}.

(** Line 35: the entry starts with ["2"]. *)
Definition ce_init (w : world ce_output) : ce_state := mk_ce w "2" true true.

Inductive ce_event :=
| EditEntry (text : string)
| Confirm (input_files : list string) (output_dir : string) (answer : nat -> bool)
| CloseDialog.

(** One event.  Without a visible window nothing reaches the program. *)
Definition ce_handle (s : ce_state) (ev : ce_event) : ce_state :=
  if negb (alive s && dialog_open s) then s else
  match ev with
  | EditEntry t => mk_ce (ce_world s) t true true
  | CloseDialog => mk_ce (ce_world s) (entry s) false true
  | Confirm fs dir answer =>
      match on_confirm (entry s) fs dir answer (ce_world s) with
      | (Ok KeepDialog, w) => mk_ce w (entry s) true true
      | (Ok DialogClosed, w) => mk_ce w (entry s) false true
      | (Ok Exited, w) => mk_ce w (entry s) false false
      | (Raise _, w) => mk_ce w (entry s) (dialog_open s) true
      end
  end.

Definition ce_run (s : ce_state) (evs : list ce_event) : ce_state := foldl ce_handle s evs.

(** ** The command line *)

(** Lines 119-134: [Some code] is the exit status of the command-line mode,
    [None] the start of [gui_mode].  [extract_column] reports its own
    failures in a box. *)
Definition ce_main (argv : list string) : ce_io (option Z) :=
  match argv with
  | [_; arg1; input_file; output_file] =>
      io_try
        (column_num ← io_lift (py_int arg1);
         if decide (column_num < 1)%Z then io_raise (ValueError EmptyString) else
         extract_column input_file output_file column_num;;
         mret (Some 0%Z))
        (fun e => match e with
                  | ValueError _ | IndexError => show Usage;; mret (Some 1%Z)
                  | _ => io_raise e
                  end)
  | _ => mret None
  end.

(** ** The contract of [extract_column] *)

Definition is_ask (d : ce_output) : bool := match d with AskOverwrite _ => true | _ => false end.

(** The number of overwrite questions among the boxes [ds]. *)
Definition asks (ds : list ce_output) : nat := length (List.filter is_ask ds).


(** A table written with one space between cells, one row per line. *)
Definition render_rows (rows : list (list string)) : string :=
  foldr String.append EmptyString ((fun row => py_join (str1 " "%char) row +:+ str1 nl) <$> rows).

Definition table_row (row : list string) : Prop := row <> [] /\ Forall plain row.

(** The line written for a row: its [n]-th cell, or ["error"]. *)
Definition out_cell (n : nat) (row : list string) : string :=
  default "error" (row !! (n - 1)) +:+ str1 nl.

(** ** Lemmas *)

Lemma extract_line_row out n row (w : world ce_output) :
  (1 <= n)%nat -> table_row row ->
  extract_line out (Z.of_nat n) (py_join (str1 " "%char) row +:+ str1 nl) w = (Ok tt, appended out (out_cell n row) w).
Proof.
  intros Hn [Hne Hpl]. unfold extract_line.
  rewrite py_strip_join_nl by done.
  rewrite decide_False by (destruct row; [done|]; inversion Hpl as [|? ? [? _]]; by apply py_join_cons_nonempty).
  rewrite py_split_ws_join by done. unfold out_cell.
  case_decide as Hle.
  - destruct (lookup_lt_is_Some_2 row (n - 1)) as [c Hc]; [lia|].
    replace (Z.of_nat n - 1)%Z with (Z.of_nat (n - 1)) by lia.
    erewrite io_bind_Ok by (unfold io_lift; by rewrite (py_getitem_lookup _ _ _ Hc)).
    by rewrite Hc.
  - rewrite lookup_ge_None_2 by lia. done.
Qed.

Lemma readlines_render_rows rows :
  Forall table_row rows ->
  py_readlines (render_rows rows) = (fun row => py_join (str1 " "%char) row +:+ str1 nl) <$> rows.
Proof.
  intros Hrows. unfold render_rows.
  assert (E : (fun row => py_join (str1 " "%char) row +:+ str1 nl) <$> rows =
              (fun l => l +:+ str1 nl) <$> (py_join (str1 " "%char) <$> rows))
    by (by rewrite <- list_fmap_compose).
  rewrite E. apply py_readlines_lines.
  apply Forall_fmap. eapply Forall_impl; [done|]. intros row [_ Hpl]. simpl.
  apply no_sep_join; [done|]. eapply Forall_impl; eauto with py.
Qed.

(** C17 (functional). On an input that is a table of whitespace-free
    cells, [extract_column] with [n >= 1] returns [True], shows nothing,
    and leaves every file as it was except the output, which holds the
    [n]-th cell of every row, or ["error"] for a row with fewer than [n]
    cells, one per line. *)
Theorem extract_column_rows input output n rows (w : world ce_output) :
  (1 <= n)%nat -> Forall table_row rows ->
  files w !! input = Some (render_rows rows) -> input <> output ->
  extract_column input output (Z.of_nat n) w =
    (Ok true, mk_world (<[output := foldr String.append EmptyString (out_cell n <$> rows)]> (files w)) (shown w)).
Proof.
  intros Hn Hrows Hin Hne. unfold extract_column. apply io_try_Ok.
  erewrite io_bind_Ok by (by apply read_file_Some).
  erewrite io_bind_Ok by reflexivity.
  erewrite io_bind_Ok by (apply read_file_Some; simpl; by rewrite lookup_insert_ne).
  rewrite readlines_render_rows by done.
  erewrite io_bind_Ok; [|apply io_iter_appended; [simpl; by rewrite lookup_insert_eq |]].
  - destruct w as [fs sh]. simpl. by rewrite appended_open.
  - intros row w' Hrow. apply extract_line_row; [done|]. by eapply Forall_forall.
Qed.

Lemma extract_column_rows_witness :
  extract_column "in.txt" "out.txt" 2 (mk_world {[ "in.txt" := render_rows [["1"; "2"; "3"]; ["4"]] ]} []) =
    (Ok true, mk_world (<[ "out.txt" := "2" +:+ str1 nl +:+ "error" +:+ str1 nl ]>
                         {[ "in.txt" := render_rows [["1"; "2"; "3"]; ["4"]] ]}) []).
Proof.
  change 2%Z with (Z.of_nat 2).
  rewrite (extract_column_rows "in.txt" "out.txt" 2 [["1"; "2"; "3"]; ["4"]]);
    [reflexivity | lia | | reflexivity | discriminate].
  repeat (constructor || split || discriminate || reflexivity).
Defined.

Lemma extract_line_quiet out n line : quiet (extract_line out n line).
Proof. unfold extract_line. repeat case_decide; auto with py. Qed.

#[local] Hint Resolve extract_line_quiet : py.

(** [extract_column] catches everything: it returns a boolean, and the only
    box it shows is the error of a failed extraction. *)
Lemma extract_column_Ok input output n (w : world ce_output) :
  exists b fs ds, extract_column input output n w = (Ok b, mk_world fs (shown w ++ ds)) /\ asks ds = 0.
Proof.
  unfold extract_column, io_try.
  match goal with |- context [match ?c w with _ => _ end] =>
    assert (Hq : quiet c) by (repeat (apply quiet_bind; [auto with py | intros]); auto with py);
    pose proof (quiet_run c w Hq) as E; destruct (c w) as [[x|e] [fs sh]] end;
  simpl in E; injection E as ->.
  - exists x, fs, []. by rewrite app_nil_r.
  - by exists false, fs, [ExtractError e].
Qed.

(** The exit status the code means: 0 when the column argument is a
    positive integer, 1 otherwise. *)
Definition valid_column (arg : string) : bool :=
  match py_int arg with Ok n => bool_decide (1 <= n)%Z | Raise _ => false end.

(** C18 (safety). On the command line, naming the same file as input and
    output empties that file: it is truncated before it is read, so
    nothing is extracted, no box is shown, and the exit status is 0. *)
Theorem ce_main_same_file prog arg p s n (w : world ce_output) :
  py_int arg = Ok n -> (1 <= n)%Z -> files w !! p = Some s ->
  ce_main [prog; arg; p; p] w = (Ok (Some 0%Z), mk_world (<[p := EmptyString]> (files w)) (shown w)).
Proof.
  intros Harg Hn Hp. unfold ce_main. apply io_try_Ok.
  erewrite io_bind_Ok by (unfold io_lift; by rewrite Harg).
  rewrite decide_False by lia.
  erewrite io_bind_Ok; [reflexivity|]. unfold extract_column. apply io_try_Ok.
  erewrite io_bind_Ok by (by apply read_file_Some).
  erewrite io_bind_Ok by reflexivity.
  erewrite io_bind_Ok by (apply read_file_Some; simpl; by rewrite lookup_insert_eq).
  reflexivity.
Qed.

Lemma ce_main_same_file_witness :
  ce_main ["column_extractor.py"; "2"; "data.txt"; "data.txt"]
    (mk_world {[ "data.txt" := render_rows [["1"; "2"]] ]} []) =
  (Ok (Some 0%Z), mk_world (<[ "data.txt" := EmptyString ]> {[ "data.txt" := render_rows [["1"; "2"]] ]}) []).
Proof. apply (ce_main_same_file _ _ _ (render_rows [["1"; "2"]]) 2); [reflexivity | lia | reflexivity]. Defined.

(** C20 (error). The exit status of the command-line mode depends only on
    the column argument: 1 (after the usage line) when it is not a
    positive integer, and 0 otherwise, also when the input file is missing
    and nothing was extracted. *)
Theorem ce_main_exit_status prog arg input output (w : world ce_output) :
  fst (ce_main [prog; arg; input; output] w) = Ok (Some (if valid_column arg then 0 else 1)%Z).
Proof.
  unfold ce_main, valid_column. cbn iota beta. unfold io_try.
  destruct (py_int_cases arg) as [[n Hn]|Hn]; rewrite Hn; [|done].
  erewrite io_bind_Ok by reflexivity.
  case_decide; [rewrite bool_decide_eq_false_2 by lia; done|].
  rewrite bool_decide_eq_true_2 by lia.
  destruct (extract_column_Ok input output n w) as (b & fs & ds & Hx & _).
  by erewrite io_bind_Ok by exact Hx.
Qed.

(** ** The batch counts every file once *)

(** The number of "no" among the first [k] answers. *)
Definition declined (answer : nat -> bool) (k : nat) : nat :=
  length (List.filter (fun i => negb (answer i)) (seq 0 k)).

Definition tally (answer : nat -> bool) (st : batch) : nat :=
  success_count st + error_count st + declined answer (asked st).

Lemma declined_S answer k : declined answer (S k) = declined answer k + (if answer k then 0 else 1).
Proof. unfold declined. rewrite seq_S, List.filter_app, length_app. simpl. destruct (answer k); simpl; lia. Qed.

Lemma asks_ask name ds : asks (AskOverwrite name :: ds) = S (asks ds).
Proof. done. Qed.

Lemma asks_app ds1 ds2 : asks (ds1 ++ ds2) = asks ds1 + asks ds2.
Proof. unfold asks. by rewrite List.filter_app, length_app. Qed.

Lemma extract_counted_Ok n input output st (w : world ce_output) :
  exists (b : bool) fs ds,
    extract_counted n input output st w =
      (Ok (if b then add_success st else add_error st (ProcessFailed (basename input))),
       mk_world fs (shown w ++ ds)) /\ asks ds = 0.
Proof.
  unfold extract_counted.
  destruct (extract_column_Ok input output n w) as (b & fs & ds & Hx & Hds).
  erewrite io_bind_Ok by exact Hx. by exists b, fs, ds.
Qed.

(** What a round of the batch does to the tally and the boxes. *)
Definition round_ok (answer : nat -> bool) (st : batch) (w : world ce_output)
    (r : res batch * world ce_output) : Prop :=
  exists st' fs ds, r = (Ok st', mk_world fs (shown w ++ ds)) /\
    asked st' = asked st + asks ds /\ tally answer st' = S (tally answer st).

Ltac tally_arith :=
  unfold tally, add_error, add_success, note_asked in *; cbn [success_count error_count asked] in *;
  rewrite ?declined_S;
  repeat match goal with H : ?answer _ = _ |- _ => rewrite H end; simpl; lia.

Lemma round_ok_extract answer n input output st (w : world ce_output) :
  round_ok answer st w (extract_counted n input output st w).
Proof.
  destruct (extract_counted_Ok n input output st w) as (b & fs & ds & -> & Hds).
  eexists _, fs, ds. split_and!; [done | destruct b; simpl; lia | destruct b; tally_arith].
Qed.

Lemma round_ok_here answer st st' (w : world ce_output) :
  tally answer st' = S (tally answer st) -> asked st' = asked st ->
  round_ok answer st w (Ok st', w).
Proof. intros Ht Ha. exists st', (files w), []. rewrite app_nil_r. destruct w. split_and!; [done | unfold asks; simpl; lia | done]. Qed.

(** Every round counts its file once: as a success, a failure, or a
    declined overwrite. *)
Lemma process_file_ok answer dir n st f (w : world ce_output) :
  round_ok answer st w (process_file answer dir n st f w).
Proof.
  unfold process_file, io_try.
  destruct (files w !! f) as [s|] eqn:Hf.
  - erewrite io_bind_Ok by (by apply read_file_Some).
    case_decide; [apply round_ok_here; [tally_arith | done]|].
    erewrite io_bind_Ok by reflexivity.
    destruct (bool_decide _); [erewrite io_bind_Ok by reflexivity; destruct (answer (asked st)) eqn:Ha|].
    + destruct (round_ok_extract answer n f (path_join dir (output_filename (basename f) n)) (note_asked st)
        (mk_world (files w) (shown w ++ [AskOverwrite (output_filename (basename f) n)])))
        as (st' & fs & ds & -> & Hasked & Ht).
      exists st', fs, (AskOverwrite (output_filename (basename f) n) :: ds).
      cbn [shown]. rewrite <- app_assoc, asks_ask. split_and!; [done | rewrite Hasked; simpl; lia | rewrite Ht; tally_arith].
    + exists (note_asked st), (files w), [AskOverwrite (output_filename (basename f) n)].
      split_and!; [done | rewrite asks_ask; unfold asks; simpl; lia | tally_arith].
    + destruct (round_ok_extract answer n f (path_join dir (output_filename (basename f) n)) st w)
        as (st' & fs & ds & E & Hr).
      rewrite E. by exists st', fs, ds.
  - erewrite io_bind_Raise by (by apply read_file_None). apply round_ok_here; [tally_arith | done].
Qed.

Lemma process_files_ok answer dir n fs st (w : world ce_output) :
  exists st' fs' ds, process_files answer dir n st fs w = (Ok st', mk_world fs' (shown w ++ ds)) /\
    asked st' = asked st + asks ds /\ tally answer st' = tally answer st + length fs.
Proof.
  revert st w; induction fs as [|f fs IH]; intros st w; simpl.
  - exists st, (files w), []. rewrite app_nil_r. destruct w. split_and!; [done | unfold asks; simpl; lia | lia].
  - destruct (process_file_ok answer dir n st f w) as (st1 & fs1 & ds1 & H1 & Ha1 & Ht1).
    erewrite io_bind_Ok by exact H1.
    destruct (IH st1 (mk_world fs1 (shown w ++ ds1))) as (st2 & fs2 & ds2 & -> & Ha2 & Ht2).
    exists st2, fs2, (ds1 ++ ds2)%list. rewrite app_assoc, asks_app. simpl in *. split_and!; [done | lia | lia].
Qed.

(** [validate_column] on every branch: a positive integer passes silently,
    anything else shows the invalid-column box. *)
Lemma validate_column_spec entry (w : world ce_output) :
  validate_column entry w =
    match py_int entry with
    | Ok n => if decide (1 <= n)%Z then (Ok (Some n), w) else (Ok None, mk_world (files w) (shown w ++ [InvalidColumn])%list)
    | Raise _ => (Ok None, mk_world (files w) (shown w ++ [InvalidColumn])%list)
    end.
Proof.
  unfold validate_column. destruct (py_int_cases entry) as [[n Hn]|Hn]; rewrite Hn; [|done].
  by case_decide; [rewrite decide_False by lia | rewrite decide_True by lia].
Qed.

(** C19 (invariant). Confirming a positive column with files and an output
    folder chosen ends the process after one summary box, and the summary
    accounts for every selected file exactly once: the successes, the
    failures and the overwrite questions answered "no" among the boxes
    shown during the batch add up to the number of files. *)
Theorem confirm_counts s fs dir answer n :
  alive s = true -> dialog_open s = true -> py_int (entry s) = Ok n -> (1 <= n)%Z ->
  fs <> [] -> dir <> EmptyString ->
  exists succ err msgs ds,
    alive (ce_handle s (Confirm fs dir answer)) = false /\
    shown (ce_world (ce_handle s (Confirm fs dir answer))) =
      (shown (ce_world s) ++ ds ++ [BatchSummary succ err msgs])%list /\
    succ + err + declined answer (asks ds) = length fs.
Proof.
  intros Hal Hop Hn Hpos Hfs Hdir. unfold ce_handle. rewrite Hal, Hop. cbn [negb andb]. unfold on_confirm.
  erewrite io_bind_Ok by (rewrite validate_column_spec, Hn, decide_True by done; reflexivity).
  cbv beta iota. rewrite !decide_False by done.
  destruct (process_files_ok answer dir n fs batch0 (ce_world s)) as (st & fs' & ds & Hp & Ha & Ht).
  erewrite io_bind_Ok by exact Hp.
  exists (success_count st), (error_count st), (error_messages st), ds. simpl.
  split_and!; [done | by rewrite <- app_assoc |].
  unfold tally in Ht. simpl in Ha, Ht. rewrite Ha in Ht. lia.
Qed.

Lemma confirm_counts_witness :
  let s := ce_init (mk_world {[ "d/a.txt" := render_rows [["1"; "2"]] ]} []) in
  exists succ err msgs ds,
    alive (ce_handle s (Confirm ["d/a.txt"; "d/b.txt"] "out" (fun _ => true))) = false /\
    shown (ce_world (ce_handle s (Confirm ["d/a.txt"; "d/b.txt"] "out" (fun _ => true)))) =
      (shown (ce_world s) ++ ds ++ [BatchSummary succ err msgs])%list /\
    succ + err + declined (fun _ => true) (asks ds) = length ["d/a.txt"; "d/b.txt"].
Proof.
  intros s. apply (confirm_counts s _ _ _ 2); [reflexivity | reflexivity | reflexivity | lia | discriminate | discriminate].
Defined.

(** ** The first-line precheck *)

Lemma first_line_columns_blank b rest : blank b -> no_sep nl b -> first_line_columns (b +:+ String nl rest) = 0.
Proof.
  intros Hb Hnl. unfold first_line_columns, py_readlines.
  rewrite readlines_from_app by done. cbn [head default id].
  unfold py_strip. rewrite str_app_nil_l, py_lstrip_blank_app by done.
  by rewrite decide_True.
Qed.

(** C23 (error). The batch judges a file by its first line only: when that
    line is blank, a file is rejected as having 0 columns for every
    column number, whatever the rest of the file holds; no output is
    written and no box is shown. *)
Theorem process_file_blank_first_line answer dir n st f b rest (w : world ce_output) :
  (1 <= n)%Z -> blank b -> no_sep nl b -> files w !! f = Some (b +:+ String nl rest) ->
  process_file answer dir n st f w = (Ok (add_error st (MaxColumns (basename f) 0)), w).
Proof.
  intros Hn Hb Hnl Hf. unfold process_file, io_try.
  erewrite io_bind_Ok by (by apply read_file_Some).
  rewrite first_line_columns_blank by done. by rewrite decide_True by lia.
Qed.

(** A file that starts with an empty line before a table. *)
Lemma process_file_blank_first_line_witness :
  process_file (fun _ => true) "out" 2 batch0 "d/t.txt"
    (mk_world {[ "d/t.txt" := String nl (render_rows [["1"; "2"; "3"]]) ]} []) =
  (Ok (add_error batch0 (MaxColumns "t.txt" 0)),
   mk_world {[ "d/t.txt" := String nl (render_rows [["1"; "2"; "3"]]) ]} []).
Proof.
  rewrite (process_file_blank_first_line _ _ _ _ _ EmptyString (render_rows [["1"; "2"; "3"]]));
    [reflexivity | lia | reflexivity | reflexivity | reflexivity].
Defined.

(** ** The output name *)

(** C24 (safety). The output name of a file is never the file's own name,
    so a batch whose output folder is the input folder does not truncate
    the input it is reading. *)
Theorem output_filename_fresh name n : output_filename name n <> name.
Proof.
  unfold output_filename, splitext_root.
  destruct (existsb _ _) eqn:Hex.
  - set (ps := py_split_sep "."%char name) in *.
    assert (Hps : ps <> []) by apply split_sep_from_nonempty.
    assert (Hparts : removelast ps <> []) by (intros E; by rewrite E in Hex).
    intros Heq. pose proof (py_join_split_sep "."%char name) as Hj. fold ps in Hj.
    rewrite (app_removelast_last "" Hps), py_join_snoc in Hj by done.
    rewrite <- Hj in Heq. apply str_app_inj_l in Heq. discriminate.
  - intros Heq. apply (f_equal String.length) in Heq. rewrite !str_length_app in Heq.
    simpl in Heq. lia.
Qed.

(** ** A process without a window *)

(** Once the dialog is gone, no event reaches the program. *)
Lemma ce_run_closed s evs : dialog_open s = false -> ce_run s evs = s.
Proof.
  intros Hc. unfold ce_run. induction evs as [|ev evs IH]; [done|]. simpl.
  unfold ce_handle at 2. rewrite Hc, andb_false_r. apply IH.
Qed.

(** C21 (liveness). Closing the column dialog, or confirming a valid
    column and then cancelling either file dialog, destroys the only
    visible window without ending the process: the withdrawn root window
    keeps [mainloop] running, and no later event can end it. *)
Theorem ce_cancel_hangs s ev fs dir answer n :
  alive s = true -> dialog_open s = true -> py_int (entry s) = Ok n -> (1 <= n)%Z ->
  ev ∈ [CloseDialog; Confirm [] dir answer; Confirm fs EmptyString answer] ->
  alive (ce_handle s ev) = true /\ dialog_open (ce_handle s ev) = false /\
  forall evs, ce_run (ce_handle s ev) evs = ce_handle s ev.
Proof.
  intros Hal Hop Hn Hpos Hev.
  assert (Hcl : alive (ce_handle s ev) = true /\ dialog_open (ce_handle s ev) = false).
  { unfold ce_handle. rewrite Hal, Hop. cbn [negb andb].
    apply elem_of_cons in Hev as [->|Hev]; [split; reflexivity|].
    assert (Hv : validate_column (entry s) (ce_world s) = (Ok (Some n), ce_world s))
      by (rewrite validate_column_spec, Hn, decide_True by done; reflexivity).
    apply elem_of_cons in Hev as [->|Hev%list_elem_of_singleton]; [|subst ev];
      unfold on_confirm; erewrite io_bind_Ok by exact Hv; cbv beta iota.
    - rewrite decide_True by done. split; reflexivity.
    - destruct (decide (fs = [])); [split; reflexivity|].
      rewrite decide_True by done. split; reflexivity. }
  destruct Hcl as [Ha Hc]. split_and!; [done | done |]. intros evs. by apply ce_run_closed.
Qed.

Lemma ce_cancel_hangs_witness :
  let s := ce_init (mk_world ∅ []) in
  alive (ce_handle s (Confirm [] "out" (fun _ => true))) = true /\
  dialog_open (ce_handle s (Confirm [] "out" (fun _ => true))) = false /\
  forall evs, ce_run (ce_handle s (Confirm [] "out" (fun _ => true))) evs = ce_handle s (Confirm [] "out" (fun _ => true)).
Proof.
  intros s. apply (ce_cancel_hangs s _ [] "out" (fun _ => true) 2); [reflexivity | reflexivity | reflexivity | lia |].
  apply elem_of_cons. right. apply elem_of_cons. by left.
Defined.

(** ** Two inputs, one output *)

Lemma extract_counted_rows n input output rows st (w : world ce_output) :
  (1 <= n)%nat -> Forall table_row rows -> files w !! input = Some (render_rows rows) -> input <> output ->
  extract_counted (Z.of_nat n) input output st w =
    (Ok (add_success st),
     mk_world (<[output := foldr String.append EmptyString (out_cell n <$> rows)]> (files w)) (shown w)).
Proof. intros. unfold extract_counted. by erewrite io_bind_Ok by (by apply extract_column_rows). Qed.

(** One round of the batch on a table with enough columns: a fresh output
    is written; an existing one is overwritten or kept as the answer says,
    after the question. *)
Lemma process_file_table answer dir n st f rows (w : world ce_output) :
  (1 <= n)%nat -> Forall table_row rows -> (n <= first_line_columns (render_rows rows))%nat ->
  files w !! f = Some (render_rows rows) ->
  f <> path_join dir (output_filename (basename f) (Z.of_nat n)) ->
  process_file answer dir (Z.of_nat n) st f w =
    let ofn := output_filename (basename f) (Z.of_nat n) in
    let out := path_join dir ofn in
    let written := <[out := foldr String.append EmptyString (out_cell n <$> rows)]> (files w) in
    if bool_decide (is_Some (files w !! out)) then
      if answer (asked st)
      then (Ok (add_success (note_asked st)), mk_world written (shown w ++ [AskOverwrite ofn]))
      else (Ok (note_asked st), mk_world (files w) (shown w ++ [AskOverwrite ofn]))
    else (Ok (add_success st), mk_world written (shown w)).
Proof.
  intros Hn Hrows Hcols Hf Hne. unfold process_file, io_try.
  erewrite io_bind_Ok by (by apply read_file_Some).
  rewrite decide_False by lia. erewrite io_bind_Ok by reflexivity. cbv zeta.
  destruct (bool_decide _).
  - erewrite io_bind_Ok by reflexivity. destruct (answer (asked st)); [|done].
    by rewrite (extract_counted_rows _ _ _ rows).
  - by rewrite (extract_counted_rows _ _ _ rows).
Qed.

(** C22 (safety). Two inputs whose names differ only in the extension
    (["a.txt"] and ["a.csv"]) share one output name.  When both are tables
    with enough columns, the output does not exist and the first overwrite
    question is answered yes, the batch writes the output for the first,
    asks about the file it has just written, overwrites it with the second
    extraction, and counts two successes although one output file holds
    only the second file's column. *)
Theorem confirm_name_collision answer dir n f1 f2 rows1 rows2 (w : world ce_output) :
  (1 <= n)%nat -> Forall table_row rows1 -> Forall table_row rows2 ->
  (n <= first_line_columns (render_rows rows1))%nat -> (n <= first_line_columns (render_rows rows2))%nat ->
  splitext_root (basename f1) = splitext_root (basename f2) ->
  files w !! f1 = Some (render_rows rows1) -> files w !! f2 = Some (render_rows rows2) ->
  files w !! path_join dir (output_filename (basename f1) (Z.of_nat n)) = None ->
  f1 <> path_join dir (output_filename (basename f1) (Z.of_nat n)) ->
  f2 <> path_join dir (output_filename (basename f1) (Z.of_nat n)) ->
  answer 0%nat = true ->
  process_files answer dir (Z.of_nat n) batch0 [f1; f2] w =
    (Ok (mk_batch 2 0 [] 1),
     mk_world (<[path_join dir (output_filename (basename f1) (Z.of_nat n)) :=
                   foldr String.append EmptyString (out_cell n <$> rows2)]> (files w))
              (shown w ++ [AskOverwrite (output_filename (basename f1) (Z.of_nat n))])).
Proof.
  intros Hn Hr1 Hr2 Hc1 Hc2 Hroot Hf1 Hf2 Hout Hne1 Hne2 Hans.
  assert (Hname : output_filename (basename f2) (Z.of_nat n) = output_filename (basename f1) (Z.of_nat n))
    by (unfold output_filename; by rewrite Hroot).
  cbn [process_files].
  erewrite io_bind_Ok; [|rewrite (process_file_table _ _ _ _ _ rows1) by done; cbv zeta;
    rewrite bool_decide_eq_false_2 by (rewrite Hout; apply is_Some_None); reflexivity].
  erewrite io_bind_Ok.
  2: { rewrite (process_file_table _ _ _ _ _ rows2);
         [| done .. | simpl; by rewrite lookup_insert_ne | by rewrite Hname].
       cbv zeta. rewrite Hname. simpl. rewrite lookup_insert_eq, bool_decide_eq_true_2 by done.
       simpl. rewrite Hans. reflexivity. }
  simpl. by rewrite insert_insert_eq.
Qed.

Lemma confirm_name_collision_witness :
  let w : world ce_output := mk_world {[ "d/a.txt" := render_rows [["1"; "2"]]; "d/a.csv" := render_rows [["3"; "4"]] ]} [] in
  process_files (fun _ => true) "out" (Z.of_nat 2) batch0 ["d/a.txt"; "d/a.csv"] w =
    (Ok (mk_batch 2 0 [] 1),
     mk_world (<[path_join "out" (output_filename (basename "d/a.txt") (Z.of_nat 2)) :=
                   foldr String.append EmptyString (out_cell 2 <$> [["3"; "4"]])]> (files w))
              (shown w ++ [AskOverwrite (output_filename (basename "d/a.txt") (Z.of_nat 2))])).
Proof.
  intros w. apply (confirm_name_collision (fun _ => true) "out" 2 "d/a.txt" "d/a.csv" [["1"; "2"]] [["3"; "4"]] w).
  all: first [ lia | discriminate | (vm_compute; reflexivity) | (vm_compute; lia)
             | (repeat constructor; first [discriminate | reflexivity]) ].
Defined.

(** ** Which files are written *)

Lemma extract_line_only out n line : only_writes (eq out) (extract_line out n line).
Proof.
  unfold extract_line. repeat case_decide; eauto 6 using only_writes_write_str with py.
Qed.

Lemma extract_column_only input output n : only_writes (eq output) (extract_column input output n).
Proof.
  unfold extract_column.
  eauto 12 using only_writes_open_write, extract_line_only with py.
Qed.

Section BatchFrame.
Context (answer : nat -> bool) (dir : string).

Lemma ce_process_file_only n st f : only_writes (in_dir dir) (process_file answer dir n st f).
Proof.
  unfold process_file, extract_counted.
  apply only_writes_try; [|eauto with py].
  apply only_writes_bind; [eauto with py|]; intros s.
  case_decide; [eauto with py|].
  apply only_writes_bind; [eauto with py|]; intros [|].
  - apply only_writes_bind; [eauto with py|]; intros _. destruct (answer _); [|eauto with py].
    apply only_writes_bind; [|eauto with py].
    eapply only_writes_mono, extract_column_only. intros q <-. eexists; done.
  - apply only_writes_bind; [|eauto with py].
    eapply only_writes_mono, extract_column_only. intros q <-. eexists; done.
Qed.

Lemma process_files_only n fs st : only_writes (in_dir dir) (process_files answer dir n st fs).
Proof.
  revert st; induction fs as [|f fs IH]; intros st; simpl; eauto using ce_process_file_only with py.
Qed.

Lemma on_confirm_only entry fs : only_writes (in_dir dir) (on_confirm entry fs dir answer).
Proof.
  unfold on_confirm. apply only_writes_bind.
  - unfold validate_column. destruct (py_int entry) as [m|[]]; try case_decide; eauto with py.
  - intros [m|]; [|eauto with py]. repeat case_decide; [eauto with py..|].
    apply only_writes_bind; [apply process_files_only|eauto with py].
Qed.
End BatchFrame.

Lemma ce_handle_files s ev q :
  (forall fs dir answer, ev = Confirm fs dir answer -> ~ in_dir dir q) ->
  files (ce_world (ce_handle s ev)) !! q = files (ce_world s) !! q.
Proof.
  intros Hq. unfold ce_handle. destruct (negb _); [done|].
  destruct ev as [t|fs dir answer|]; [done| |done].
  pose proof (on_confirm_only answer dir (entry s) fs (ce_world s) q (Hq _ _ _ eq_refl)) as Hw.
  destruct (on_confirm _ _ _ _ _) as [[[]|] w]; exact Hw.
Qed.

(** C32: the command-line mode writes no file but the output file it is
    given as its fourth argument, whatever the arguments, the input files
    and the outcome (an exception included). *)
Theorem ce_main_writes_only_output argv :
  only_writes (fun q => nth_error argv 3 = Some q) (ce_main argv).
Proof.
  unfold ce_main. destruct argv as [|? [|? [|input [|output [|]]]]]; [eauto with py..| |eauto with py].
  apply only_writes_try; [|intros []; eauto with py].
  apply only_writes_bind; [eauto with py|]; intros m. case_decide; [eauto with py|].
  apply only_writes_bind; [|eauto with py].
  eapply only_writes_mono, extract_column_only. by intros q <-.
Qed.

(** C33: in the dialog, a run of events changes no file outside the output
    folders chosen in its [Confirm] events: a file that is not
    [os.path.join(dir, name)] for such a folder [dir] is never written. *)
Theorem ce_run_writes_in_dirs s evs q :
  (forall fs dir answer, In (Confirm fs dir answer) evs -> ~ in_dir dir q) ->
  files (ce_world (ce_run s evs)) !! q = files (ce_world s) !! q.
Proof.
  unfold ce_run. revert s; induction evs as [|ev evs IH]; intros s Hq; [done|].
  cbn [foldl]. rewrite IH by (intros ??? Hin; exact (Hq _ _ _ (or_intror Hin))).
  apply ce_handle_files. intros fs dir answer ->. exact (Hq fs dir answer (or_introl eq_refl)).
Qed.

Lemma ce_run_writes_in_dirs_witness :
  let s := ce_init (mk_world {[ "in.txt" := "1 2" ]} []) in
  let evs := [EditEntry "1"; Confirm ["in.txt"] "out" (fun _ => true)] in
  (forall fs dir answer, In (Confirm fs dir answer) evs -> ~ in_dir dir "in.txt") /\
  files (ce_world (ce_run s evs)) !! "in.txt" = Some "1 2".
Proof.
  intros s evs.
  assert (Hq : forall fs dir answer, In (Confirm fs dir answer) evs -> ~ in_dir dir "in.txt").
  { intros fs dir answer [Heq|[Heq|[]]]; [discriminate|]. injection Heq as _ <- _.
    intros [[|c r] Hn]; unfold path_join in Hn; [discriminate|].
    repeat case_decide; simplify_eq; try discriminate. }
  split; [exact Hq|]. rewrite (ce_run_writes_in_dirs s evs "in.txt" Hq). reflexivity.
Defined.
