(* ===== verification/Barfiber.v ===== *)
(** * Barfiber: [src/process_barfiber.py]

    The script reads, in every chosen folder, the files
    [S2_B<a>_..._IDA_8.5MPa_barfiber<b>.out], takes the largest absolute
    value of the last column of each file, and writes a table with one
    row per [b] and one column per [a] (the value times 1000, or
    ["error"]) and a log of the lines whose last cell is not a number.
    - [scan_line], [scan_lines] and [process_file] (lines 8-29), in
      Module [OutFile]: the last column and the unreadable lines of one
      file, and [max(abs(...))];
    - [name_matches] and [barfiber_group] are the two regular expressions
      (lines 110 and 41); [extract_numbers] (lines 31-45);
    - [record_file], [collect_file] and [collect_files] (lines 104-127): the dictionaries
      [results], [all_num_a], [all_num_b] and [all_errors], kept as
      association lists in insertion order with keys compared by [==];
    - [py_sorted] is Python's stable [sorted]; [sort_labels] and
      [sort_values] (lines 134-135);
    - [header_line], [row_line] and [cell_of] (lines 144-153),
      [write_error_log] (lines 47-61), [process_folder] (lines 100-163)
      and [process_folders] (lines 63-166); the last section proves which
      files a run can write ([only_writes]).
    [os.listdir] is the oracle [listdir], the timestamp of a log the
    oracle [stamp], and the answers of the dialogs are arguments.  A
    regular expression is matched on names without a newline. *)

From S2P Require Import Prelude PyText PyFloat PyRepr PyIO.
From stdpp Require Import gmap.
From Stdlib Require Import QArith Sorted.

Local Open Scope string_scope.

(** What the script shows or prints. *)
Inductive bf_output :=
| ReadFailed (path : string) (e : py_exc)
| WarnNoFolder
| WarnNoResults (folder_name : string)
| SaveError (e : py_exc)
| LogSaved (path : string)
| Finished (output_dir : string).

Abbreviation bf_io := (io bf_output).

(** ** One file *)

(** The reader of one [.out] file; its [process_file] is the script's,
    not the one of [column_extractor.py]. *)
Module Export OutFile.

(** Lines 16-23: the value of one line, or the line as an error. *)
Definition scan_line (line_num : nat) (line : string) : res (list pyfloat * list (nat * string)) :=
  let parts := py_split_ws (py_strip line) in
  if decide (parts = []) then Ok ([], []) else
  match (p ← py_getitem parts (-1); py_float p) with
  | Ok value => Ok ([value], [])
  | Raise (ValueError _) | Raise IndexError => Ok ([], [(line_num, py_strip line)])
  | Raise e => Raise e
  end.

(** Line 15: the lines numbered from [line_num]. *)
Fixpoint scan_lines (line_num : nat) (lines : list string) : res (list pyfloat * list (nat * string)) :=
  match lines with
  | [] => Ok ([], [])
  | line :: rest =>
      r1 ← scan_line line_num line;
      r2 ← scan_lines (S line_num) rest;
      Ok (r1.1 ++ r2.1, r1.2 ++ r2.2)%list
  end.

(** Lines 8-29. *)
Definition process_file (file_path : string) : bf_io (option pyfloat * list (nat * string)) :=
  io_try
    (s ← read_file file_path;
     r ← io_lift (scan_lines 1 (py_readlines s));
     match r.1 with
     | [] => mret (None, r.2)
     | v :: vs => mret (Some (py_max_list (fabs v) (fabs <$> vs)), r.2)
     end)
    (fun e => show (ReadFailed file_path e);; mret (None, [])).

End OutFile.

(** ** File names *)

Definition str_contains (needle hay : string) : bool :=
  match String.index 0 needle hay with Some _ => true | None => false end.

(** Line 110: [re.match(r'S2_B.*_IDA_8\.5MPa_barfiber.*\.out$', name)]. *)
Definition name_matches (name : string) : bool :=
  py_startswith "S2_B" name && py_endswith ".out" name &&
  str_contains "_IDA_8.5MPa_barfiber" (substring 4 (String.length name - 8) name).

(** The characters of [[-.0-9]]. *)
Definition num_char (c : ascii) : bool :=
  bool_decide (c = "-"%char) || bool_decide (c = "."%char) || bool_decide (is_Some (digit_val c)).

Fixpoint take_while {A} (p : A -> bool) (l : list A) : list A :=
  match l with [] => [] | x :: l' => if p x then x :: take_while p l' else [] end.

Fixpoint drop_while {A} (p : A -> bool) (l : list A) : list A :=
  match l with [] => [] | x :: l' => if p x then drop_while p l' else l end.

(** Line 41: the group of [re.search(r'barfiber([-.0-9]+)\.out$', name)].
    The group is followed by [.out] at the end and preceded by the [r] of
    [barfiber], so it is the longest run of [[-.0-9]] before [.out]. *)
Definition barfiber_group (name : string) : option string :=
  if py_endswith ".out" name then
    let rbody := rev (list_ascii_of_string (substring 0 (String.length name - 4) name)) in
    let g := rev (take_while num_char rbody) in
    let pre := string_of_list_ascii (rev (drop_while num_char rbody)) in
    if bool_decide (g <> []) && py_endswith "barfiber" pre then Some (string_of_list_ascii g) else None
  else None.

(** Lines 31-45: [(num_a, num_b)], [None] for [(None, None)]; [float] of
    the group may raise. *)
Definition extract_numbers (filename : string) : res (option (string * pyfloat)) :=
  let parts := py_split_sep "_"%char filename in
  if decide (2 <= length parts)%nat then
    num_a ← py_getitem parts 1;
    match barfiber_group filename with
    | Some g => num_b ← py_float g; Ok (Some (num_a, num_b))
    | None => Ok None
    end
  else Ok None.

(** ** The dictionaries of one folder *)

(** [d[k] = f(d.get(k))] for a dict with float keys: an equal key keeps
    its place and its first spelling. *)
Fixpoint fdict_upd {V} (k : pyfloat) (f : option V -> V) (d : list (pyfloat * V)) : list (pyfloat * V) :=
  match d with
  | [] => [(k, f None)]
  | (k', v) :: d' => if feqb k' k then (k', f (Some v)) :: d' else (k', v) :: fdict_upd k f d'
  end.

(** [d.get(k)] for a dict with float keys. *)
Fixpoint fdict_get {V} (k : pyfloat) (d : list (pyfloat * V)) : option V :=
  match d with
  | [] => None
  | (k', v) :: d' => if feqb k' k then Some v else fdict_get k d'
  end.

(** [d[k] = v] for a dict with string keys. *)
Fixpoint sdict_set {V} (k : string) (v : V) (d : list (string * V)) : list (string * V) :=
  match d with
  | [] => [(k, v)]
  | (k', v') :: d' => if decide (k' = k) then (k', v) :: d' else (k', v') :: sdict_set k v d'
  end.

(** [s.add(x)] on a set kept in insertion order. *)
Definition sset_add (x : string) (s : list string) : list string :=
  if decide (x ∈ s) then s else s ++ [x].

Definition fset_add (x : pyfloat) (s : list pyfloat) : list pyfloat :=
  if existsb (fun y => feqb y x) s then s else s ++ [x].

(** Lines 104-107. *)
Record folder_acc := mk_acc {
  results : list (pyfloat * list (string * pyfloat));
  all_num_a : list string;
  all_num_b : list pyfloat;
  all_errors : list (string * list (nat * string))
}.

Definition acc0 : folder_acc := mk_acc [] [] [] [].

(** Lines 119-127: what a processed file adds. *)
Definition record_file (acc : folder_acc) (file_path num_a : string) (num_b : pyfloat)
    (max_abs_value : option pyfloat) (file_errors : list (nat * string)) : folder_acc :=
  let errs := if decide (file_errors = []) then all_errors acc
              else sdict_set file_path file_errors (all_errors acc) in
  match max_abs_value with
  | Some m =>
      mk_acc (fdict_upd num_b (fun old => sdict_set num_a (fmul_int m 1000) (default [] old)) (results acc))
             (sset_add num_a (all_num_a acc)) (fset_add num_b (all_num_b acc)) errs
  | None => mk_acc (results acc) (all_num_a acc) (all_num_b acc) errs
  end.

(** Lines 112-127: one entry of the folder. *)
Definition collect_file (folder_path : string) (acc : folder_acc) (filename : string) : bf_io folder_acc :=
  if name_matches filename then
    nums ← io_lift (extract_numbers filename);
    match nums with
    | None => mret acc
    | Some (num_a, num_b) =>
        let file_path := path_join folder_path filename in
        r ← process_file file_path;
        mret (record_file acc file_path num_a num_b r.1 r.2)
    end
  else mret acc.

(** Line 111: the entries in the order [os.listdir] gives them. *)
Fixpoint collect_files (folder_path : string) (acc : folder_acc) (names : list string) : bf_io folder_acc :=
  match names with
  | [] => mret acc
  | name :: names' => acc' ← collect_file folder_path acc name; collect_files folder_path acc' names'
  end.

(** ** Sorting *)

(** Python's [sorted] with the order [lt]: stable, so [x] goes before the
    first element that is not smaller. *)
Fixpoint insert_by {A} (lt : A -> A -> bool) (x : A) (l : list A) : list A :=
  match l with
  | [] => [x]
  | y :: l' => if lt y x then y :: insert_by lt x l' else x :: l
  end.

Definition py_sorted {A} (lt : A -> A -> bool) (l : list A) : list A := foldr (insert_by lt) [] l.

(** Line 134: the key [int(x[1:])]. *)
Definition label_key (x : string) : res Z := py_int (substring 1 (String.length x - 1) x).

(** Line 134: the keys are computed first, in order; the first that fails
    raises. *)
Definition sort_labels (labels : list string) : res (list string) :=
  keys ← res_map label_key labels;
  Ok (snd <$> py_sorted (fun p q : Z * string => bool_decide (p.1 < q.1)%Z) (zip keys labels)).

(** Line 135. *)
Definition sort_values (values : list pyfloat) : list pyfloat := py_sorted flt values.

(** ** Output *)

Abbreviation tabs := (str1 tab).
Abbreviation newline := (str1 nl).

(** ["=" * 50]. *)
Definition rule50 : string := string_of_list_ascii (repeat "="%char 50).

Section Output.
Context `{FloatStr}.

(** Line 151: [str(results.get(num_b, {}).get(num_a, "error"))]. *)
Definition cell_of (res_tbl : list (pyfloat * list (string * pyfloat))) (num_b : pyfloat) (num_a : string) : string :=
  match assoc_lookup num_a (default [] (fdict_get num_b res_tbl)) with
  | Some v => float_str v
  | None => "error"
  end.

(** Lines 144-145. *)
Definition header_line (sorted_num_a : list string) : string :=
  py_join tabs ("b\a" :: sorted_num_a) +:+ newline.

(** Lines 149-153. *)
Definition row_line (res_tbl : list (pyfloat * list (string * pyfloat))) (sorted_num_a : list string)
    (num_b : pyfloat) : string :=
  py_join tabs (float_str num_b :: (cell_of res_tbl num_b <$> sorted_num_a)) +:+ newline.

(** Lines 47-61; [stamp] is [datetime.now().strftime('%Y%m%d_%H%M%S')]. *)
Definition write_error_log (output_dir folder_name stamp : string)
    (errors : list (string * list (nat * string))) : bf_io (option string) :=
  if decide (errors = []) then mret None else
  let log_path := path_join output_dir ("error_log_" +:+ folder_name +:+ "_" +:+ stamp +:+ ".txt") in
  open_write log_path;;
  write_str log_path ("错误日志 - " +:+ folder_name +:+ newline);;
  write_str log_path (rule50 +:+ newline +:+ newline);;
  io_iter (fun fe : string * list (nat * string) =>
     if decide (fe.2 = []) then mret tt else
     write_str log_path (newline +:+ "文件: " +:+ basename fe.1 +:+ newline);;
     io_iter (fun le : nat * string =>
       write_str log_path ("行 " +:+ str_of_Z (Z.of_nat le.1) +:+ ": " +:+ le.2 +:+ newline)) fe.2) errors;;
  mret (Some log_path).

Section Folders.
(** [os.listdir(folder)], in the order the system gives. *)
Variable listdir : string -> list string.
(** The timestamp of a log. *)
Variable stamp : string.

(** Lines 101-163: one folder.  A [ValueError] of [extract_numbers] or of
    the sort key is not caught. *)
Definition process_folder (output_dir folder_path : string) : bf_io unit :=
  let folder_name := basename folder_path in
  acc ← collect_files folder_path acc0 (listdir folder_path);
  if decide (results acc = []) then show (WarnNoResults folder_name) else
  sorted_num_a ← io_lift (sort_labels (all_num_a acc));
  let sorted_num_b := sort_values (all_num_b acc) in
  let output_path := path_join output_dir (folder_name +:+ "_results.txt") in
  io_try
    (open_write output_path;;
     write_str output_path (header_line sorted_num_a);;
     io_iter (fun num_b => write_str output_path (row_line (results acc) sorted_num_a num_b)) sorted_num_b;;
     if decide (all_errors acc = []) then mret tt else
     log_path ← write_error_log output_dir folder_name stamp (all_errors acc);
     match log_path with Some p => show (LogSaved p) | None => mret tt end)
    (fun e => show (SaveError e)).

(** Lines 72-83: the folders chosen, from the answers to the folder dialog
    and to "continue?"; an empty answer ends the choice. *)
Fixpoint pick_folders (answers : list (string * bool)) : list string :=
  match answers with
  | [] => []
  | (folder_path, more) :: rest =>
      if decide (folder_path = EmptyString) then []
      else folder_path :: (if more then pick_folders rest else [])
  end.

(** Lines 63-166. *)
Definition process_folders (answers : list (string * bool)) (output_dir : string) : bf_io unit :=
  let folder_paths := pick_folders answers in
  if decide (folder_paths = []) then show WarnNoFolder else
  if decide (output_dir = EmptyString) then mret tt else
  io_iter (process_folder output_dir) folder_paths;;
  show (Finished output_dir).
End Folders.
End Output.

(** ** One file: the largest absolute value *)

Lemma process_file_vals p s vals errs (w : world bf_output) :
  files w !! p = Some s -> scan_lines 1 (py_readlines s) = Ok (vals, errs) ->
  process_file p w =
    (Ok (match vals with [] => None | v :: vs => Some (py_max_list (fabs v) (fabs <$> vs)) end, errs), w).
Proof.
  intros Hp Hs. unfold process_file. apply io_try_Ok.
  erewrite io_bind_Ok by (by apply read_file_Some).
  erewrite io_bind_Ok by (unfold io_lift; by rewrite Hs).
  by destruct vals.
Qed.

Lemma fabs_not_nan x : x <> PNaN -> fval (fabs x) <> None.
Proof. intros Hx. rewrite fval_None_iff, fabs_nan. done. Qed.

(** C25 (functional). When the last column of a file holds numbers and no
    [nan], [process_file] returns, without a box, the largest absolute
    value among them: it is the absolute value of one of them and no
    absolute value exceeds it; the unreadable lines come with it. *)
Theorem process_file_max_abs p s v vs errs (w : world bf_output) :
  files w !! p = Some s -> scan_lines 1 (py_readlines s) = Ok (v :: vs, errs) ->
  Forall (fun x => x <> PNaN) (v :: vs) ->
  exists m, process_file p w = (Ok (Some m, errs), w) /\ m ∈ fabs <$> (v :: vs) /\
    Forall (fun x => fle (fabs x) m = true) (v :: vs).
Proof.
  intros Hp Hs Hnan. rewrite (process_file_vals p s (v :: vs) errs w Hp Hs).
  eexists. split_and!; [done | rewrite fmap_cons; apply py_max_list_elem |].
  apply Forall_forall. intros x Hx. rewrite Forall_forall in Hnan.
  apply py_max_list_ub; [apply fabs_not_nan, Hnan; by left | | by apply fabs_not_nan, Hnan].
  rewrite <- fmap_cons. by apply list_elem_of_fmap_2.
Qed.

Lemma process_file_max_abs_witness :
  let w := mk_world {[ "f.out" := "1 -0.003" +:+ str1 nl +:+ "3 0.002" ]} [] in
  exists m, process_file "f.out" w = (Ok (Some m, []), w) /\
    m ∈ fabs <$> [PFin ((-3) # 1000); PFin (2 # 1000)] /\
    Forall (fun x => fle (fabs x) m = true) [PFin ((-3) # 1000); PFin (2 # 1000)].
Proof.
  intros w. apply (process_file_max_abs _ ("1 -0.003" +:+ str1 nl +:+ "3 0.002"));
    [reflexivity | vm_compute; reflexivity | repeat constructor; discriminate].
Defined.

(** C26 (error). [NaN] is not skipped but compared: the result of a file
    is [nan] exactly when its first value is [nan]; a [nan] on any later
    line is passed over, so the same values in another order give another
    result. *)
Theorem process_file_nan_first p s v vs errs (w : world bf_output) :
  files w !! p = Some s -> scan_lines 1 (py_readlines s) = Ok (v :: vs, errs) ->
  exists m, process_file p w = (Ok (Some m, errs), w) /\ (m = PNaN <-> v = PNaN).
Proof.
  intros Hp Hs. rewrite (process_file_vals p s (v :: vs) errs w Hp Hs).
  eexists. split; [done|]. split.
  - intros Hm. destruct (decide (v = PNaN)) as [|Hv]; [done|].
    exfalso. apply (py_max_list_not_nan (fabs v) (fabs <$> vs)); [by apply fabs_not_nan|].
    by rewrite Hm.
  - intros ->. apply py_max_list_nan.
Qed.

(** A [nan] on the second line is passed over: the result is 0.5. *)
Lemma process_file_nan_first_witness :
  let w := mk_world {[ "f.out" := "1 0.5" +:+ str1 nl +:+ "2 nan" ]} [] in
  exists m, process_file "f.out" w = (Ok (Some m, []), w) /\ (m = PNaN <-> PFin (5 # 10) = PNaN).
Proof.
  intros w. apply (process_file_nan_first _ ("1 0.5" +:+ str1 nl +:+ "2 nan") _ [PNaN]);
    [reflexivity | vm_compute; reflexivity].
Defined.

(** ** Uncaught errors *)

(** [extract_numbers] raises only [ValueError], from [float]. *)
Lemma extract_numbers_raise name e : extract_numbers name = Raise e -> exists s, e = ValueError s.
Proof.
  unfold extract_numbers. case_decide as Hlen; [|done].
  destruct (lookup_lt_is_Some_2 (py_split_sep "_"%char name) 1) as [x Hx]; [lia|].
  change 1%Z with (Z.of_nat 1). rewrite (py_getitem_lookup _ _ _ Hx). simpl.
  destruct (barfiber_group name) as [g|]; [|done]. simpl.
  destruct (py_float_cases g) as [[v ->] | ->]; [done|]. intros [= <-]. eauto.
Qed.

(** [process_file] catches everything. *)
Lemma process_file_Ok p (w : world bf_output) : exists r w', process_file p w = (Ok r, w').
Proof.
  unfold process_file, io_try.
  match goal with |- context [match ?c w with _ => _ end] => destruct (c w) as [[x|e] w'] end; eauto.
Qed.

(** One entry returns or raises [ValueError]. *)
Lemma collect_file_cases f acc name (w : world bf_output) :
  (exists acc' w', collect_file f acc name w = (Ok acc', w')) \/
  (exists s w', collect_file f acc name w = (Raise (ValueError s), w')).
Proof.
  unfold collect_file. destruct (name_matches name); [|eauto].
  destruct (extract_numbers name) as [[[a b]|]|e] eqn:He.
  - erewrite io_bind_Ok by reflexivity.
    destruct (process_file_Ok (path_join f name) w) as (r & w' & Hr).
    left. erewrite io_bind_Ok by exact Hr. eauto.
  - erewrite io_bind_Ok by reflexivity. eauto.
  - erewrite io_bind_Raise by reflexivity.
    destruct (extract_numbers_raise name e He) as [s ->]. right. eauto.
Qed.

(** A matching name whose number is not a float makes the loop raise. *)
Lemma collect_files_crash f acc names name e (w : world bf_output) :
  name ∈ names -> name_matches name = true -> extract_numbers name = Raise e ->
  exists s w', collect_files f acc names w = (Raise (ValueError s), w').
Proof.
  intros Hin Hm He. revert acc w; induction names as [|n ns IH]; intros acc w; [by apply elem_of_nil in Hin|].
  simpl. destruct (collect_file_cases f acc n w) as [(acc' & w' & Hc)|(s & w' & Hc)].
  - erewrite io_bind_Ok by exact Hc. apply elem_of_cons in Hin as [->|Hin]; [|by apply IH].
    unfold collect_file in Hc. rewrite Hm, He in Hc. discriminate.
  - erewrite io_bind_Raise by exact Hc. eauto.
Qed.

(** C27 (error). A file of a chosen folder whose name matches the pattern
    but whose number after [barfiber] is not a float (such as
    [barfiber1-2.out]) is not skipped: [float] raises a [ValueError] that
    nothing catches, and the run stops before the final box. *)
Theorem process_folders_bad_number `{FloatStr} listdir stamp answers output_dir f rest name e
    (w : world bf_output) :
  pick_folders answers = f :: rest -> output_dir <> EmptyString ->
  name ∈ listdir f -> name_matches name = true -> extract_numbers name = Raise e ->
  exists s, (process_folders listdir stamp answers output_dir w).1 = Raise (ValueError s).
Proof.
  intros Hp Hout Hin Hm He. unfold process_folders. rewrite Hp.
  rewrite !decide_False by done.
  destruct (collect_files_crash f acc0 (listdir f) name e w Hin Hm He) as (s & w' & Hc).
  exists s. cbn [io_iter]. unfold process_folder.
  erewrite io_bind_Raise; [reflexivity|].
  erewrite io_bind_Raise; [reflexivity|].
  erewrite io_bind_Raise; [reflexivity|exact Hc].
Qed.

Lemma process_folders_bad_number_witness :
  exists s, (process_folders (fun _ => ["S2_B1_IDA_8.5MPa_barfiber1-2.out"]) "20250101_000000"
               [("F", false)] "out" (mk_world ∅ [])).1 = Raise (ValueError s).
Proof.
  apply (process_folders_bad_number _ _ _ _ "F" [] "S2_B1_IDA_8.5MPa_barfiber1-2.out" (ValueError "1-2"));
    [reflexivity | discriminate | by left | reflexivity | reflexivity].
Defined.

(** ** [sorted] *)

(** The order [sorted] leaves its result in: no element is smaller than
    the one before it. *)
Definition not_before {A} (lt : A -> A -> bool) (x y : A) : Prop := lt y x = false.

Section SortLemmas.
Context {A : Type} (lt : A -> A -> bool).
Hypothesis lt_asym : forall x y, lt x y = true -> lt y x = false.

Lemma insert_by_perm x l : insert_by lt x l ≡ₚ x :: l.
Proof.
  induction l as [|y l IH]; simpl; [done|].
  destruct (lt y x); [|done]. rewrite IH. apply perm_swap.
Qed.

Lemma py_sorted_perm l : py_sorted lt l ≡ₚ l.
Proof. induction l as [|x l IH]; simpl; [done|]. by rewrite insert_by_perm, IH. Qed.

Lemma insert_by_hd y x l :
  not_before lt y x -> HdRel (not_before lt) y l -> HdRel (not_before lt) y (insert_by lt x l).
Proof.
  intros Hyx Hl. destruct l as [|z l]; simpl; [by constructor|].
  destruct (lt z x); constructor; [by inversion Hl | done].
Qed.

Lemma insert_by_sorted x l : Sorted (not_before lt) l -> Sorted (not_before lt) (insert_by lt x l).
Proof.
  induction 1 as [|z l Hl IH Hhd]; simpl; [by repeat constructor|].
  destruct (lt z x) eqn:Hzx.
  - constructor; [done|]. apply insert_by_hd; [by apply lt_asym | done].
  - constructor; [by constructor | by constructor].
Qed.

(** [sorted] returns a sorted permutation. *)
Lemma py_sorted_sorted l : Sorted (not_before lt) (py_sorted lt l).
Proof. induction l as [|x l IH]; simpl; [constructor | by apply insert_by_sorted]. Qed.
End SortLemmas.

Lemma Sorted_fmap {A B} (f : A -> B) (R : A -> A -> Prop) (S : B -> B -> Prop) l :
  (forall x y, R x y -> S (f x) (f y)) -> Sorted R l -> Sorted S (f <$> l).
Proof.
  intros Hf. induction 1 as [|x l Hl IH Hhd]; simpl; constructor; [done|].
  destruct Hhd; simpl; constructor; auto.
Qed.

Lemma Forall2_zip_swap {A B} (P : A -> B -> Prop) l k :
  Forall2 P l k -> Forall (fun p => P p.2 p.1) (zip k l).
Proof. induction 1; simpl; constructor; auto. Qed.

Lemma Forall_fmap_pairs {A B} (P : A -> B -> Prop) (ps : list (B * A)) :
  Forall (fun p => P p.2 p.1) ps -> Forall2 P (snd <$> ps) (fst <$> ps).
Proof. induction 1; simpl; constructor; auto. Qed.

Lemma sort_labels_perm labels sorted_labels :
  sort_labels labels = Ok sorted_labels -> sorted_labels ≡ₚ labels.
Proof.
  unfold sort_labels. intros H. res_inv. injection H as <-.
  apply res_map_Ok, Forall2_length in Hx.
  rewrite py_sorted_perm by (intros p q; rewrite !bool_decide_eq_true, bool_decide_eq_false; lia).
  rewrite snd_zip by lia. done.
Qed.

(** C29 (functional). When every label's key [int(x[1:])] parses, the
    labels come out as a permutation of the set, in the order of their
    keys. *)
Theorem sort_labels_spec labels sorted_labels :
  sort_labels labels = Ok sorted_labels ->
  sorted_labels ≡ₚ labels /\
  exists keys, Forall2 (fun x k => label_key x = Ok k) sorted_labels keys /\ Sorted Z.le keys.
Proof.
  unfold sort_labels. intros H. res_inv. injection H as <-.
  apply res_map_Ok in Hx. pose proof (Forall2_length _ _ _ Hx) as Hlen.
  set (lt := fun p q : Z * string => bool_decide (p.1 < q.1)%Z).
  assert (Hasym : forall p q, lt p q = true -> lt q p = false).
  { intros p q. unfold lt. rewrite !bool_decide_eq_true, bool_decide_eq_false. lia. }
  split.
  - apply sort_labels_perm. unfold sort_labels. apply res_map_Ok in Hx. by rewrite Hx.
  - exists (fst <$> py_sorted lt (zip x labels)). split.
    + apply Forall_fmap_pairs. rewrite py_sorted_perm by done. by apply (Forall2_zip_swap (fun s k => label_key s = Ok k)).
    + apply (Sorted_fmap _ (not_before lt)); [|by apply py_sorted_sorted].
      intros p q. unfold not_before, lt. rewrite bool_decide_eq_false. lia.
Qed.

Lemma sort_labels_spec_witness :
  ["B1"; "B2"; "B10"] ≡ₚ ["B10"; "B2"; "B1"] /\
  exists keys, Forall2 (fun x k => label_key x = Ok k) ["B1"; "B2"; "B10"] keys /\ Sorted Z.le keys.
Proof. apply sort_labels_spec. vm_compute. reflexivity. Defined.

(** ** The results table *)

Lemma cell_of_no_tab `{FloatStr} res_tbl num_b a : no_sep tab (cell_of res_tbl num_b a).
Proof. unfold cell_of. destruct (assoc_lookup _ _); [apply float_str_no_tab | done]. Qed.

(** C30 (roundtrip). A data row of the results file is its label and one
    cell per column label, separated by tabs, and a cell reads ["error"]
    exactly when the folder gave no value for that pair: the text of a
    float is never ["error"]. *)
Theorem row_line_cells `{FloatStr} res_tbl sorted_num_a num_b :
  exists line, row_line res_tbl sorted_num_a num_b = line +:+ newline /\
    py_split_sep tab line = float_str num_b :: (cell_of res_tbl num_b <$> sorted_num_a) /\
    forall i a, sorted_num_a !! i = Some a ->
      ((cell_of res_tbl num_b <$> sorted_num_a) !! i = Some "error" <->
       assoc_lookup a (default [] (fdict_get num_b res_tbl)) = None).
Proof.
  eexists. split_and!; [reflexivity | |].
  - apply py_split_sep_join. constructor; [apply float_str_no_tab|].
    apply Forall_fmap, Forall_forall. intros a _. apply cell_of_no_tab.
  - intros i a Ha. rewrite list_lookup_fmap, Ha. simpl. unfold cell_of.
    destruct (assoc_lookup _ _) as [v|]; split; try done.
    intros [= E]. by destruct (float_str_not_error v).
Qed.

Lemma row_line_cells_witness :
  exists line, row_line [(PFin 1, [("B1", PFin 2)])] ["B1"; "B2"] (PFin 1) = line +:+ newline /\
    py_split_sep tab line = float_str (PFin 1) :: (cell_of [(PFin 1, [("B1", PFin 2)])] (PFin 1) <$> ["B1"; "B2"]) /\
    forall i a, ["B1"; "B2"] !! i = Some a ->
      ((cell_of [(PFin 1, [("B1", PFin 2)])] (PFin 1) <$> ["B1"; "B2"]) !! i = Some "error" <->
       assoc_lookup a (default [] (fdict_get (PFin 1) [(PFin 1, [("B1", PFin 2)])])) = None).
Proof. apply row_line_cells. Defined.

(** ** File names *)

Lemma take_while_app {A} (p : A -> bool) l1 c l2 :
  Forall (fun x => p x = true) l1 -> p c = false -> take_while p (l1 ++ c :: l2) = l1.
Proof. induction 1 as [|x l1 Hx _ IH]; intros Hc; simpl; [by rewrite Hc | by rewrite Hx, IH]. Qed.

Lemma drop_while_app {A} (p : A -> bool) l1 c l2 :
  Forall (fun x => p x = true) l1 -> p c = false -> drop_while p (l1 ++ c :: l2) = c :: l2.
Proof. induction 1 as [|x l1 Hx _ IH]; intros Hc; simpl; [by rewrite Hc | by rewrite Hx, IH]. Qed.

Lemma str_contains_mid needle x y :
  needle <> EmptyString -> str_contains needle (x +:+ needle +:+ y) = true.
Proof.
  intros Hne. unfold str_contains. destruct (String.index 0 needle _) eqn:E; [done|].
  exfalso. apply (index_correct3 0 (String.length x) needle _ E Hne); [lia|].
  apply substring_mid.
Qed.

(** A number after [barfiber]: a non-empty run of [[-.0-9]]. *)
Definition num_str (d : string) : Prop :=
  d <> EmptyString /\ Forall (fun c => num_char c = true) (list_ascii_of_string d).

Lemma barfiber_group_name pre d :
  num_str d -> barfiber_group (pre +:+ "barfiber" +:+ d +:+ ".out") = Some d.
Proof.
  intros [Hd Hnum]. unfold barfiber_group.
  assert (E : pre +:+ "barfiber" +:+ d +:+ ".out" = ((pre +:+ "barfiber") +:+ d) +:+ ".out")
    by (by rewrite !str_app_assoc).
  rewrite E, py_endswith_app, str_length_app, Nat.add_sub, substring_prefix.
  rewrite list_ascii_of_string_app, rev_app_distr.
  assert (Hr : rev (list_ascii_of_string (pre +:+ "barfiber")) =
               "r"%char :: (rev (list_ascii_of_string "barfibe") ++ rev (list_ascii_of_string pre))%list)
    by (rewrite list_ascii_of_string_app, rev_app_distr; reflexivity).
  rewrite Hr, take_while_app, drop_while_app by (done || by apply Forall_rev).
  rewrite <- Hr, !rev_involutive, !string_of_list_ascii_of_string, py_endswith_app.
  rewrite bool_decide_eq_true_2; [done|].
  intros Hnil. apply Hd. rewrite <- (string_of_list_ascii_of_string d), Hnil. done.
Qed.

Lemma split_S2B r : "S2_B" +:+ r = "S2" +:+ String "_"%char ("B" +:+ r).
Proof. reflexivity. Qed.

Lemma split_name_parts a t :
  no_sep "_"%char a ->
  exists rest, py_split_sep "_"%char ("S2_B" +:+ a +:+ "_" +:+ t) = "S2" :: ("B" +:+ a) :: rest.
Proof.
  intros Ha. unfold py_split_sep. rewrite split_S2B, split_sep_from_app by reflexivity.
  rewrite split_sep_from_sep, str_app_nil_l, str_app_assoc.
  rewrite split_sep_from_app by (unfold no_sep; rewrite str_has_app; apply orb_false_iff; split; [done | apply Ha]).
  rewrite str_app_nil_l, (str_app_cons "_"%char EmptyString t), split_sep_from_sep. by eexists.
Qed.

(** C31 (roundtrip). The names the script is meant for are recognised and
    read: for [S2_B<a>_IDA_8.5MPa_barfiber<d>.out] with [a] free of
    underscores and [d] a float made of [[-.0-9]], the name matches the
    pattern of line 110 and [extract_numbers] returns [("B" + a, float(d))]. *)
Theorem barfiber_name_roundtrip a d v :
  no_sep "_"%char a -> num_str d -> py_float d = Ok v ->
  name_matches ("S2_B" +:+ a +:+ "_IDA_8.5MPa_barfiber" +:+ d +:+ ".out") = true /\
  extract_numbers ("S2_B" +:+ a +:+ "_IDA_8.5MPa_barfiber" +:+ d +:+ ".out") = Ok (Some ("B" +:+ a, v)).
Proof.
  intros Ha Hd Hv. split.
  - set (y := a +:+ "_IDA_8.5MPa_barfiber" +:+ d).
    assert (E : "S2_B" +:+ a +:+ "_IDA_8.5MPa_barfiber" +:+ d +:+ ".out" = "S2_B" +:+ y +:+ ".out")
      by (unfold y; by rewrite !str_app_assoc).
    assert (He : py_endswith ".out" ("S2_B" +:+ y +:+ ".out") = true)
      by (rewrite str_app_assoc; apply py_endswith_app).
    assert (Hlen : (String.length ("S2_B" +:+ y +:+ ".out") - 8 = String.length y)%nat)
      by (rewrite !str_length_app; cbn [String.length]; lia).
    unfold name_matches. rewrite E, py_startswith_app, He, Hlen.
    change (substring 4) with (substring (String.length "S2_B")). rewrite substring_mid.
    unfold y. by rewrite str_contains_mid.
  - destruct (split_name_parts a ("IDA_8.5MPa_barfiber" +:+ d +:+ ".out") Ha) as [rest Hp].
    assert (E3 : "S2_B" +:+ a +:+ "_IDA_8.5MPa_barfiber" +:+ d +:+ ".out" =
                 ("S2_B" +:+ a +:+ "_IDA_8.5MPa_") +:+ "barfiber" +:+ d +:+ ".out").
    { change "_IDA_8.5MPa_barfiber" with ("_IDA_8.5MPa_" +:+ "barfiber"). by rewrite !str_app_assoc. }
    unfold extract_numbers.
    change (py_split_sep "_"%char ("S2_B" +:+ a +:+ "_IDA_8.5MPa_barfiber" +:+ d +:+ ".out"))
      with (py_split_sep "_"%char ("S2_B" +:+ a +:+ "_" +:+ ("IDA_8.5MPa_barfiber" +:+ d +:+ ".out"))).
    rewrite Hp, decide_True by (simpl; lia).
    change 1%Z with (Z.of_nat 1). rewrite (py_getitem_lookup _ 1 ("B" +:+ a)) by reflexivity.
    rewrite bind_Ok_l, E3, barfiber_group_name by done. by rewrite Hv.
Qed.

Lemma barfiber_name_roundtrip_witness :
  name_matches ("S2_B" +:+ "12" +:+ "_IDA_8.5MPa_barfiber" +:+ "1.5" +:+ ".out") = true /\
  extract_numbers ("S2_B" +:+ "12" +:+ "_IDA_8.5MPa_barfiber" +:+ "1.5" +:+ ".out") =
    Ok (Some ("B" +:+ "12", PFin (15 # 10))).
Proof.
  apply barfiber_name_roundtrip; [reflexivity | split; [discriminate | repeat constructor] | vm_compute; reflexivity].
Defined.

(** ** Which files are written *)

Section FrameLemmas.
Context `{FloatStr}.

Lemma bf_process_file_only P p : only_writes P (process_file p).
Proof.
  unfold process_file. apply only_writes_try; [|eauto with py].
  apply only_writes_bind; [eauto with py|]; intros s.
  apply only_writes_bind; [eauto with py|]; intros [[|v vs] errs]; cbn [fst]; eauto with py.
Qed.

Lemma collect_files_only P fp acc names : only_writes P (collect_files fp acc names).
Proof.
  revert acc; induction names as [|nm names IH]; intros acc; simpl; [eauto with py|].
  apply only_writes_bind; [|done]. unfold collect_file. destruct (name_matches nm); [|eauto with py].
  apply only_writes_bind; [eauto with py|]. intros [[a b]|]; [|eauto with py].
  apply only_writes_bind; [apply bf_process_file_only|eauto with py].
Qed.

Lemma write_error_log_only dir fn st errs :
  only_writes (eq (path_join dir ("error_log_" +:+ fn +:+ "_" +:+ st +:+ ".txt")))
    (write_error_log dir fn st errs).
Proof.
  unfold write_error_log. case_decide; [eauto with py|].
  apply only_writes_bind; [by apply only_writes_open_write|]; intros _.
  apply only_writes_bind; [by apply only_writes_write_str|]; intros _.
  apply only_writes_bind; [by apply only_writes_write_str|]; intros _.
  apply only_writes_bind; [|eauto with py]. apply only_writes_io_iter. intros fe. case_decide; [eauto with py|].
  apply only_writes_bind; [by apply only_writes_write_str|]. intros _.
  apply only_writes_io_iter. intros le. by apply only_writes_write_str.
Qed.

(** The two files a folder can give: its table and its error log. *)
Definition folder_outputs (output_dir stamp folder_path q : string) : Prop :=
  q = path_join output_dir (basename folder_path +:+ "_results.txt") \/
  q = path_join output_dir ("error_log_" +:+ basename folder_path +:+ "_" +:+ stamp +:+ ".txt").

Lemma process_folder_only listdir stamp dir fp :
  only_writes (folder_outputs dir stamp fp) (process_folder listdir stamp dir fp).
Proof.
  unfold process_folder. apply only_writes_bind; [apply collect_files_only|]; intros acc.
  case_decide; [eauto with py|].
  apply only_writes_bind; [eauto with py|]; intros sorted_a.
  apply only_writes_try; [|eauto with py].
  apply only_writes_bind; [apply only_writes_open_write; by left|]; intros _.
  apply only_writes_bind; [apply only_writes_write_str; by left|]; intros _.
  apply only_writes_bind.
  { apply only_writes_io_iter. intros b. apply only_writes_write_str. by left. }
  intros _. case_decide; [eauto with py|].
  apply only_writes_bind; [|intros [p|]; eauto with py].
  eapply only_writes_mono, write_error_log_only. intros q <-. by right.
Qed.
End FrameLemmas.

(** C34: a run of the barfiber batch writes no file but, for each folder
    it was given, the table [<folder>_results.txt] and the error log
    [error_log_<folder>_<stamp>.txt] in the output folder; the input
    folders, their [.out] files and every other file keep their contents,
    whatever [os.listdir] gives and however the run ends. *)
Theorem process_folders_writes_only `{FloatStr} listdir stamp answers dir :
  only_writes (fun q => exists fp, In fp (pick_folders answers) /\ folder_outputs dir stamp fp q)
    (process_folders listdir stamp answers dir).
Proof.
  unfold process_folders. repeat case_decide; [eauto with py..|].
  apply only_writes_bind; [|eauto with py].
  apply only_writes_io_iter_in. intros fp Hin.
  eapply only_writes_mono, process_folder_only. intros q Hq. by exists fp.
Qed.
