(* ===== verification/BarfiberAcc.v ===== *)
(** * BarfiberAcc: the dictionaries of one folder of [process_barfiber.py]

    The loop of lines 111-127 fills [results] ([{num_b: {num_a: value}}]),
    [all_num_a] and [all_num_b]; [Barfiber] models it as [record_file]
    and [collect_files].  This file states the shape those dictionaries
    keep ([acc_wf]: the keys of [results] are [all_num_b], numeric and
    pairwise different; every inner dict is non-empty with labels from
    [all_num_a]; every label has a cell), proves that every entry of the
    folder keeps it, and derives what the table of lines 146-153 then
    holds: a value in every row and in every column, and for two files
    with the same [(a, b)] the value of the one listed last. *)

From S2P Require Import Prelude PyText PyFloat PyRepr PyIO Barfiber.
From Stdlib Require Import QArith.
From stdpp Require Import base list strings.

Local Open Scope string_scope.

(** ** The number of a file name is never [NaN] *)

Lemma num_char_range c :
  num_char c = true -> (nat_of_ascii c = 45 \/ nat_of_ascii c = 46 \/ 48 <= nat_of_ascii c <= 57)%nat.
Proof.
  unfold num_char, digit_val. intros Hc.
  repeat apply orb_prop in Hc as [Hc|Hc]; apply bool_decide_eq_true in Hc.
  - subst c. by left.
  - subst c. by right; left.
  - right; right. destruct (Nat.leb_spec 48 (nat_of_ascii c)), (Nat.leb_spec (nat_of_ascii c) 57);
      simpl in Hc; [lia|by apply is_Some_None in Hc..].
Qed.

Lemma num_char_lower c : num_char c = true -> ascii_lower c = c.
Proof.
  intros Hc%num_char_range. unfold ascii_lower.
  destruct (Nat.leb_spec 65 (nat_of_ascii c)); [lia|done].
Qed.

Lemma num_char_not_space c : num_char c = true -> py_isspace c = false.
Proof.
  intros Hc%num_char_range. unfold py_isspace.
  destruct (Nat.leb_spec 9 (nat_of_ascii c)), (Nat.leb_spec (nat_of_ascii c) 13),
    (Nat.leb_spec 28 (nat_of_ascii c)), (Nat.leb_spec (nat_of_ascii c) 32); simpl; lia.
Qed.

Definition num_word (s : string) : Prop := Forall (fun c => num_char c = true) (list_ascii_of_string s).

Lemma py_strip_num_word s : num_word s -> py_strip s = s.
Proof.
  unfold num_word, py_strip. intros Hs.
  assert (Hl : py_lstrip s = s).
  { destruct s as [|c s]; [done|]. inversion Hs as [|? ? Hc _]. simpl. by rewrite num_char_not_space. }
  rewrite Hl. clear Hl. induction s as [|c s IH]; [done|]. inversion Hs as [|? ? Hc Hs']. simpl.
  rewrite IH by done. destruct s; [by rewrite num_char_not_space|done].
Qed.

Lemma py_float_num_word g x : num_word g -> py_float g = Ok x -> fval x <> None.
Proof.
  intros Hg. unfold py_float. rewrite py_strip_num_word by done. unfold num_word in Hg.
  assert (Hb : forall neg body, Forall (fun c => num_char c = true) body ->
            match special body neg with
            | Some x => Ok x
            | None => match decimal body with
                      | Some q => if Qeq_bool q 0 then Ok (if neg then PNZero else PFin 0)
                                  else Ok (PFin (if neg then (- q)%Q else q))
                      | None => Raise (ValueError g)
                      end
            end = Ok x -> fval x <> None).
  { intros neg body Hbody. unfold special.
    assert (Hl : lower_list body = body).
    { unfold lower_list. induction Hbody as [|c body Hc _ IH]; simpl; [done|]. by rewrite num_char_lower, IH. }
    rewrite Hl. destruct (_ || _); [intros [= <-]; by destruct neg|].
    case_decide as Hn.
    - exfalso. apply (f_equal list_ascii_of_string) in Hn.
      rewrite list_ascii_of_string_of_list_ascii in Hn. subst body. inversion Hbody as [|? ? Hc _].
      discriminate.
    - destruct (decimal body); [|discriminate]. destruct (Qeq_bool _ _); intros [= <-]; by destruct neg. }
  destruct (list_ascii_of_string g) as [|c r] eqn:E; [by apply Hb|].
  inversion Hg as [|? ? _ Hr]; subst.
  destruct (decide (c = "-"%char)) as [->|]; [by apply Hb|].
  destruct (decide (c = "+"%char)) as [->|]; [by apply Hb|].
  assert (Hcase : forall T (a b d : T), (match c with "-"%char => a | "+"%char => b | _ => d end) = d).
  { intros. destruct c as [[] [] [] [] [] [] [] []]; done. }
  rewrite Hcase. by apply Hb.
Qed.

Lemma take_while_Forall {A} (p : A -> bool) l : Forall (fun x => p x = true) (take_while p l).
Proof. induction l as [|x l IH]; simpl; [done|]. destruct (p x) eqn:E; by constructor. Qed.

Lemma barfiber_group_num_word name g : barfiber_group name = Some g -> num_word g.
Proof.
  unfold barfiber_group. destruct (py_endswith _ _); [|done].
  destruct (_ && _); [|done]. intros [= <-]. unfold num_word.
  rewrite list_ascii_of_string_of_list_ascii. apply Forall_rev, take_while_Forall.
Qed.

(** The second number of a file name is never [NaN]: its text has only
    the characters [[-.0-9]]. *)
Lemma extract_numbers_not_nan name a b :
  extract_numbers name = Ok (Some (a, b)) -> fval b <> None.
Proof.
  unfold extract_numbers. case_decide; [|done].
  destruct (py_getitem _ _); simpl; [|done].
  destruct (barfiber_group name) as [g|] eqn:Eg; [|done].
  destruct (py_float g) as [x|] eqn:Ex; simpl; [|done]. intros [= _ <-].
  by eapply py_float_num_word; [eapply barfiber_group_num_word|].
Qed.

(** ** The dictionaries *)

Section Dicts.
Context {V : Type}.

Lemma fdict_upd_keys k (f : option V -> V) d :
  fst <$> fdict_upd k f d = fset_add k (fst <$> d).
Proof.
  unfold fset_add. induction d as [|[k' v] d IH]; [done|]. cbn [fdict_upd].
  rewrite fmap_cons. cbn [fst existsb]. destruct (feqb k' k); rewrite fmap_cons; cbn [fst orb]; [done|].
  rewrite IH. by destruct (existsb _ _).
Qed.

(** An entry of the updated dict is an old one or the new value of [k],
    computed from the old value of a key. *)
Lemma fdict_upd_elem k (f : option V -> V) d br :
  br ∈ fdict_upd k f d ->
  br ∈ d \/ exists o, br.2 = f o /\ (forall v, o = Some v -> exists k', (k', v) ∈ d).
Proof.
  induction d as [|[k' v] d IH]; simpl.
  - intros ->%list_elem_of_singleton. right. exists None. split; [done|]. by intros ??.
  - destruct (feqb k' k); intros [->|Hin]%elem_of_cons.
    + right. exists (Some v). split; [done|]. intros ? [= <-]. exists k'. by left.
    + left. by right.
    + left. by left.
    + destruct (IH Hin) as [Hd|(o & Ho & Hk)]; [left; by right|].
      right. exists o. split; [done|]. intros v' Hv'. destruct (Hk v' Hv') as [k'' ?]. exists k''. by right.
Qed.

(** An old entry survives, possibly with its value updated. *)
Lemma fdict_upd_keeps k (f : option V -> V) d k' v :
  (k', v) ∈ d -> (k', v) ∈ fdict_upd k f d \/ (k', f (Some v)) ∈ fdict_upd k f d.
Proof.
  induction d as [|[k'' v''] d IH]; simpl; [by intros ?%elem_of_nil|].
  intros [[= -> ->]|Hin]%elem_of_cons.
  - destruct (feqb k'' k); [right|left]; by left.
  - destruct (feqb k'' k); [left; by right|]. destruct (IH Hin); [left|right]; by right.
Qed.

(** The new value of [k] is in the dict. *)
Lemma fdict_upd_new k (f : option V -> V) d :
  exists k' o, (k', f o) ∈ fdict_upd k f d /\ (forall v, o = Some v -> exists k'', (k'', v) ∈ d).
Proof.
  induction d as [|[k' v] d IH]; simpl.
  - exists k, None. split; [by left | by intros ??].
  - destruct (feqb k' k).
    + exists k', (Some v). split; [by left|]. intros ? [= <-]. exists k'. by left.
    + destruct IH as (k'' & o & Hin & Ho). exists k'', o. split; [by right|].
      intros v' Hv'. destruct (Ho v' Hv') as [k3 ?]. exists k3. by right.
Qed.

Lemma sdict_set_keys (k : string) (v : V) d x :
  x ∈ fst <$> sdict_set k v d <-> x = k \/ x ∈ fst <$> d.
Proof.
  induction d as [|[k' v'] d IH]; simpl.
  - rewrite list_elem_of_singleton, elem_of_nil. tauto.
  - case_decide; subst; simpl; rewrite !elem_of_cons; [|rewrite IH]; tauto.
Qed.

Lemma sdict_set_nonempty (k : string) (v : V) d : sdict_set k v d <> [].
Proof. destruct d as [|[] ?]; simpl; [done|]. by case_decide. Qed.

(** [fdict_get] finds the value of a numeric key among pairwise
    different keys. *)
Lemma fdict_get_elem k (v : V) d :
  ForallOrdPairs (fun x y => feqb x y = false) (fst <$> d) -> fval k <> None ->
  (k, v) ∈ d -> fdict_get k d = Some v.
Proof.
  intros Hd Hk. induction d as [|[k' v'] d IH]; simpl; [by intros ?%elem_of_nil|].
  rewrite fmap_cons in Hd. inversion Hd as [|? ? Hhd Hd']; subst.
  intros [[= -> ->]|Hin]%elem_of_cons; [by rewrite feqb_refl|].
  rewrite (proj1 (Forall_forall _ _) Hhd k); [by apply IH|].
  apply list_elem_of_fmap. by exists (k, v).
Qed.

(** [d[k]] right after [d[k] = f(d.get(k))], for a numeric key. *)
Lemma fdict_get_upd_same k (f : option V -> V) d :
  fval k <> None -> fdict_get k (fdict_upd k f d) = Some (f (fdict_get k d)).
Proof.
  intros Hk. induction d as [|[k' v] d IH]; simpl; [by rewrite feqb_refl|].
  destruct (feqb k' k) eqn:E; simpl; rewrite E; [done | apply IH].
Qed.

Lemma assoc_lookup_sdict_set {EqD : EqDecision string} (k : string) (v : V) d :
  assoc_lookup k (sdict_set k v d) = Some v.
Proof.
  induction d as [|[k' v'] d IH]; simpl; [by rewrite decide_True|].
  case_decide as Hk; simpl; [by rewrite decide_True | by rewrite decide_False by congruence].
Qed.
End Dicts.

Lemma ForallOrdPairs_snoc {A} (R : A -> A -> Prop) l x :
  ForallOrdPairs R l -> Forall (fun y => R y x) l -> ForallOrdPairs R (l ++ [x]).
Proof.
  induction 1 as [|y l Hhd Hl IH]; simpl; intros Hx; [repeat constructor|].
  inversion Hx; subst. constructor; [|by apply IH]. apply Forall_app. split; [done|by constructor].
Qed.

Lemma fset_add_distinct x s :
  ForallOrdPairs (fun x y => feqb x y = false) s -> ForallOrdPairs (fun x y => feqb x y = false) (fset_add x s).
Proof.
  unfold fset_add. intros Hs. destruct (existsb _ _) eqn:E; [done|].
  apply ForallOrdPairs_snoc; [done|]. apply Forall_forall. intros y Hy.
  destruct (feqb y x) eqn:Ey; [|done]. exfalso.
  assert (existsb (fun y => feqb y x) s = true) by (apply existsb_exists; exists y; by rewrite <- list_elem_of_In).
  congruence.
Qed.

Lemma fset_add_elem x s y : y ∈ fset_add x s -> y = x \/ y ∈ s.
Proof. unfold fset_add. destruct (existsb _ _); [by right|]. rewrite elem_of_app, list_elem_of_singleton. tauto. Qed.

Lemma sset_add_elem x s y : y ∈ sset_add x s <-> y = x \/ y ∈ s.
Proof.
  unfold sset_add. case_decide; [split; [tauto|]; by intros [->|]|].
  rewrite elem_of_app, list_elem_of_singleton. tauto.
Qed.

Lemma sset_add_NoDup x s : NoDup s -> NoDup (sset_add x s).
Proof.
  unfold sset_add. intros Hs. case_decide; [done|]. apply NoDup_app. split_and!; [done| |apply NoDup_singleton].
  intros y Hy ->%list_elem_of_singleton. done.
Qed.

(** ** The shape of the dictionaries *)

(** What the dictionaries of a folder keep while its entries are read:
    [results] has the keys of [all_num_b], each a number and no two equal;
    every inner dict is non-empty and uses labels of [all_num_a], which
    has no repetition; every label has a cell in some inner dict. *)
Record acc_wf (acc : folder_acc) : Prop := {
  wf_keys : fst <$> results acc = all_num_b acc;
  wf_numeric : Forall (fun b => fval b <> None) (all_num_b acc);
  wf_distinct : ForallOrdPairs (fun x y => feqb x y = false) (all_num_b acc);
  wf_labels_nodup : NoDup (all_num_a acc);
  wf_rows : Forall (fun br => br.2 <> [] /\ Forall (fun a => a ∈ all_num_a acc) (fst <$> br.2)) (results acc);
  wf_labels_used : Forall (fun a => exists br, br ∈ results acc /\ a ∈ fst <$> br.2) (all_num_a acc)
}.

(** The dictionaries of a folder read to the end: the loop of lines
    111-127 started from the empty ones of lines 104-107. *)
Definition folder_dicts (fp : string) (names : list string) (w : world bf_output) : res folder_acc :=
  (collect_files fp acc0 names w).1.

Lemma acc0_wf : acc_wf acc0.
Proof. split; simpl; by repeat constructor. Qed.

(** The cell written by [record_file]. *)
Definition new_row (num_a : string) (v : pyfloat) (old : option (list (string * pyfloat))) :=
  sdict_set num_a v (default [] old).

Lemma record_file_wf acc fp a b m errs :
  fval b <> None -> acc_wf acc -> acc_wf (record_file acc fp a b m errs).
Proof.
  intros Hb [Hk Hn Hd Hna Hr Hu]. unfold record_file.
  destruct m as [v|]; [|by split]. split; simpl.
  - by rewrite fdict_upd_keys, Hk.
  - unfold fset_add. destruct (existsb _ _); [done|]. apply Forall_app. by split; [|constructor].
  - by apply fset_add_distinct.
  - by apply sset_add_NoDup.
  - apply Forall_forall. intros br [Hin|(o & Ho & Hold)]%fdict_upd_elem.
    + rewrite Forall_forall in Hr. destruct (Hr br Hin) as [Hne Hl]. split; [done|].
      eapply Forall_impl; [exact Hl|]. intros x Hx. apply sset_add_elem. by right.
    + rewrite Ho. split; [apply sdict_set_nonempty|]. apply Forall_forall. intros x Hx.
      apply sset_add_elem. apply sdict_set_keys in Hx as [->|Hx]; [by left|right].
      destruct o as [row|]; [|by apply elem_of_nil in Hx]. destruct (Hold row eq_refl) as [k' Hrow].
      rewrite Forall_forall in Hr. destruct (Hr _ Hrow) as [_ Hl]. rewrite Forall_forall in Hl. by apply Hl.
  - apply Forall_forall. intros x [->|Hx]%sset_add_elem.
    + destruct (fdict_upd_new b (new_row a (fmul_int v 1000)) (results acc)) as (k' & o & Hin & _).
      exists (k', new_row a (fmul_int v 1000) o). split; [done|]. apply sdict_set_keys. by left.
    + rewrite Forall_forall in Hu. destruct (Hu x Hx) as ([k' row] & Hin & Hxr).
      destruct (fdict_upd_keeps b (new_row a (fmul_int v 1000)) _ k' row Hin) as [H|H];
        eexists; split; [exact H|done|exact H|]. apply sdict_set_keys. by right.
Qed.

Lemma collect_file_wf fp acc name (w : world bf_output) acc' w' :
  acc_wf acc -> collect_file fp acc name w = (Ok acc', w') -> acc_wf acc'.
Proof.
  unfold collect_file. intros Hwf. destruct (name_matches name); [|by intros [= <- _]].
  unfold mbind, io_bind, io_lift.
  destruct (extract_numbers name) as [[[a b]|]|e] eqn:E; [|by intros [= <- _]|done].
  destruct (process_file (path_join fp name) w) as [[r|] w1]; [|done]. intros [= <- _].
  apply record_file_wf; [by eapply extract_numbers_not_nan|done].
Qed.

Lemma collect_files_wf fp acc names (w : world bf_output) acc' w' :
  acc_wf acc -> collect_files fp acc names w = (Ok acc', w') -> acc_wf acc'.
Proof.
  revert acc w; induction names as [|name names IH]; intros acc w Hwf; simpl; [by intros [= <- _]|].
  unfold mbind, io_bind. destruct (collect_file fp acc name w) as [[acc1|] w1] eqn:E; [|done].
  apply IH. by eapply collect_file_wf.
Qed.

(** The entries of a listing read one after the other. *)
Lemma collect_files_snoc fp acc names name (w : world bf_output) acc1 w1 :
  collect_files fp acc names w = (Ok acc1, w1) ->
  collect_files fp acc (names ++ [name]) w = collect_file fp acc1 name w1.
Proof.
  revert acc w; induction names as [|n names IH]; intros acc w; simpl.
  - intros [= <- <-]. unfold mbind, io_bind. by destruct (collect_file fp acc name w) as [[]].
  - unfold mbind at 1 2, io_bind at 1 2. destruct (collect_file fp acc n w) as [[acc2|] w2]; [|done].
    apply IH.
Qed.

(** ** What the table then holds *)

Section Table.
Context `{FloatStr}.

(** A label of an inner dict has a value in the table. *)
Lemma wf_cell acc b row a :
  acc_wf acc -> (b, row) ∈ results acc -> a ∈ fst <$> row -> cell_of (results acc) b a <> "error".
Proof.
  intros [Hk Hn Hd _ _ _] Hin Ha. unfold cell_of.
  assert (Hb : b ∈ all_num_b acc) by (rewrite <- Hk; apply list_elem_of_fmap; by exists (b, row)).
  rewrite Forall_forall in Hn.
  rewrite (fdict_get_elem b row) by (try rewrite Hk; auto). simpl.
  destruct (assoc_lookup_elem a row Ha) as [v ->]. apply float_str_not_error.
Qed.

Lemma wf_row_value acc b :
  acc_wf acc -> b ∈ all_num_b acc -> exists a, a ∈ all_num_a acc /\ cell_of (results acc) b a <> "error".
Proof.
  intros Hwf Hb. pose proof Hwf as [Hk _ _ _ Hr _].
  rewrite <- Hk in Hb. apply list_elem_of_fmap in Hb as ([b' row] & -> & Hin).
  rewrite Forall_forall in Hr. destruct (Hr _ Hin) as [Hne Hl].
  destruct row as [|[a v] row]; [done|]. exists a. split.
  - rewrite Forall_forall in Hl. apply Hl. by left.
  - eapply wf_cell; [done|exact Hin|by left].
Qed.

Lemma wf_column_value acc a :
  acc_wf acc -> a ∈ all_num_a acc -> exists b, b ∈ all_num_b acc /\ cell_of (results acc) b a <> "error".
Proof.
  intros Hwf Ha. pose proof Hwf as [Hk _ _ _ _ Hu].
  rewrite Forall_forall in Hu. destruct (Hu a Ha) as ([b row] & Hin & Har).
  exists b. split; [rewrite <- Hk; apply list_elem_of_fmap; by exists (b, row)|].
  by eapply wf_cell.
Qed.
End Table.

(** ** Sizes *)

Lemma fset_add_length x s : length (fset_add x s) <= S (length s).
Proof. unfold fset_add. destruct (existsb _ _); [lia|]. rewrite length_app. simpl. lia. Qed.

Lemma sset_add_length x s : length (sset_add x s) <= S (length s).
Proof. unfold sset_add. case_decide; [lia|]. rewrite length_app. simpl. lia. Qed.

Lemma record_file_lengths acc fp a b m errs :
  length (all_num_a (record_file acc fp a b m errs)) <= S (length (all_num_a acc)) /\
  length (all_num_b (record_file acc fp a b m errs)) <= S (length (all_num_b acc)).
Proof.
  unfold record_file. destruct m; simpl; [|lia].
  split; [apply sset_add_length | apply fset_add_length].
Qed.

(** Every matching name adds at most one label and one value of [b]. *)
Lemma collect_files_lengths fp acc names (w : world bf_output) acc' w' :
  collect_files fp acc names w = (Ok acc', w') ->
  length (all_num_a acc') <= length (all_num_a acc) + length (List.filter name_matches names) /\
  length (all_num_b acc') <= length (all_num_b acc) + length (List.filter name_matches names).
Proof.
  revert acc w; induction names as [|name names IH]; intros acc w; simpl; [intros [= <- _]; lia|].
  unfold mbind at 1, io_bind at 1. destruct (collect_file fp acc name w) as [[acc1|] w1] eqn:E; [|done].
  intros Hr. destruct (IH acc1 w1 Hr) as [Ha Hb]. clear IH Hr.
  unfold collect_file in E. destruct (name_matches name); simpl.
  - unfold mbind, io_bind, io_lift in E.
    destruct (extract_numbers name) as [[[a b]|]|e]; [|injection E as <- _; lia|done].
    destruct (process_file (path_join fp name) w) as [[r|] w2]; [|done]. injection E as <- _.
    destruct (record_file_lengths acc (path_join fp name) a b r.1 r.2). lia.
  - injection E as <- _. lia.
Qed.

Lemma folder_dicts_Ok fp names w acc :
  folder_dicts fp names w = Ok acc -> exists w', collect_files fp acc0 names w = (Ok acc, w').
Proof. unfold folder_dicts. destruct (collect_files fp acc0 names w) as [r w']. simpl. intros ->. by exists w'. Qed.

(** ** The properties of a folder's table *)

(** C36 (type). Whatever [os.listdir] gives and whatever the files hold,
    the dictionaries of a folder that is read to the end have the shape
    [acc_wf]: the keys of [results] are exactly [all_num_b], numeric and
    pairwise different, and every inner dict is a non-empty dict over
    labels of [all_num_a], each label used. *)
Theorem folder_dicts_wf fp names (w : world bf_output) acc :
  folder_dicts fp names w = Ok acc -> acc_wf acc.
Proof. intros (w' & E)%folder_dicts_Ok. eapply collect_files_wf; [apply acc0_wf | exact E]. Qed.

(** C37 (functional). In the table of a folder (lines 146-153) no line
    is only ["error"] and no column is: every row [b] of
    [sorted(all_num_b)] has a value in some column of the sorted labels,
    and every column has a value in some row. *)
Theorem folder_table_filled `{FloatStr} fp names (w : world bf_output) acc sorted_a :
  folder_dicts fp names w = Ok acc -> sort_labels (all_num_a acc) = Ok sorted_a ->
  (forall b, b ∈ sort_values (all_num_b acc) -> exists a, a ∈ sorted_a /\ cell_of (results acc) b a <> "error") /\
  (forall a, a ∈ sorted_a -> exists b, b ∈ sort_values (all_num_b acc) /\ cell_of (results acc) b a <> "error").
Proof.
  intros (w' & E)%folder_dicts_Ok Hs. pose proof (collect_files_wf fp acc0 names w acc w' acc0_wf E) as Hwf.
  apply sort_labels_perm in Hs. unfold sort_values.
  assert (Hpb : py_sorted flt (all_num_b acc) ≡ₚ all_num_b acc) by apply py_sorted_perm.
  split.
  - intros b Hb. rewrite Hpb in Hb. destruct (wf_row_value acc b Hwf Hb) as (a & Ha & Hc).
    exists a. by rewrite Hs.
  - intros a Ha. rewrite Hs in Ha. destruct (wf_column_value acc a Hwf Ha) as (b & Hb & Hc).
    exists b. by rewrite Hpb.
Qed.

(** C38 (bounds). A folder's table has at most one row and at most one
    column per entry of [os.listdir] whose name matches the pattern of
    line 110. *)
Theorem folder_table_size fp names (w : world bf_output) acc :
  folder_dicts fp names w = Ok acc ->
  length (sort_values (all_num_b acc)) <= length (List.filter name_matches names) /\
  length (all_num_a acc) <= length (List.filter name_matches names).
Proof.
  intros (w' & E)%folder_dicts_Ok. destruct (collect_files_lengths fp acc0 names w acc w' E) as [Ha Hb]. simpl in Ha, Hb.
  unfold sort_values. rewrite (Permutation_length (py_sorted_perm flt _)). lia.
Qed.

(** C28 (safety). Two entries of a folder that give the same [(a, b)],
    such as [barfiber1.out] and [barfiber1.0.out], are not reported: the
    last one [os.listdir] gives overwrites [results[num_b][num_a]]
    (line 124), so its value is the cell of the table whatever the
    earlier entries held, and the table depends on the order of the
    directory listing. *)
Theorem folder_last_file_wins `{FloatStr} fp names name (w : world bf_output) acc1 w1 a b m errs w2 :
  collect_files fp acc0 names w = (Ok acc1, w1) ->
  name_matches name = true -> extract_numbers name = Ok (Some (a, b)) ->
  process_file (path_join fp name) w1 = (Ok (Some m, errs), w2) ->
  exists acc, folder_dicts fp (names ++ [name]) w = Ok acc /\
    cell_of (results acc) b a = float_str (fmul_int m 1000).
Proof.
  intros E Hn Hx Hp. pose proof (extract_numbers_not_nan _ _ _ Hx) as Hb.
  unfold folder_dicts. rewrite (collect_files_snoc _ _ _ _ _ _ _ E).
  unfold collect_file. rewrite Hn. unfold mbind, io_bind, io_lift. rewrite Hx, Hp. simpl.
  eexists; split; [done|]. unfold cell_of, record_file. simpl.
  rewrite fdict_get_upd_same by done. simpl. by rewrite assoc_lookup_sdict_set.
Qed.

(** A folder of three result files and a note: [B2] and [B1] at
    [b = 0.5], [B1] at [b = 1]. *)
Definition sample_folder : world bf_output :=
  mk_world {[ "f/S2_B2_IDA_8.5MPa_barfiber0.5.out" := "1.0 -3.0";
              "f/S2_B1_IDA_8.5MPa_barfiber0.5.out" := "2";
              "f/S2_B1_IDA_8.5MPa_barfiber1.out" := "x 4" ]} [].

Definition sample_names : list string :=
  ["S2_B2_IDA_8.5MPa_barfiber0.5.out"; "S2_B1_IDA_8.5MPa_barfiber0.5.out";
   "S2_B1_IDA_8.5MPa_barfiber1.out"; "notes.txt"].

Definition sample_acc : folder_acc :=
  mk_acc [(PFin (5 # 10), [("B2", PFin (30000 # 10)); ("B1", PFin (2000 # 1))]);
          (PFin (1 # 1), [("B1", PFin (4000 # 1))])]
         ["B2"; "B1"] [PFin (5 # 10); PFin (1 # 1)] [].

Lemma sample_collect : folder_dicts "f" sample_names sample_folder = Ok sample_acc.
Proof. vm_compute. reflexivity. Qed.

Lemma folder_dicts_wf_witness :
  folder_dicts "f" sample_names sample_folder = Ok sample_acc /\ acc_wf sample_acc.
Proof. split; [vm_compute; reflexivity | exact (folder_dicts_wf _ _ _ _ sample_collect)]. Defined.

Lemma folder_table_filled_witness :
  sort_labels (all_num_a sample_acc) = Ok ["B1"; "B2"] /\
  (forall b, b ∈ sort_values (all_num_b sample_acc) ->
     exists a, a ∈ ["B1"; "B2"] /\ cell_of (results sample_acc) b a <> "error") /\
  (forall a, a ∈ ["B1"; "B2"] ->
     exists b, b ∈ sort_values (all_num_b sample_acc) /\ cell_of (results sample_acc) b a <> "error").
Proof.
  assert (Hs : sort_labels (all_num_a sample_acc) = Ok ["B1"; "B2"]) by (vm_compute; reflexivity).
  split; [exact Hs|]. exact (folder_table_filled "f" sample_names sample_folder _ _ sample_collect Hs).
Defined.

Lemma folder_table_size_witness :
  folder_dicts "f" sample_names sample_folder = Ok sample_acc /\
  length (sort_values (all_num_b sample_acc)) <= length (List.filter name_matches sample_names) /\
  length (all_num_a sample_acc) <= length (List.filter name_matches sample_names).
Proof. split; [vm_compute; reflexivity | exact (folder_table_size _ _ _ _ sample_collect)]. Defined.

Lemma folder_last_file_wins_witness :
  let x := "S2_B1_IDA_8.5MPa_barfiber1.out" in
  let y := "S2_B1_IDA_8.5MPa_barfiber1.0.out" in
  let w : world bf_output := mk_world {[ "F/" +:+ x := "0.001"; "F/" +:+ y := "0.002" ]} [] in
  (exists acc, folder_dicts "F" [x; y] w = Ok acc /\ cell_of (results acc) (PFin (10 # 10)) "B1" = "2.0") /\
  (exists acc, folder_dicts "F" [y; x] w = Ok acc /\ cell_of (results acc) (PFin (1 # 1)) "B1" = "1.0").
Proof.
  intros x y w. split.
  - destruct (folder_last_file_wins (H:=decimal_float_str) "F" [x] y w
      (mk_acc [(PFin (1 # 1), [("B1", PFin (1000 # 1000))])] ["B1"] [PFin (1 # 1)] []) w
      "B1" (PFin (10 # 10)) (PFin (2 # 1000)) [] w) as (acc & Hacc & Hc);
      [vm_compute; reflexivity .. |].
    exists acc. split; [exact Hacc | rewrite Hc; vm_compute; reflexivity].
  - destruct (folder_last_file_wins (H:=decimal_float_str) "F" [y] x w
      (mk_acc [(PFin (10 # 10), [("B1", PFin (2000 # 1000))])] ["B1"] [PFin (10 # 10)] []) w
      "B1" (PFin (1 # 1)) (PFin (1 # 1000)) [] w) as (acc & Hacc & Hc);
      [vm_compute; reflexivity .. |].
    exists acc. split; [exact Hacc | rewrite Hc; vm_compute; reflexivity].
Defined.
